(** * Action-risk governance layer of the browser agent: a shallow embedding

    The development follows the Python package [security] file by file:
    [interfaces.py], [utils.py], [pattern_matcher.py], [context_analyzer.py],
    [rule_engine.py], [risk_assessor.py], [audit_logger.py],
    [confirmation_requester.py] and [security_layer.py].  Each Rocq module
    carries the name of the class or file it embeds and each definition the
    name of the method it embeds.

    Conventions of the embedding.
    - A Python [str] is a Rocq [string] holding its UTF-8 encoding; operations
      that Python performs on code points ([lower], slicing, [len], regular
      expressions) go through [PyStr.cps].
    - A Python [float] is a primitive binary64 [float]; the integer literals the
      code mixes with floats ([0], [5], [20], [25], [100]) are their exact
      float values.
    - A Python [dict] with string keys whose values are JSON-like is an
      association list ([pydict]); a Python [set] of strings is a [gset string].
    - Exceptions are values of the error monad [res].
    - [datetime.now()] is the argument [now] (microseconds) of the function that
      reads the clock; the standard output written by [print] is not modelled. *)

From Stdlib Require Import ZArith NArith List String Ascii Bool Lia Floats.
From stdpp Require Import gmap strings.
Import ListNotations.

#[local] Open Scope string_scope.
#[local] Open Scope N_scope.
#[local] Set Warnings "-inexact-float,-register-all".

(* ===================================================================== *)
(** ** Python strings *)
(* ===================================================================== *)

Module PyStr.

(** The bytes of a string, as numbers. *)
Fixpoint bytes (s : string) : list N :=
  match s with
  | EmptyString => []
  | String a r => N_of_ascii a :: bytes r
  end.

Fixpoint of_bytes (l : list N) : string :=
  match l with
  | [] => EmptyString
  | b :: r => String (ascii_of_N b) (of_bytes r)
  end.

(** UTF-8 decoding.  A byte that does not start a well-formed sequence is kept
    as a code point of its own; such strings do not denote a Python [str]. *)
Fixpoint utf8_decode (bs : list N) : list N :=
  match bs with
  | [] => []
  | b0 :: r0 =>
    if b0 <? 0xC0 then b0 :: utf8_decode r0
    else if b0 <? 0xE0 then
      match r0 with
      | b1 :: r1 => ((b0 mod 32) * 64 + b1 mod 64) :: utf8_decode r1
      | _ => b0 :: utf8_decode r0
      end
    else if b0 <? 0xF0 then
      match r0 with
      | b1 :: b2 :: r2 =>
          ((b0 mod 16) * 4096 + (b1 mod 64) * 64 + b2 mod 64) :: utf8_decode r2
      | _ => b0 :: utf8_decode r0
      end
    else
      match r0 with
      | b1 :: b2 :: b3 :: r3 =>
          ((b0 mod 8) * 262144 + (b1 mod 64) * 4096 + (b2 mod 64) * 64 + b3 mod 64)
            :: utf8_decode r3
      | _ => b0 :: utf8_decode r0
      end
  end.

Definition utf8_encode1 (c : N) : list N :=
  if c <? 0x80 then [c]
  else if c <? 0x800 then [0xC0 + c / 64; 0x80 + c mod 64]
  else if c <? 0x10000 then
    [0xE0 + c / 4096; 0x80 + (c / 64) mod 64; 0x80 + c mod 64]
  else [0xF0 + c / 262144; 0x80 + (c / 4096) mod 64;
        0x80 + (c / 64) mod 64; 0x80 + c mod 64].

(** [cps s]: the code points of the [str]; [of_cps] is its inverse on text. *)
Definition cps (s : string) : list N := utf8_decode (bytes s).
Definition of_cps (l : list N) : string := of_bytes (flat_map utf8_encode1 l).

Definition between (lo hi c : N) : bool := (lo <=? c) && (c <=? hi).

(** [str.lower] and [str.upper] on one code point: Basic Latin, Latin-1 and
    Cyrillic, the scripts of the package's word lists; other code points are
    left as they are. *)
Definition lower_cp (c : N) : N :=
  if between 0x41 0x5A c then c + 32
  else if between 0xC0 0xDE c && negb (c =? 0xD7) then c + 32
  else if between 0x410 0x42F c then c + 32
  else if between 0x400 0x40F c then c + 80
  else c.

Definition upper_cp (c : N) : N :=
  if between 0x61 0x7A c then c - 32
  else if between 0xE0 0xFE c && negb (c =? 0xF7) then c - 32
  else if between 0x430 0x44F c then c - 32
  else if between 0x450 0x45F c then c - 80
  else c.

Definition lower (s : string) : string := of_cps (map lower_cp (cps s)).
Definition upper (s : string) : string := of_cps (map upper_cp (cps s)).

(** [len(s)]. *)
Definition len (s : string) : nat := List.length (cps s).

(** [s[:n]] and [s[-n:]] for [n > 0]. *)
Definition take (n : nat) (s : string) : string := of_cps (firstn n (cps s)).
Definition take_last (n : nat) (s : string) : string :=
  let l := cps s in of_cps (skipn (List.length l - n) l).

(** [s.startswith(p)], [s.endswith(p)] and [p in s]. *)
Definition startswith (s p : string) : bool := String.prefix p s.

Fixpoint contains_from (p s : string) : bool :=
  String.prefix p s ||
  match s with
  | EmptyString => false
  | String _ r => contains_from p r
  end.

(** [p in s] *)
Definition contains (p s : string) : bool := contains_from p s.

Definition endswith (s p : string) : bool :=
  let ls := String.length s in
  let lp := String.length p in
  (lp <=? ls)%nat && String.eqb (String.substring (ls - lp) lp s) p.

(** [any(w in s for w in ws)] *)
Definition any_in (ws : list string) (s : string) : bool :=
  existsb (fun w => contains w s) ws.

(** [str.isspace] on one code point. *)
Definition is_space (c : N) : bool :=
  between 0x09 0x0D c || between 0x1C 0x20 c || (c =? 0x85) || (c =? 0xA0)
  || (c =? 0x1680) || between 0x2000 0x200A c || (c =? 0x2028)
  || (c =? 0x2029) || (c =? 0x202F) || (c =? 0x205F) || (c =? 0x3000).

Definition is_digit (c : N) : bool := between 0x30 0x39 c.

(** [\w]: letters, digits and the underscore, over the same scripts as
    [lower_cp]. *)
Definition is_word (c : N) : bool :=
  between 0x30 0x39 c || between 0x41 0x5A c || between 0x61 0x7A c
  || (c =? 0x5F) || (c =? 0xAA) || (c =? 0xB5) || (c =? 0xBA)
  || (between 0xC0 0xFF c && negb (c =? 0xD7) && negb (c =? 0xF7))
  || between 0x400 0x481 c || between 0x48A 0x52F c.

(** [len(s.split())]: the number of maximal runs of non-space characters. *)
Fixpoint count_words (inw : bool) (l : list N) : nat :=
  match l with
  | [] => 0
  | c :: r =>
      if is_space c then count_words false r
      else if inw then count_words true r else S (count_words true r)
  end.

Definition word_count (s : string) : nat := count_words false (cps s).

Fixpoint drop_spaces (l : list N) : list N :=
  match l with
  | c :: r => if is_space c then drop_spaces r else l
  | [] => []
  end.

(** [s.strip()] *)
Definition strip (s : string) : string :=
  of_cps (rev (drop_spaces (rev (drop_spaces (cps s))))).

(** Decimal numeral of a natural number, as Python prints it. *)
Fixpoint digits_fuel (fuel : nat) (n : N) (acc : list N) : list N :=
  match fuel with
  | O => acc
  | S f =>
      let acc' := (0x30 + n mod 10) :: acc in
      if n <? 10 then acc' else digits_fuel f (n / 10) acc'
  end.

Definition digits_of_N (n : N) : list N := digits_fuel (S (N.to_nat (N.log2 n))) n [].

Definition str_of_N (n : N) : string := of_bytes (digits_of_N n).

Definition str_of_Z (z : Z) : string :=
  match z with
  | Zneg p => ("-" ++ str_of_N (Npos p))%string
  | _ => str_of_N (Z.to_N z)
  end.

End PyStr.

(* ===================================================================== *)
(** ** Regular expressions ([re])

    The fragment of Python's [re] the package's patterns are written in:
    literals, [.], character classes, the escapes [\d \s \w \b], the anchors
    [^ $], groups, alternation and greedy or lazy repetition, matched by
    backtracking in the order of CPython's engine, with [re.IGNORECASE] as a
    flag.  [compile] reads the pattern text, so the patterns below are the
    source's, character for character. *)
(* ===================================================================== *)

Module PyRe.
Import PyStr.

Inductive citem : Type :=
| IChar (c : N)
| IRange (lo hi : N)
| IDigit (neg : bool)
| ISpace (neg : bool)
| IWord (neg : bool).

Inductive re : Type :=
| REmpty
| RAny
| RSet (neg : bool) (items : list citem)
| RSeq (a b : re)
| RAlt (a b : re)
| RRep (r : re) (lo : nat) (hi : option nat) (greedy : bool)
| RGroup (idx : nat) (r : re)
| RBol
| REol
| RWordB (neg : bool).

(** *** Matching *)

Definition item_match (icase : bool) (c : N) (i : citem) : bool :=
  match i with
  | IChar x => if icase then lower_cp c =? lower_cp x else c =? x
  | IRange lo hi =>
      if icase
      then between lo hi (lower_cp c) || between lo hi (upper_cp (lower_cp c))
      else between lo hi c
  | IDigit neg => xorb neg (is_digit c)
  | ISpace neg => xorb neg (is_space c)
  | IWord neg => xorb neg (is_word c)
  end.

(** The matcher's position: index, previous character, remaining text, and
    the text of the groups closed so far (latest first). *)
Record mst : Type := MSt {
  m_pos : nat;
  m_prev : option N;
  m_rest : list N;
  m_caps : list (nat * list N)
}.

Definition step1 (s : mst) (ok : N -> bool) (k : mst -> option mst) : option mst :=
  match m_rest s with
  | c :: t => if ok c then k (MSt (S (m_pos s)) (Some c) t (m_caps s)) else None
  | [] => None
  end.

Definition is_word_opt (o : option N) : bool :=
  match o with Some c => is_word c | None => false end.

Definition at_boundary (s : mst) : bool :=
  xorb (is_word_opt (m_prev s)) (is_word_opt (hd_error (m_rest s))).

Definition below (n : nat) (hi : option nat) : bool :=
  match hi with None => true | Some h => (n <? h)%nat end.

Definition set_cap (i : nat) (txt : list N) (s : mst) : mst :=
  MSt (m_pos s) (m_prev s) (m_rest s) ((i, txt) :: m_caps s).

Definition orelse {A} (a : option A) (b : unit -> option A) : option A :=
  match a with Some x => Some x | None => b tt end.

(** [mrun icase r s k]: match [r] at [s], then continue with [k]; the first
    success in the engine's priority order.  A repetition tries one more
    iteration when the count is below the minimum, or below the maximum and the
    previous iteration consumed text (the engine's zero-width protection). *)
Fixpoint mrun (icase : bool) (r : re) (s : mst) (k : mst -> option mst)
  {struct r} : option mst :=
  match r with
  | REmpty => k s
  | RAny => step1 s (fun c => negb (c =? 10)) k
  | RSet neg items =>
      step1 s (fun c => xorb neg (existsb (item_match icase c) items)) k
  | RSeq a b => mrun icase a s (fun s' => mrun icase b s' k)
  | RAlt a b => orelse (mrun icase a s k) (fun _ => mrun icase b s k)
  | RRep r0 lo hi greedy =>
      (fix loop (fuel n : nat) (last : option nat) (s0 : mst) {struct fuel}
         : option mst :=
         match fuel with
         | O => None
         | S fuel' =>
             let can_iter :=
               below n hi &&
               ((n <? lo)%nat ||
                match last with
                | Some p => negb (p =? m_pos s0)%nat
                | None => true
                end) in
             let more (_ : unit) :=
               if can_iter
               then mrun icase r0 s0
                      (fun s1 => loop fuel' (S n) (Some (m_pos s0)) s1)
               else None in
             let stop (_ : unit) := if (lo <=? n)%nat then k s0 else None in
             if greedy then orelse (more tt) stop else orelse (stop tt) more
         end) (List.length (m_rest s) + lo + 2)%nat 0%nat None s
  | RGroup i r0 =>
      mrun icase r0 s
        (fun s' => k (set_cap i (firstn (m_pos s' - m_pos s) (m_rest s)) s'))
  | RBol => match m_prev s with None => k s | Some _ => None end
  | REol => match m_rest s with [] => k s | [10] => k s | _ => None end
  | RWordB neg => if xorb neg (at_boundary s) then k s else None
  end.

(** One match: where it starts and where it ends. *)
Definition hit : Type := (mst * mst)%type.

(** [scan]: the leftmost match at or after the position [(p, pv, l)];
    [adv] refuses an empty match at the first position tried. *)
Fixpoint scan (icase : bool) (r : re) (p : nat) (pv : option N) (l : list N)
  (adv : bool) : option hit :=
  let s := MSt p pv l [] in
  match mrun icase r s
          (fun e => if adv && (m_pos e =? p)%nat then None else Some e) with
  | Some e => Some (s, e)
  | None =>
      match l with
      | [] => None
      | c :: t => scan icase r (S p) (Some c) t false
      end
  end.

(** The successive non-overlapping matches, as [finditer] yields them. *)
Fixpoint hits (fuel : nat) (icase : bool) (r : re) (p : nat) (pv : option N)
  (l : list N) (adv : bool) : list hit :=
  match fuel with
  | O => []
  | S f =>
      match scan icase r p pv l adv with
      | None => []
      | Some (s, e) =>
          (s, e) :: hits f icase r (m_pos e) (m_prev e) (m_rest e)
                      (m_pos e =? m_pos s)%nat
      end
  end.

Definition finditer (icase : bool) (r : re) (text : list N) : list hit :=
  hits (2 * List.length text + 2) icase r 0%nat None text false.

(** [m.group(0)] and [m.group(i)] ([None] when the group took no part). *)
Definition group0 (h : hit) : list N :=
  firstn (m_pos (snd h) - m_pos (fst h)) (m_rest (fst h)).

Fixpoint assoc_nat {A} (i : nat) (l : list (nat * A)) : option A :=
  match l with
  | [] => None
  | (j, x) :: r => if (i =? j)%nat then Some x else assoc_nat i r
  end.

Definition group (i : nat) (h : hit) : option (list N) :=
  assoc_nat i (m_caps (snd h)).

(** *** Reading a pattern *)

Inductive perr : Type :=
| Malformed     (* [re.error] *)
| Unsupported.  (* valid or not, outside the fragment above *)

Inductive pres (A : Type) : Type :=
| POk (a : A)
| PErr (e : perr).
Arguments POk {A} a.
Arguments PErr {A} e.

#[export] Instance pres_bind : MBind pres :=
  fun A B f x => match x with POk a => f a | PErr e => PErr e end.

Definition ch (s : string) : N :=
  match s with String a _ => N_of_ascii a | EmptyString => 0 end.

Definition is_ascii_letter (c : N) : bool :=
  between 0x41 0x5A c || between 0x61 0x7A c.

Fixpoint read_digits (l : list N) (acc : list N) : list N * list N :=
  match l with
  | c :: r => if is_digit c then read_digits r (acc ++ [c]) else (acc, l)
  | [] => (acc, l)
  end.

Definition nat_of_digits (ds : list N) : nat :=
  fold_left (fun a d => (10 * a + N.to_nat (d - 0x30))%nat) ds 0%nat.

(** [{m}], [{m,}], [{,n}], [{m,n}] after the opening brace: the bounds and the
    rest, or [None] when the text is not a repetition (the brace is then a
    literal). *)
Definition read_braces (l : list N) : option (nat * option nat * list N) :=
  match l with
  | 125 :: _ => None
  | _ =>
      let '(lo, r1) := read_digits l [] in
      let '(hi, comma, r2) :=
        match r1 with
        | 44 :: r1' => let '(h, r) := read_digits r1' [] in (h, true, r)
        | _ => (lo, false, r1)
        end in
      match r2 with
      | 125 :: r3 =>
          Some (match lo with [] => 0%nat | _ => nat_of_digits lo end,
                match hi with [] => None | _ => Some (nat_of_digits hi) end,
                r3)
      | _ => None
      end
  end.

(** An escape inside or outside a class, after the backslash. *)
Inductive esc : Type :=
| EItem (i : citem)
| EBoundary (neg : bool)
| EBad (e : perr).

Definition read_escape (c : N) : esc :=
  if c =? ch "d" then EItem (IDigit false)
  else if c =? ch "D" then EItem (IDigit true)
  else if c =? ch "s" then EItem (ISpace false)
  else if c =? ch "S" then EItem (ISpace true)
  else if c =? ch "w" then EItem (IWord false)
  else if c =? ch "W" then EItem (IWord true)
  else if c =? ch "b" then EBoundary false
  else if c =? ch "B" then EBoundary true
  else if c =? ch "n" then EItem (IChar 10)
  else if c =? ch "t" then EItem (IChar 9)
  else if c =? ch "r" then EItem (IChar 13)
  else if c =? ch "f" then EItem (IChar 12)
  else if c =? ch "v" then EItem (IChar 11)
  else if c =? ch "a" then EItem (IChar 7)
  else if is_digit c || (c =? ch "x") || (c =? ch "u") || (c =? ch "U")
          || (c =? ch "N") || (c =? ch "A") || (c =? ch "Z")
       then EBad Unsupported
  else if is_ascii_letter c then EBad Malformed
  else EItem (IChar c).

(** One member of a class: a character or a category. *)
Definition read_member (l : list N) : pres (citem * list N) :=
  match l with
  | [] => PErr Malformed
  | 92 :: [] => PErr Malformed
  | 92 :: e :: r =>
      match read_escape e with
      | EItem i => POk (i, r)
      | EBoundary false => POk (IChar 8, r)
      | EBoundary true => PErr Malformed
      | EBad x => PErr x
      end
  | c :: r => POk (IChar c, r)
  end.

(** The members of a class up to the closing bracket; [first] lets a leading
    bracket stand for itself. *)
Fixpoint read_class (fuel : nat) (first : bool) (l : list N) (acc : list citem)
  : pres (list citem * list N) :=
  match fuel with
  | O => PErr Malformed
  | S f =>
      match l with
      | [] => PErr Malformed
      | 93 :: r => if first then read_class f false r (acc ++ [IChar 93])
                   else POk (acc, r)
      | _ =>
          '(lo, r1) ← read_member l;
          match r1 with
          | 45 :: 93 :: _ => read_class f false (tl r1) (acc ++ [lo; IChar 45])
          | 45 :: r2 =>
              '(hi, r3) ← read_member r2;
              match lo, hi with
              | IChar a, IChar b =>
                  if b <? a then PErr Malformed
                  else read_class f false r3 (acc ++ [IRange a b])
              | _, _ => PErr Malformed
              end
          | _ => read_class f false r1 (acc ++ [lo])
          end
      end
  end.

Definition is_anchor (r : re) : bool :=
  match r with RBol | REol | RWordB _ => true | _ => false end.

(** A repetition suffix after the atom [a]. *)
Definition read_repeat (a : re) (l : list N) : pres (re * list N) :=
  let bounds : option (nat * option nat * list N) :=
    match l with
    | 42 :: r => Some (0%nat, None, r)
    | 43 :: r => Some (1%nat, None, r)
    | 63 :: r => Some (0%nat, Some 1%nat, r)
    | 123 :: r => read_braces r
    | _ => None
    end in
  match bounds with
  | None => POk (a, l)
  | Some (lo, hi, r) =>
      if is_anchor a then PErr Malformed
      else if negb (below lo (option_map S hi)) then PErr Malformed
      else
        match r with
        | 63 :: r' =>
            match r' with
            | 42 :: _ | 43 :: _ | 63 :: _ => PErr Malformed
            | _ => POk (RRep a lo hi false, r')
            end
        | 43 :: _ => PErr Unsupported
        | 42 :: _ => PErr Malformed
        | 123 :: r' =>
            match read_braces r' with
            | Some _ => PErr Malformed
            | None => POk (RRep a lo hi true, r)
            end
        | _ => POk (RRep a lo hi true, r)
        end
  end.

(** Alternatives, sequences and atoms; [gi] numbers the next capturing
    group. *)
Fixpoint parse_alt (fuel : nat) (gi : nat) (l : list N)
  : pres (re * nat * list N) :=
  match fuel with
  | O => PErr Unsupported
  | S f =>
      '(a, g1, r1) ← parse_seq f gi l;
      match r1 with
      | 124 :: r2 =>
          '(b, g2, r3) ← parse_alt f g1 r2;
          POk (RAlt a b, g2, r3)
      | _ => POk (a, g1, r1)
      end
  end
with parse_seq (fuel : nat) (gi : nat) (l : list N)
  : pres (re * nat * list N) :=
  match fuel with
  | O => PErr Unsupported
  | S f =>
      match l with
      | [] => POk (REmpty, gi, l)
      | 124 :: _ => POk (REmpty, gi, l)
      | 41 :: _ => POk (REmpty, gi, l)
      | _ =>
          '(a, g1, r1) ← parse_atom f gi l;
          '(a', r2) ← read_repeat a r1;
          '(b, g2, r3) ← parse_seq f g1 r2;
          POk (match b with REmpty => a' | _ => RSeq a' b end, g2, r3)
      end
  end
with parse_atom (fuel : nat) (gi : nat) (l : list N)
  : pres (re * nat * list N) :=
  match fuel with
  | O => PErr Unsupported
  | S f =>
      match l with
      | [] => PErr Malformed
      | 40 :: 63 :: 58 :: r =>
          '(a, g1, r1) ← parse_alt f gi r;
          match r1 with
          | 41 :: r2 => POk (a, g1, r2)
          | _ => PErr Malformed
          end
      | 40 :: 63 :: _ => PErr Unsupported
      | 40 :: r =>
          '(a, g1, r1) ← parse_alt f (S gi) r;
          match r1 with
          | 41 :: r2 => POk (RGroup gi a, g1, r2)
          | _ => PErr Malformed
          end
      | 91 :: 94 :: r =>
          '(items, r1) ← read_class (S (List.length r)) true r [];
          POk (RSet true items, gi, r1)
      | 91 :: r =>
          '(items, r1) ← read_class (S (List.length r)) true r [];
          POk (RSet false items, gi, r1)
      | 92 :: [] => PErr Malformed
      | 92 :: e :: r =>
          match read_escape e with
          | EItem i => POk (RSet false [i], gi, r)
          | EBoundary neg => POk (RWordB neg, gi, r)
          | EBad x => PErr x
          end
      | 46 :: r => POk (RAny, gi, r)
      | 94 :: r => POk (RBol, gi, r)
      | 36 :: r => POk (REol, gi, r)
      | 42 :: _ | 43 :: _ | 63 :: _ => PErr Malformed
      | 123 :: r =>
          match read_braces r with
          | Some _ => PErr Malformed
          | None => POk (RSet false [IChar 123], gi, r)
          end
      | c :: r => POk (RSet false [IChar c], gi, r)
      end
  end.

(** A compiled pattern: the expression and the number of its groups. *)
Record pattern : Type := Pattern { p_re : re; p_groups : nat }.

(** [re.compile(pat)] *)
Definition compile (pat : string) : pres pattern :=
  let l := cps pat in
  '(r, g, rest) ← parse_alt (2 * List.length l + 4) 1%nat l;
  match rest with
  | [] => POk (Pattern r (g - 1))
  | _ => PErr Malformed
  end.

(** [bool(re.search(pat, text, flags))] *)
Definition search (pat text : string) (icase : bool) : pres bool :=
  p ← compile pat;
  POk (match scan icase (p_re p) 0%nat None (cps text) false with
       | Some _ => true
       | None => false
       end).

(** One element of [re.findall]'s list: the match when the pattern has no
    group, else the groups, an absent one as the empty string. *)
Definition findall_item (p : pattern) (h : hit) : list string :=
  match p_groups p with
  | O => [of_cps (group0 h)]
  | n => map (fun i => match group i h with
                       | Some t => of_cps t
                       | None => ""%string
                       end) (seq 1 n)
  end.

(** [re.findall(pat, text, flags)], each element a list of one string (no
    group or one group) or of the groups (a tuple). *)
Definition findall (pat text : string) (icase : bool) : pres (list (list string)) :=
  p ← compile pat;
  POk (map (findall_item p) (finditer icase (p_re p) (cps text))).

(** [re.sub(pat, repl, text, flags)] with [repl] a function of the match. *)
Fixpoint sub_hits (repl : hit -> list N) (hs : list hit) (p : nat) (l : list N)
  : list N :=
  match hs with
  | [] => l
  | h :: r =>
      let s := fst h in
      let e := snd h in
      firstn (m_pos s - p) l ++ repl h ++ sub_hits repl r (m_pos e) (m_rest e)
  end.

Definition sub (pat : string) (repl : hit -> list N) (text : string)
  (icase : bool) : pres string :=
  p ← compile pat;
  let l := cps text in
  POk (of_cps (sub_hits repl (finditer icase (p_re p) l) 0%nat l)).

End PyRe.

(* ===================================================================== *)
(** ** Python floats: conversion from integers and [repr] *)
(* ===================================================================== *)

Module PyFloat.
#[local] Open Scope Z_scope.

(** The binary64 number nearest to [num/den > 0] (ties to even), as a mantissa
    and an exponent normalised as [Prim2SF] does; [None] on overflow. *)
Definition nearest (num den : Z) : option (Z * Z) :=
  let scaled (e : Z) :=
    if 0 <=? e then (num, Z.shiftl den e) else (Z.shiftl num (- e), den) in
  let fl (e : Z) := let '(a, b) := scaled e in a / b in
  let e0 := Z.log2 num - Z.log2 den - 52 in
  let e1 := if 2 ^ 53 <=? fl e0 then e0 + 1
            else if fl e0 <? 2 ^ 52 then e0 - 1 else e0 in
  let e := Z.max e1 (-1074) in
  let '(a, b) := scaled e in
  let m := a / b in
  let r := a mod b in
  let m' := if (b <? 2 * r) || ((2 * r =? b) && Z.odd m) then m + 1 else m in
  let '(m2, e2) := if m' =? 2 ^ 53 then (2 ^ 52, e + 1) else (m', e) in
  if 971 <? e2 then None else Some (m2, e2).

(** [float(z)] for an integer; Python raises [OverflowError] where this gives
    an infinity. *)
Definition of_Z (z : Z) : float :=
  match z with
  | Z0 => 0%float
  | _ =>
      match nearest (Z.abs z) 1 with
      | Some (m, e) => SF2Prim (S754_finite (z <? 0) (Z.to_pos m) e)
      | None => if z <? 0 then neg_infinity else infinity
      end
  end.

(** [float(n)] for a count [n]. *)
Definition of_nat (n : nat) : float := of_Z (Z.of_nat n).

Definition scale10 (num den k : Z) : Z * Z :=
  if 0 <=? k then (num, den * 10 ^ k) else (num * 10 ^ (- k), den).

(** The largest [p] with [10^p <= num/den]. *)
Definition floor_log10 (num den : Z) : Z :=
  let p0 := ((Z.log2 num - Z.log2 den - 1) * 30103) / 100000 - 1 in
  (fix up (fuel : nat) (p : Z) : Z :=
     match fuel with
     | O => p
     | S f => let '(a, b) := scale10 num den (p + 1) in
              if b <=? a then up f (p + 1) else p
     end) 8%nat p0.

Definition roundtrips (m e d k : Z) : bool :=
  let '(a, b) := if 0 <=? k then (d * 10 ^ k, 1) else (d, 10 ^ (- k)) in
  match nearest a b with
  | Some (m', e') => (m' =? m) && (e' =? e)
  | None => false
  end.

(** The shortest decimal [d * 10^k] that reads back as [m * 2^e], the closest
    to it among the shortest. *)
Definition shortest (m e : Z) : Z * Z :=
  let '(num, den) :=
    if 0 <=? e then (Z.shiftl m e, 1) else (m, Z.shiftl 1 (- e)) in
  let p := floor_log10 num den in
  (fix go (fuel : nat) (n : Z) : Z * Z :=
     match fuel with
     | O => (0, 0)
     | S f =>
         let k := p - (n - 1) in
         let '(a, b) := scale10 num den k in
         let lo := a / b in
         let hi := lo + 1 in
         let r := a mod b in
         let oklo := roundtrips m e lo k in
         let okhi := roundtrips m e hi k in
         if oklo && okhi then
           if 2 * r <? b then (lo, k)
           else if b <? 2 * r then (hi, k)
           else if Z.even lo then (lo, k) else (hi, k)
         else if oklo then (lo, k)
         else if okhi then (hi, k)
         else go f (n + 1)
     end) 17%nat 1.

Fixpoint strip_zeros (fuel : nat) (d k : Z) : Z * Z :=
  match fuel with
  | O => (d, k)
  | S f => if (d mod 10 =? 0) && (0 <? d) then strip_zeros f (d / 10) (k + 1)
           else (d, k)
  end.

Definition zeros (n : Z) : string := PyStr.of_bytes (repeat 0x30%N (Z.to_nat n)).

(** [repr] of a positive finite float given as [m * 2^e]. *)
Definition repr_pos (m e : Z) : string :=
  let '(d0, k0) := shortest m e in
  let '(d, k) := strip_zeros 20 d0 k0 in
  let ds := PyStr.str_of_Z d in
  let n := Z.of_nat (String.length ds) in
  let decpt := k + n in
  if (decpt <=? -4) || (16 <? decpt) then
    let ex := decpt - 1 in
    let mant := if n =? 1 then ds
                else (String.substring 0 1 ds ++ "."
                      ++ String.substring 1 (Z.to_nat (n - 1)) ds)%string in
    let exs := PyStr.str_of_Z (Z.abs ex) in
    let sign := if ex <? 0 then "-" else "+" in
    let pad := if Z.abs ex <? 10 then "0" else "" in
    (mant ++ "e" ++ sign ++ pad ++ exs)%string
  else if decpt <=? 0 then ("0." ++ zeros (- decpt) ++ ds)%string
  else if n <=? decpt then (ds ++ zeros (decpt - n) ++ ".0")%string
  else (String.substring 0 (Z.to_nat decpt) ds ++ "."
        ++ String.substring (Z.to_nat decpt) (Z.to_nat (n - decpt)) ds)%string.

(** [repr(x)]; [json] chooses the spelling of the three non-finite values. *)
Definition repr_with (snan sinf : string) (x : float) : string :=
  match Prim2SF x with
  | S754_zero false => "0.0"
  | S754_zero true => "-0.0"
  | S754_nan => snan
  | S754_infinity false => sinf
  | S754_infinity true => ("-" ++ sinf)%string
  | S754_finite s m e =>
      ((if s then "-" else "") ++ repr_pos (Zpos m) e)%string
  end.

Definition repr (x : float) : string := repr_with "nan" "inf" x.

(** [min(a, b)] and [max(a, b)] as the built-ins compute them: the first
    argument unless the second is strictly smaller (larger). *)
Definition pymin (a b : float) : float := if (b <? a)%float then b else a.
Definition pymax (a b : float) : float := if (a <? b)%float then b else a.

(** [sum(l)], added from the left. *)
Definition pysum (l : list float) : float :=
  fold_left (fun a x => (a + x)%float) l 0%float.

End PyFloat.

(* ===================================================================== *)
(** ** [hashlib.md5] *)
(* ===================================================================== *)

Module PyHash.
#[local] Open Scope N_scope.

Definition w32 (x : N) : N := x mod 0x100000000.

Definition rotl (x c : N) : N :=
  w32 (N.lor (N.shiftl x c) (N.shiftr x (32 - c))).

Definition not32 (x : N) : N := N.lxor x 0xFFFFFFFF.

(** [floor(2^32 * abs(sin(i + 1)))] *)
Definition K : list N :=
  [ 0xd76aa478; 0xe8c7b756; 0x242070db; 0xc1bdceee;
    0xf57c0faf; 0x4787c62a; 0xa8304613; 0xfd469501;
    0x698098d8; 0x8b44f7af; 0xffff5bb1; 0x895cd7be;
    0x6b901122; 0xfd987193; 0xa679438e; 0x49b40821;
    0xf61e2562; 0xc040b340; 0x265e5a51; 0xe9b6c7aa;
    0xd62f105d; 0x02441453; 0xd8a1e681; 0xe7d3fbc8;
    0x21e1cde6; 0xc33707d6; 0xf4d50d87; 0x455a14ed;
    0xa9e3e905; 0xfcefa3f8; 0x676f02d9; 0x8d2a4c8a;
    0xfffa3942; 0x8771f681; 0x6d9d6122; 0xfde5380c;
    0xa4beea44; 0x4bdecfa9; 0xf6bb4b60; 0xbebfbc70;
    0x289b7ec6; 0xeaa127fa; 0xd4ef3085; 0x04881d05;
    0xd9d4d039; 0xe6db99e5; 0x1fa27cf8; 0xc4ac5665;
    0xf4292244; 0x432aff97; 0xab9423a7; 0xfc93a039;
    0x655b59c3; 0x8f0ccc92; 0xffeff47d; 0x85845dd1;
    0x6fa87e4f; 0xfe2ce6e0; 0xa3014314; 0x4e0811a1;
    0xf7537e82; 0xbd3af235; 0x2ad7d2bb; 0xeb86d391 ].

Definition shifts : list N :=
  [ 7; 12; 17; 22; 7; 12; 17; 22; 7; 12; 17; 22; 7; 12; 17; 22;
    5; 9; 14; 20; 5; 9; 14; 20; 5; 9; 14; 20; 5; 9; 14; 20;
    4; 11; 16; 23; 4; 11; 16; 23; 4; 11; 16; 23; 4; 11; 16; 23;
    6; 10; 15; 21; 6; 10; 15; 21; 6; 10; 15; 21; 6; 10; 15; 21 ].

(** Little-endian words of a block and bytes of a word. *)
Fixpoint words (bs : list N) : list N :=
  match bs with
  | b0 :: b1 :: b2 :: b3 :: r =>
      (b0 + 0x100 * b1 + 0x10000 * b2 + 0x1000000 * b3) :: words r
  | _ => []
  end.

Definition le_bytes (n : nat) (x : N) : list N :=
  map (fun i => (x / 256 ^ N.of_nat i) mod 256) (seq 0 n).

(** The message, the bit [1], zeros up to 56 modulo 64, and the length in
    bits on eight bytes. *)
Definition pad (msg : list N) : list N :=
  let len := N.of_nat (List.length msg) in
  let k := (119 - len mod 64) mod 64 in
  msg ++ [0x80] ++ repeat 0 (N.to_nat k) ++ le_bytes 8 (8 * len).

Definition state : Type := (N * N * N * N)%type.

Definition round (m : list N) (st : state) (i : nat) : state :=
  let '(a, b, c, d) := st in
  let '(f, g) :=
    if (i <? 16)%nat then
      (N.lor (N.land b c) (N.land (not32 b) d), i)
    else if (i <? 32)%nat then
      (N.lor (N.land d b) (N.land (not32 d) c), ((5 * i + 1) mod 16)%nat)
    else if (i <? 48)%nat then
      (N.lxor (N.lxor b c) d, ((3 * i + 5) mod 16)%nat)
    else
      (N.lxor c (N.lor b (not32 d)), ((7 * i) mod 16)%nat) in
  let f' := w32 (f + a + nth i K 0 + nth g m 0) in
  (d, w32 (b + rotl f' (nth i shifts 0)), b, c).

Definition block (st : state) (m : list N) : state :=
  let '(a0, b0, c0, d0) := st in
  let '(a, b, c, d) := fold_left (round m) (seq 0 64) st in
  (w32 (a0 + a), w32 (b0 + b), w32 (c0 + c), w32 (d0 + d)).

Fixpoint blocks (fuel : nat) (st : state) (ws : list N) : state :=
  match fuel with
  | O => st
  | S f =>
      match ws with
      | [] => st
      | _ => blocks f (block st (firstn 16 ws)) (skipn 16 ws)
      end
  end.

Definition hex_digit (n : N) : N := if n <? 10 then 0x30 + n else 0x57 + n.

Definition hex_byte (b : N) : list N := [hex_digit (b / 16); hex_digit (b mod 16)].

(** [hashlib.md5(s.encode()).hexdigest()] *)
Definition md5_hexdigest (s : string) : string :=
  let ws := words (pad (PyStr.bytes s)) in
  let '(a, b, c, d) :=
    blocks (List.length ws) (0x67452301, 0xefcdab89, 0x98badcfe, 0x10325476) ws in
  PyStr.of_bytes
    (flat_map hex_byte (le_bytes 4 a ++ le_bytes 4 b ++ le_bytes 4 c ++ le_bytes 4 d)).

End PyHash.

(* ===================================================================== *)
(** ** Python values held by a context dictionary *)
(* ===================================================================== *)

(** The JSON-like values: what a context may hold for [json.dumps] to accept
    it.  Dictionary keys are strings. *)
Inductive pyval : Type :=
| VNone
| VBool (b : bool)
| VInt (z : Z)
| VFloat (f : float)
| VStr (s : string)
| VList (l : list pyval)
| VDict (d : list (string * pyval)).

Abbreviation pydict := (list (string * pyval)).

Module PyDict.

(** [d.get(k)] *)
Fixpoint get (d : pydict) (k : string) : option pyval :=
  match d with
  | [] => None
  | (k', v) :: r => if String.eqb k k' then Some v else get r k
  end.

(** [d.get(k, dflt)] *)
Definition get_or (d : pydict) (k : string) (dflt : pyval) : pyval :=
  match get d k with Some v => v | None => dflt end.

(** [k in d] *)
Definition mem (d : pydict) (k : string) : bool :=
  match get d k with Some _ => true | None => false end.

(** [d[k] = v]: in place when the key is there, else at the end. *)
Fixpoint set (d : pydict) (k : string) (v : pyval) : pydict :=
  match d with
  | [] => [(k, v)]
  | (k', v') :: r =>
      if String.eqb k k' then (k, v) :: r else (k', v') :: set r k v
  end.

(** [d.update(e)] *)
Definition update (d e : pydict) : pydict :=
  fold_left (fun acc kv => set acc (fst kv) (snd kv)) e d.

(** [bool(v)] *)
Definition truthy (v : pyval) : bool :=
  match v with
  | VNone => false
  | VBool b => b
  | VInt z => negb (z =? 0)%Z
  | VFloat f => negb (f =? 0)%float
  | VStr s => negb (String.eqb s "")
  | VList l => match l with [] => false | _ => true end
  | VDict d => match d with [] => false | _ => true end
  end.

(** [bool(d.get(k))], which is also [bool(d.get(k, False))]. *)
Definition flag (d : pydict) (k : string) : bool :=
  match get d k with Some v => truthy v | None => false end.

End PyDict.

(* ===================================================================== *)
(** ** [json.dumps(obj, sort_keys=True)] and [str(obj)] *)
(* ===================================================================== *)

Module PyJson.
Import PyStr.

Definition hex4 (c : N) : list N :=
  map PyHash.hex_digit [c / 4096 mod 16; c / 256 mod 16; c / 16 mod 16; c mod 16].

Definition u_escape (c : N) : list N := ([92; 117] ++ hex4 c)%list.

(** One character of a string literal under [ensure_ascii]. *)
Definition escape_cp (c : N) : list N :=
  if c =? 34 then [92; 34]
  else if c =? 92 then [92; 92]
  else if c =? 10 then [92; 110]
  else if c =? 13 then [92; 114]
  else if c =? 9 then [92; 116]
  else if c =? 8 then [92; 98]
  else if c =? 12 then [92; 102]
  else if between 0x20 0x7E c then [c]
  else if c <? 0x10000 then u_escape c
  else (u_escape (0xD800 + (c - 0x10000) / 1024)
        ++ u_escape (0xDC00 + (c - 0x10000) mod 1024))%list.

Definition quote (s : string) : string :=
  of_bytes ([34] ++ flat_map escape_cp (cps s) ++ [34])%list.

Fixpoint join (sep : string) (l : list string) : string :=
  match l with
  | [] => ""
  | [x] => x
  | x :: r => (x ++ sep ++ join sep r)%string
  end.

(** Order of keys: by code point, which is the order of the UTF-8 bytes. *)
Fixpoint str_leb (a b : string) : bool :=
  match a, b with
  | EmptyString, _ => true
  | String _ _, EmptyString => false
  | String x a', String y b' =>
      let nx := N_of_ascii x in
      let ny := N_of_ascii y in
      if nx <? ny then true else if ny <? nx then false else str_leb a' b'
  end.

Fixpoint insert_item {A} (kv : string * A) (l : list (string * A)) : list (string * A) :=
  match l with
  | [] => [kv]
  | kv' :: r =>
      if str_leb (fst kv) (fst kv') then kv :: l else kv' :: insert_item kv r
  end.

Definition sort_items {A} (l : list (string * A)) : list (string * A) :=
  fold_right insert_item [] l.

(** [json.dumps(v, sort_keys=True)] *)
Fixpoint dumps (v : pyval) : string :=
  match v with
  | VNone => "null"
  | VBool true => "true"
  | VBool false => "false"
  | VInt z => str_of_Z z
  | VFloat f => PyFloat.repr_with "NaN" "Infinity" f
  | VStr s => quote s
  | VList l => ("[" ++ join ", " (map dumps l) ++ "]")%string
  | VDict d =>
      let items := sort_items (map (fun kv => (fst kv, dumps (snd kv))) d) in
      ("{" ++ join ", " (map (fun kv => quote (fst kv) ++ ": " ++ snd kv) items)
       ++ "}")%string
  end.

Definition hex2 (c : N) : list N := PyHash.hex_byte c.

(** [repr(s)] of a string: single quotes unless the text has one and no
    double quote; control characters escaped.  Characters above ASCII are
    taken as printable. *)
Definition repr_str (s : string) : string :=
  let l := cps s in
  let has (q : N) := existsb (N.eqb q) l in
  let q := if has 39 && negb (has 34) then 34 else 39 in
  let esc (c : N) : list N :=
    if c =? q then [92; c]
    else if c =? 92 then [92; 92]
    else if c =? 10 then [92; 110]
    else if c =? 13 then [92; 114]
    else if c =? 9 then [92; 116]
    else if (c <? 0x20) || (c =? 0x7F) then ([92; 120] ++ hex2 c)%list
    else [c] in
  of_cps ([q] ++ flat_map esc l ++ [q])%list.

(** [repr(v)] *)
Fixpoint repr (v : pyval) : string :=
  match v with
  | VNone => "None"
  | VBool true => "True"
  | VBool false => "False"
  | VInt z => str_of_Z z
  | VFloat f => PyFloat.repr f
  | VStr s => repr_str s
  | VList l => ("[" ++ join ", " (map repr l) ++ "]")%string
  | VDict d =>
      ("{" ++ join ", " (map (fun kv => repr_str (fst kv) ++ ": " ++ repr (snd kv)) d)
       ++ "}")%string
  end.

(** [str(v)] *)
Definition str (v : pyval) : string :=
  match v with
  | VStr s => s
  | _ => repr v
  end.

End PyJson.

(* ===================================================================== *)
(** ** Exceptions *)
(* ===================================================================== *)

Inductive exn : Type :=
| ReError          (* [re.error]: a pattern that does not compile *)
| AttributeError   (* a method of [str] or [dict] on another value *)
| TypeError        (* an ordering between a number and another value *)
| ValueError
| Unmodelled.      (* a pattern outside the fragment [PyRe] reads *)

Inductive res (A : Type) : Type :=
| Ok (a : A)
| Raise (e : exn).
Arguments Ok {A} a.
Arguments Raise {A} e.

#[export] Instance res_bind : MBind res :=
  fun A B f x => match x with Ok a => f a | Raise e => Raise e end.
#[export] Instance res_ret : MRet res := fun A a => Ok a.

(** What [re] does with a pattern, as an exception of the caller. *)
Definition of_pres {A} (x : PyRe.pres A) : res A :=
  match x with
  | PyRe.POk a => Ok a
  | PyRe.PErr PyRe.Malformed => Raise ReError
  | PyRe.PErr PyRe.Unsupported => Raise Unmodelled
  end.

(* ===================================================================== *)
(** ** interfaces.py *)
(* ===================================================================== *)

Inductive SecurityLevel : Type := LOW | MEDIUM | HIGH.

Inductive ActionType : Type :=
| CLICK | CLICK_BUTTON | CLICK_LINK
| TYPE | TYPE_PASSWORD | TYPE_EMAIL | TYPE_PHONE | TYPE_CARD | TYPE_PERSONAL
| NAVIGATE | NAVIGATE_EXTERNAL | NAVIGATE_SUSPICIOUS
| FORM_SUBMIT | PAYMENT | DELETE | SOCIAL_ACTION | LEGAL_ACTION
| SCROLL | ANALYZE.

#[export] Instance ActionType_eq_dec : EqDecision ActionType.
Proof. solve_decision. Defined.

#[export] Instance SecurityLevel_eq_dec : EqDecision SecurityLevel.
Proof. solve_decision. Defined.

Module ActionType_.
(** [action_type.value] *)
Definition value (a : ActionType) : string :=
  match a with
  | CLICK => "click"
  | CLICK_BUTTON => "click_button"
  | CLICK_LINK => "click_link"
  | TYPE => "type"
  | TYPE_PASSWORD => "type_password"
  | TYPE_EMAIL => "type_email"
  | TYPE_PHONE => "type_phone"
  | TYPE_CARD => "type_card"
  | TYPE_PERSONAL => "type_personal"
  | NAVIGATE => "navigate"
  | NAVIGATE_EXTERNAL => "navigate_external"
  | NAVIGATE_SUSPICIOUS => "navigate_suspicious"
  | FORM_SUBMIT => "form_submit"
  | PAYMENT => "payment"
  | DELETE => "delete"
  | SOCIAL_ACTION => "social_action"
  | LEGAL_ACTION => "legal_action"
  | SCROLL => "scroll"
  | ANALYZE => "analyze"
  end.
End ActionType_.

Module RiskAssessment.
Record t : Type := Build {
  score : float;
  level : string;
  triggered_rules : list string;
  recommendations : list string;
  confidence : pyval
}.
End RiskAssessment.

Module SecurityRule.
Record t : Type := Build {
  name : string;
  pattern : string;
  action_type : option ActionType;
  risk_level : string;
  message : string;
  requires_confirmation : bool;
  regex : bool;
  condition : option (pydict -> pyval);
  weight : float
}.
End SecurityRule.

Module SecurityEvent.
Record t : Type := Build {
  timestamp : pyval;
  action : ActionType;
  target : string;
  risk_assessment : RiskAssessment.t;
  context : pydict;
  confirmed : bool;
  user_decision : option string;
  confidence : pyval
}.
End SecurityEvent.

(* ===================================================================== *)
(** ** utils.py *)
(* ===================================================================== *)

Module Utils.
Import PyStr.
#[local] Open Scope Z_scope.

(** [urlparse(url).netloc]: tabs and line breaks removed, leading control
    characters and spaces stripped, a scheme (a letter, then letters, digits,
    [+], [-], [.]) up to the first colon skipped, and after [//] the text up
    to the first of [/], [?], [#].  Brackets that do not pair raise
    [ValueError]. *)
Definition is_scheme_char (c : N) : bool :=
  (PyRe.is_ascii_letter c || is_digit c || (c =? 43) || (c =? 45) || (c =? 46))%N.

Fixpoint split_colon (l acc : list N) : option (list N * list N) :=
  match l with
  | [] => None
  | c :: r => if (c =? 58)%N then Some (acc, r) else split_colon r (acc ++ [c])
  end.

Fixpoint take_netloc (l : list N) : list N :=
  match l with
  | [] => []
  | c :: r => if ((c =? 47) || (c =? 63) || (c =? 35))%N then []
              else c :: take_netloc r
  end.

Fixpoint lstrip_c0 (l : list N) : list N :=
  match l with
  | c :: r => if (c <=? 0x20)%N then lstrip_c0 r else l
  | [] => []
  end.

Definition netloc (url : string) : res string :=
  let l0 := lstrip_c0 (cps url) in
  let l1 := List.filter (fun c => negb ((c =? 9) || (c =? 10) || (c =? 13))%N) l0 in
  let rest :=
    match split_colon l1 [] with
    | Some (c :: sch, r) =>
        if PyRe.is_ascii_letter c && forallb is_scheme_char sch then r else l1
    | _ => l1
    end in
  match rest with
  | 47%N :: 47%N :: r =>
      let n := take_netloc r in
      let has (c : N) := existsb (N.eqb c) n in
      if xorb (has 91%N) (has 93%N) then Raise ValueError
      else Ok (of_cps n)
  | _ => Ok ""%string
  end.

(** [is_external_domain]: any exception inside gives [False]. *)
Definition is_external_domain (current_url target_url : pyval) : bool :=
  match current_url, target_url with
  | VStr c, VStr t =>
      match netloc c, netloc t with
      | Ok cd, Ok td =>
          if String.eqb cd "" || String.eqb td "" then false
          else negb (String.eqb td cd)
      | _, _ => false
      end
  | _, _ => false
  end.

(** [extract_domain] *)
Definition extract_domain (url : string) : string :=
  match netloc url with
  | Ok d => d
  | Raise _ => ""%string
  end.

(** [is_suspicious_domain] *)
Definition is_suspicious_domain (domain : string) : bool :=
  let suspicious_tlds :=
    [".tk"; ".ml"; ".ga"; ".cf"; ".gq"; ".xyz"; ".top"; ".club"]%string in
  let suspicious_keywords :=
    ["phishing"; "malware"; "scam"; "hack"; "exploit"]%string in
  let domain_lower := lower domain in
  existsb (fun tld => endswith domain_lower tld) suspicious_tlds
  || existsb (fun keyword => contains keyword domain_lower) suspicious_keywords.

(** [mask_sensitive_data]: the five substitutions, in the source's order. *)
Definition mask_sensitive_data (text : string) : res string :=
  if String.eqb text "" then Ok text
  else
    (* card numbers *)
    text ← of_pres (PyRe.sub "\b\d{4}[- ]?\d{4}[- ]?\d{4}[- ]?\d{4}\b"
              (fun m => let g := PyRe.group0 m in
                        firstn 4 g ++ cps " **** **** "
                        ++ skipn (List.length g - 4) g)%list
              text false);
    (* CVV/CVC *)
    text ← of_pres (PyRe.sub "\b(CVV|CVC)[:\s]*\d{3,4}\b"
              (fun m => default [] (PyRe.group 1 m) ++ cps ": ***")%list
              text true);
    (* passwords *)
    text ← (if contains "пароль" (lower text) || contains "password" (lower text)
            then of_pres (PyRe.sub "(пароль|password)[:\s]*[^\s]+"
                   (fun m => default [] (PyRe.group 1 m) ++ cps ": *******")%list
                   text true)
            else Ok text);
    (* e-mail addresses *)
    text ← of_pres (PyRe.sub
              "\b([A-Za-z0-9._%+-]+)@([A-Za-z0-9.-]+\.[A-Z|a-z]{2,})\b"
              (fun m => firstn 3 (default [] (PyRe.group 1 m)) ++ cps "***@"
                        ++ default [] (PyRe.group 2 m))%list
              text false);
    (* telephone numbers *)
    of_pres (PyRe.sub
      "\b(\+7|8)[\s-]?\(?\d{3}\)?[\s-]?\d{3}[\s-]?\d{2}[\s-]?\d{2}\b"
      (fun m => let g := PyRe.group0 m in
                firstn 4 g ++ cps " *** ** " ++ skipn (List.length g - 2) g)%list
      text false).

(** The module-level [_action_hash_cache]: key to hash and time stored. *)
Abbreviation hash_cache := (gmap string (string * Z)).

(** [_cache_ttl = timedelta(minutes=10)], in microseconds. *)
Definition _cache_ttl : Z := 600000000.

(** [_clean_hash_cache] *)
Definition _clean_hash_cache (now : Z) (cache : hash_cache) : hash_cache :=
  filter (fun kv => ¬ (now - snd (snd kv) > _cache_ttl)) cache.

(** The key of the cache: kind, target and location. *)
Definition cache_key (action_type : ActionType) (target : string)
  (context : pydict) : string :=
  (ActionType_.value action_type ++ ":" ++ target ++ ":"
   ++ PyJson.str (PyDict.get_or context "current_url" (VStr "")))%string.

(** The digest computed on a miss: kind, target, location and the first
    eight digits of the MD5 of the context's JSON text, hashed again and cut
    to sixteen digits. *)
Definition fresh_hash (action_type : ActionType) (target : string)
  (context : pydict) : string :=
  let data :=
    (cache_key action_type target context ++ ":"
     ++ String.substring 0 8 (PyHash.md5_hexdigest (PyJson.dumps (VDict context))))%string in
  String.substring 0 16 (PyHash.md5_hexdigest data).

(** [generate_action_hash]: the hash and the cache after the call. *)
Definition generate_action_hash (now : Z) (cache : hash_cache)
  (action_type : ActionType) (target : string) (context : pydict)
  : string * hash_cache :=
  let key := cache_key action_type target context in
  let miss (_ : unit) :=
    let action_hash := fresh_hash action_type target context in
    (action_hash, _clean_hash_cache now (<[key := (action_hash, now)]> cache)) in
  match cache !! key with
  | Some (h, stamp) => if bool_decide (now - stamp < _cache_ttl) then (h, cache)
                       else miss tt
  | None => miss tt
  end.

(** [detect_action_type]: the kind of action behind a call of a tool.  The
    value of an argument is taken through [str], [None] as the empty text;
    an absent context is the empty one. *)
Definition detect_action_type (tool_name : string) (args context : pydict)
  : res ActionType :=
  let get_arg_value (arg_name : string) : string :=
    match PyDict.get_or args arg_name (VStr "") with
    | VNone => ""%string
    | value => PyJson.str value
    end in
  if String.eqb tool_name "click_element" then
    let target := lower (get_arg_value "description") in
    Ok (if any_in ["купить"; "оплатить"; "заказ"; "buy"; "checkout"; "cart"; "корзин"]%string target
        then PAYMENT
        else if any_in ["удалить"; "delete"; "remove"; "отменить"; "cancel"]%string target
        then DELETE
        else if any_in ["отправить"; "подтвердить"; "submit"; "save"; "сохранить"; "далее"; "продолжить"]%string target
        then FORM_SUBMIT
        else if any_in ["пост"; "share"; "tweet"; "comment"; "лайк"; "like"]%string target
        then SOCIAL_ACTION
        else if any_in ["принять"; "согласиться"; "agree"; "terms"; "условия"]%string target
        then LEGAL_ACTION
        else if any_in ["http"; "www"; ".com"; ".ru"; "ссылка"; "link"]%string target
        then CLICK_LINK
        else CLICK_BUTTON)
  else if String.eqb tool_name "type_text" then
    let text := lower (get_arg_value "text") in
    if any_in ["пароль"; "password"; "pwd"; "pass"; "ключ"; "key"; "pin"]%string text
    then Ok TYPE_PASSWORD
    else if contains "@" text && contains "." text && (5 <? len text)%nat
    then Ok TYPE_EMAIL
    else
      phone ← of_pres (PyRe.search "(\+7|8\d{10}|\d{11})" text false);
      if (phone : bool) then Ok TYPE_PHONE
      else
        card ← of_pres (PyRe.search "\b\d{4}[- ]?\d{4}[- ]?\d{4}[- ]?\d{4}\b"
                          text false);
        if (card : bool) then Ok TYPE_CARD
        else if any_in ["паспорт"; "фио"; "адрес"; "город"; "страна"; "рождение"; "снилс"; "инн"]%string text
        then Ok TYPE_PERSONAL
        else if PyDict.flag context "is_login_page"
                && PyDict.flag context "contains_passwords"
        then Ok TYPE_PASSWORD
        else Ok TYPE
  else if String.eqb tool_name "navigate" then
    let url := lower (get_arg_value "url") in
    Ok (if startswith url "http://" then NAVIGATE_SUSPICIOUS
        else if any_in ["phishing"; "malware"; "scam"; ".exe"; ".zip"; ".rar"]%string url
        then NAVIGATE_SUSPICIOUS
        else NAVIGATE)
  else if String.eqb tool_name "scroll_down" then Ok SCROLL
  else if String.eqb tool_name "analyze_page" then Ok ANALYZE
  else Ok CLICK.

End Utils.

(* ===================================================================== *)
(** ** pattern_matcher.py *)
(* ===================================================================== *)

Module PatternMatcher.
Import PyStr.

(** [self.patterns]: category, then pattern name, then the pattern. *)
Abbreviation patterns_t := (list (string * list (string * string))).

(** What [find_patterns] returns: category, pattern name, matched texts. *)
Abbreviation results_t := (list (string * list (string * list string))).

Definition _load_patterns : patterns_t :=
  [ ("personal_data",
     [ ("email", "\b[A-Za-z0-9._%+-]+@[A-Za-z0-9.-]+\.[A-Z|a-z]{2,}\b");
       ("phone_ru", "\b(\+7|8)[\s-]?\(?\d{3}\)?[\s-]?\d{3}[\s-]?\d{2}[\s-]?\d{2}\b");
       ("phone_international", "\b\+\d{1,3}[\s-]?\d{1,14}\b");
       ("passport", "\b\d{4}[- ]?\d{6}\b");
       ("inn", "\b\d{10,12}\b");
       ("snils", "\b\d{3}-\d{3}-\d{3} \d{2}\b");
       ("name", "\b(?:[А-ЯЁ][а-яё]+(?:\s+[А-ЯЁ][а-яё]+){1,2}|[A-Z][a-z]+(?:\s+[A-Z][a-z]+){1,2})\b");
       ("address", "\b(?:ул\.|улица|пр\.|проспект|пер\.|переулок|д\.|дом|кв\.|квартира)\b.*?\b\d+\b") ]);
    ("financial_data",
     [ ("card_number", "\b\d{4}[- ]?\d{4}[- ]?\d{4}[- ]?\d{4}\b");
       ("cvv", "\b\d{3,4}\b");
       ("expiry_date", "\b(0[1-9]|1[0-2])[/-](2[0-9]|3[0-9])\b");
       ("iban", "\b[A-Z]{2}\d{2}[A-Z0-9]{1,30}\b");
       ("swift", "\b[A-Z]{6}[A-Z0-9]{2}([A-Z0-9]{3})?\b");
       ("bank_account", "\b\d{20}\b");
       ("amount", "\b\d+[.,]\d{2}\s*(?:руб|р|usd|eur|€|$)\b") ]);
    ("sensitive_keywords",
     [ ("password", "\b(пароль|password|pwd|pass|ключ|key|pin|код.*доступ|secret.*key)\b");
       ("secret", "\b(секрет|secret|confidential|private|приватный|конфиденциальный)\b");
       ("security", "\b(безопасность|security|auth|token|api.?key|access.*token)\b");
       ("login", "\b(логин|login|username|user.*name|account.*name)\b");
       ("authorization", "\b(авторизация|authorization|авторизоваться|authenticate)\b") ]);
    ("url_patterns",
     [ ("http", "http://[^\s]+");
       ("https", "https://[^\s]+");
       ("ip_address", "\b\d{1,3}\.\d{1,3}\.\d{1,3}\.\d{1,3}\b");
       ("local_path", "[A-Za-z]:\\[^\\].*|\/[^\/].*") ]);
    ("dangerous_patterns",
     [ ("javascript", "javascript:|<\s*script\s*>|eval\(|alert\(|document\.cookie");
       ("sql_injection", "\b(?:union\s+select|select\s+.*\s+from|insert\s+into|delete\s+from|drop\s+table)\b");
       ("xss", "<\s*(?:script|iframe|object|embed)\s*>|on\w+\s*=") ]) ].

Fixpoint assoc {A} (k : string) (l : list (string * A)) : option A :=
  match l with
  | [] => None
  | (k', v) :: r => if String.eqb k k' then Some v else assoc k r
  end.

Definition has_key {A} (k : string) (l : list (string * A)) : bool :=
  match assoc k l with Some _ => true | None => false end.

(** The inner loop of [find_patterns] over one category: a pattern that does
    not compile is caught and skipped. *)
Fixpoint category_results (text : string) (category_patterns : list (string * string))
  : res (list (string * list string)) :=
  match category_patterns with
  | [] => Ok []
  | (pattern_name, pattern) :: rest =>
      match PyRe.findall pattern text true with
      | PyRe.PErr PyRe.Unsupported => Raise Unmodelled
      | PyRe.PErr PyRe.Malformed => category_results text rest
      | PyRe.POk matches =>
          let matches_list :=
            List.filter (fun m => negb (String.eqb m "")) (concat matches) in
          tl ← category_results text rest;
          Ok (match matches_list with
              | [] => tl
              | _ => (pattern_name, matches_list) :: tl
              end)
      end
  end.

Fixpoint all_results (text : string) (patterns_to_check : patterns_t) : res results_t :=
  match patterns_to_check with
  | [] => Ok []
  | (category, category_patterns) :: rest =>
      cr ← category_results text category_patterns;
      tl ← all_results text rest;
      Ok (match cr with [] => tl | _ => (category, cr) :: tl end)
  end.

(** [find_patterns] *)
Definition find_patterns (patterns : patterns_t) (text : string)
  (pattern_type : string) : res results_t :=
  if String.eqb pattern_type "all" then all_results text patterns
  else match assoc pattern_type patterns with
       | Some ps => all_results text [(pattern_type, ps)]
       | None => Ok []
       end.

(** The results as the dictionary stored in the context. *)
Definition results_value (results : results_t) : pyval :=
  VDict (map (fun c => (fst c,
           VDict (map (fun p => (fst p, VList (map VStr (snd p)))) (snd c))))
         results).

(** [sum(len(matches) for category in results.values()
         for matches in category.values())] *)
Definition total_patterns (results : results_t) : nat :=
  list_sum (map (fun c => list_sum (map (fun p => List.length (snd p)) (snd c))) results).

(** [sum(l) / len(l) if l else dflt] *)
Definition mean_or (dflt : float) (l : list float) : float :=
  match l with
  | [] => dflt
  | _ => (PyFloat.pysum l / PyFloat.of_nat (List.length l))%float
  end.

(** [extract_sensitive_data] *)
Definition extract_sensitive_data (patterns : patterns_t) (text : string)
  : res pydict :=
  results ← find_patterns patterns text "all";
  let total := total_patterns results in
  let stats : pydict :=
    [ ("total_patterns", VInt (Z.of_nat total));
      ("has_personal_data", VBool (has_key "personal_data" results));
      ("has_financial_data", VBool (has_key "financial_data" results));
      ("has_sensitive_keywords", VBool (has_key "sensitive_keywords" results));
      ("has_dangerous_patterns", VBool (has_key "dangerous_patterns" results)) ] in
  let contains_passwords :=
    match assoc "sensitive_keywords" results with
    | Some keywords => has_key "password" keywords
    | None => false
    end in
  let contains_financial := has_key "financial_data" results in
  let contains_contact_info :=
    match assoc "personal_data" results with
    | Some personal =>
        has_key "email" personal || has_key "phone_ru" personal
        || has_key "phone_international" personal
    | None => false
    end in
  let contains_personal_data := has_key "personal_data" results in
  let contains_dangerous := has_key "dangerous_patterns" results in
  let confidence_factors :=
    ((if contains_passwords then [0.9%float] else [])
     ++ (if contains_financial then [0.8%float] else [])
     ++ (if contains_dangerous then [0.95%float] else [])
     ++ (if (0 <? total)%nat
         then [PyFloat.pymin (PyFloat.of_nat total * 0.2)%float 1%float]
         else []))%list in
  let context_analysis : pydict :=
    [ ("contains_passwords", VBool contains_passwords);
      ("contains_financial", VBool contains_financial);
      ("contains_contact_info", VBool contains_contact_info);
      ("contains_personal_data", VBool contains_personal_data);
      ("contains_dangerous", VBool contains_dangerous);
      ("confidence", VFloat (mean_or 0%float confidence_factors)) ] in
  masked_text ← Utils.mask_sensitive_data text;
  let metadata : pydict :=
    [ ("text_length", VInt (Z.of_nat (len text)));
      ("word_count", VInt (Z.of_nat (word_count text)));
      ("has_urls", VBool (has_key "url_patterns" results));
      ("extraction_time", VStr "timestamp") ] in
  Ok [ ("patterns", results_value results);
       ("stats", VDict stats);
       ("context", VDict context_analysis);
       ("masked_text", VStr masked_text);
       ("metadata", VDict metadata) ].

(** [add_custom_pattern] *)
Definition add_custom_pattern (patterns : patterns_t) (category name pattern : string)
  : patterns_t :=
  let fix set {A} (k : string) (v : A) (l : list (string * A)) : list (string * A) :=
    match l with
    | [] => [(k, v)]
    | (k', v') :: r => if String.eqb k k' then (k, v) :: r else (k', v') :: set k v r
    end in
  set category (set name pattern (default [] (assoc category patterns))) patterns.

(** [d[k] = v] and [del d[k]] on a dictionary kept as a list. *)
Fixpoint set_item {A} (k : string) (v : A) (l : list (string * A))
  : list (string * A) :=
  match l with
  | [] => [(k, v)]
  | (k', v') :: r =>
      if String.eqb k k' then (k, v) :: r else (k', v') :: set_item k v r
  end.

Fixpoint del_item {A} (k : string) (l : list (string * A)) : list (string * A) :=
  match l with
  | [] => []
  | (k', v) :: r => if String.eqb k k' then r else (k', v) :: del_item k r
  end.

(** [get_available_patterns] *)
Definition get_available_patterns (patterns : patterns_t) : list string :=
  map fst patterns.

(** [remove_pattern]: the patterns after the call, and what it returns. *)
Definition remove_pattern (patterns : patterns_t) (category name : string)
  : patterns_t * bool :=
  match assoc category patterns with
  | Some category_patterns =>
      if has_key name category_patterns then
        let category_patterns := del_item name category_patterns in
        let patterns := set_item category category_patterns patterns in
        (match category_patterns with
         | [] => del_item category patterns
         | _ => patterns
         end, true)
      else (patterns, false)
  | None => (patterns, false)
  end.

End PatternMatcher.

(* ===================================================================== *)
(** ** context_analyzer.py *)
(* ===================================================================== *)

Module ContextAnalyzer.
Import PyStr.

(** A method of [str] called on a value of the context. *)
Definition as_str (v : pyval) : res string :=
  match v with
  | VStr s => Ok s
  | _ => Raise AttributeError
  end.

Definition _load_keyword_patterns : list (string * list string) :=
  [ ("payment", ["купить"; "оплатить"; "цена"; "стоимость"; "чек"; "checkout"; "buy"; "purchase"; "cart"; "корзин"; "оплат"]);
    ("login", ["войти"; "вход"; "логин"; "sign in"; "log in"; "авторизация"; "account"; "аккаунт"]);
    ("registration", ["регистрация"; "зарегистрироваться"; "sign up"; "register"; "создать аккаунт"]);
    ("social", ["пост"; "публикация"; "поделиться"; "share"; "comment"; "комментарий"; "like"; "лайк"; "репост"]);
    ("delete", ["удалить"; "удаление"; "стереть"; "очистить"; "delete"; "remove"; "clear"; "отменить"; "отмена"]);
    ("download", ["скачать"; "загрузить"; "download"; "upload"; "файл"; "документ"]);
    ("legal", ["соглашение"; "условия"; "правила"; "terms"; "agreement"; "policy"; "политика"]);
    ("contact", ["контакты"; "обратная связь"; "contact"; "support"; "поддержка"]);
    ("search", ["поиск"; "найти"; "search"; "find"; "искать"]);
    ("navigation", ["главная"; "home"; "назад"; "back"; "вперед"; "forward"; "меню"; "menu"]);
    ("settings", ["настройки"; "settings"; "профиль"; "profile"; "аккаунт"; "account"]) ].

Definition _load_domain_categories : list (string * list string) :=
  [ ("social", ["facebook.com"; "twitter.com"; "instagram.com"; "vk.com"; "tiktok.com"; "linkedin.com"]);
    ("shopping", ["amazon.com"; "aliexpress.com"; "ebay.com"; "wildberries.ru"; "ozon.ru"; "yandex.market"]);
    ("banking", ["sberbank.ru"; "tinkoff.ru"; "alfabank.ru"; "vtb.ru"; "raiffeisen.ru"; "gazprombank.ru"]);
    ("email", ["gmail.com"; "mail.ru"; "yandex.ru"; "outlook.com"; "yahoo.com"; "rambler.ru"]);
    ("government", ["gov.ru"; "gosuslugi.ru"; "nalog.ru"; "pfr.gov.ru"; "mkgu.mos.ru"]);
    ("search", ["google.com"; "yandex.ru"; "bing.com"; "duckduckgo.com"]) ].

(** [_analyze_page_type] *)
Definition _analyze_page_type (url : string) : pydict :=
  if String.eqb url "" then []
  else
    let url_lower := lower url in
    let has (ws : list string) := VBool (any_in ws url_lower) in
    [ ("is_login_page", has ["login"; "signin"; "auth"; "вход"; "войти"; "account"]);
      ("is_payment_page", has ["checkout"; "payment"; "pay"; "cart"; "корзин"; "оплат"; "order"]);
      ("is_registration_page", has ["register"; "signup"; "регистрация"; "create.account"]);
      ("is_settings_page", has ["settings"; "настройки"; "profile"; "профиль"; "account"]);
      ("is_admin_page", has ["admin"; "админ"; "dashboard"; "панель"; "control"]);
      ("is_social_page", has ["facebook"; "twitter"; "vk"; "instagram"; "tiktok"; "social"]);
      ("is_search_page", has ["search"; "поиск"; "google"; "yandex"; "bing"]);
      ("is_email_page", has ["mail"; "email"; "почта"; "gmail"; "outlook"]) ].

(** [_analyze_domain] *)
Definition _analyze_domain (url : string) : pydict :=
  let domain := Utils.extract_domain url in
  if String.eqb domain "" then []
  else
    let domain_lower := lower domain in
    let domain_category :=
      match find (fun c => existsb (fun domain_pattern =>
                              endswith domain_lower (lower domain_pattern)) (snd c))
                 _load_domain_categories with
      | Some c => fst c
      | None => "other"
      end in
    [ ("domain", VStr domain);
      ("domain_category", VStr domain_category);
      ("is_suspicious_domain", VBool (Utils.is_suspicious_domain domain));
      ("is_trusted_domain",
       VBool (existsb (String.eqb domain_category) ["banking"; "government"; "email"])) ].

(** [_analyze_navigation_url] *)
Definition _analyze_navigation_url (target_url current_url : pyval) : res pydict :=
  let ext := Utils.is_external_domain current_url target_url in
  t ← as_str target_url;
  Ok [ ("is_external_domain", VBool ext);
       ("is_https", VBool (startswith t "https://"));
       ("is_http", VBool (startswith t "http://"));
       ("is_suspicious_url", VBool (Utils.is_suspicious_domain (Utils.extract_domain t))) ].

(** [_analyze_keywords] *)
Definition _analyze_keywords (text : string) : pydict :=
  if String.eqb text "" then []
  else
    let text_lower := lower text in
    flat_map (fun c =>
        if any_in (snd c) text_lower
        then [(("contains_" ++ fst c)%string, VBool true)] else [])
      _load_keyword_patterns.

(** [h.get(k, "")] on an element of the history. *)
Definition entry_get (h : pyval) (k : string) : res pyval :=
  match h with
  | VDict d => Ok (PyDict.get_or d k (VStr ""))
  | _ => Raise AttributeError
  end.

Fixpoint mapM {A B} (f : A -> res B) (l : list A) : res (list B) :=
  match l with
  | [] => Ok []
  | x :: r => y ← f x; ys ← mapM f r; Ok (y :: ys)
  end.

(** [_analyze_sequence] *)
Definition _analyze_sequence (history : pyval) : res pydict :=
  if negb (PyDict.truthy history) then Ok []
  else
    match history with
    | VList l =>
        let recent :=
          if (5 <=? List.length l)%nat then skipn (List.length l - 5) l else l in
        action_types ← mapM (fun h => entry_get h "action_type") recent;
        targets ← mapM (fun h => v ← entry_get h "target";
                                 Ok (lower (PyJson.str v))) recent;
        let among (v : string) :=
          existsb (fun a => match a with VStr s => String.eqb s v | _ => false end)
                  action_types in
        let is_login_flow :=
          among (ActionType_.value TYPE_EMAIL)
          && among (ActionType_.value TYPE_PASSWORD) in
        let any_target (w : string) := existsb (fun t => contains w t) targets in
        let is_payment_flow :=
          any_target "payment" || any_target "купить" || any_target "оплатить" in
        let is_registration_flow :=
          any_target "регистрация" || any_target "register" in
        typed ← mapM (fun a => s ← as_str a; Ok (startswith s "TYPE_")) action_types;
        let is_form_filling := (2 <=? List.length (List.filter id typed))%nat in
        Ok [ ("is_login_flow", VBool is_login_flow);
             ("is_payment_flow", VBool is_payment_flow);
             ("is_registration_flow", VBool is_registration_flow);
             ("is_form_filling", VBool is_form_filling);
             ("recent_action_types", VList action_types);
             ("recent_targets", VList (map VStr (firstn 3 targets))) ]
    | VStr _ => Raise AttributeError
    | VDict d => if (5 <=? List.length d)%nat then Raise TypeError
                 else Raise AttributeError
    | _ => Raise TypeError
    end.

(** [_analyze_action_context] *)
Definition _analyze_action_context (action_type : ActionType) (context : pydict)
  : pydict :=
  ((if bool_decide (action_type = TYPE_PASSWORD) && PyDict.flag context "is_login_page"
    then [("is_password_in_login_context", VBool true)] else [])
   ++ (if bool_decide (action_type = PAYMENT) && PyDict.flag context "is_payment_page"
       then [("is_payment_in_checkout_context", VBool true)] else [])
   ++ (if bool_decide (action_type = DELETE) && PyDict.flag context "is_settings_page"
       then [("is_delete_in_settings_context", VBool true)] else [])
   ++ (if bool_decide (action_type = SOCIAL_ACTION) && PyDict.flag context "is_social_page"
       then [("is_social_action_in_context", VBool true)] else []))%list.

(** The number of matches held by [context["detected_patterns"]], which
    [analyze] has set from the pattern matcher's results. *)
Definition count_matches (patterns : pyval) : nat :=
  match patterns with
  | VDict cs =>
      list_sum (map (fun c =>
        match snd c with
        | VDict ps =>
            list_sum (map (fun p => match snd p with
                                    | VList ms => List.length ms
                                    | _ => 0%nat
                                    end) ps)
        | _ => 0%nat
        end) cs)
  | _ => 0%nat
  end.

(** [_calculate_confidence] *)
Definition _calculate_confidence (context : pydict) : float :=
  let confidence_factors :=
    ((if PyDict.flag context "detected_patterns"
      then [PyFloat.pymin
              (PyFloat.of_nat (count_matches
                 (PyDict.get_or context "detected_patterns" VNone)) * 0.2)%float
              1%float]
      else [])
     ++ (if PyDict.flag context "is_login_page" && PyDict.flag context "contains_login"
         then [0.8%float] else [])
     ++ (if PyDict.flag context "is_payment_page" && PyDict.flag context "contains_payment"
         then [0.9%float] else [])
     ++ (if PyDict.flag context "is_login_flow" then [0.85%float] else [])
     ++ (if PyDict.flag context "is_payment_flow" then [0.95%float] else [])
     ++ (if PyDict.flag context "is_trusted_domain" then [0.7%float] else []))%list in
  PatternMatcher.mean_or 0.3%float confidence_factors.

(** [not context.get(k, True)] *)
Definition absent_or_false (context : pydict) (k : string) : bool :=
  match PyDict.get context k with
  | Some v => negb (PyDict.truthy v)
  | None => false
  end.

(** [_generate_recommendations] *)
Definition _generate_recommendations (context : pydict) : list string :=
  ((if PyDict.flag context "contains_passwords"
    then ["🔐 Обнаружен ввод пароля - будьте осторожны"] else [])
   ++ (if PyDict.flag context "contains_financial"
       then ["💰 Обнаружены финансовые данные - проверьте безопасность"] else [])
   ++ (if PyDict.flag context "is_external_domain"
       then ["🌍 Переход на внешний домен - убедитесь в его надежности"] else [])
   ++ (if PyDict.flag context "is_suspicious_domain"
       then ["🚫 Подозрительный домен - рекомендуется отменить переход"] else [])
   ++ (if absent_or_false context "is_https" && PyDict.flag context "contains_payment"
       then ["🔓 Оплата через HTTP - небезопасно, используйте HTTPS"] else []))%list.

Definition is_navigation (action_type : ActionType) : bool :=
  bool_decide (action_type = NAVIGATE)
  || bool_decide (action_type = NAVIGATE_EXTERNAL)
  || bool_decide (action_type = NAVIGATE_SUSPICIOUS).

(** [analyze] *)
Definition analyze (patterns : PatternMatcher.patterns_t)
  (action_type : ActionType) (target : string) (raw_context : pydict)
  : res pydict :=
  let context := raw_context in
  (* 1. patterns in the text *)
  pattern_analysis ← PatternMatcher.extract_sensitive_data patterns target;
  let context := PyDict.update context
    [ ("pattern_analysis", VDict pattern_analysis);
      ("detected_patterns", PyDict.get_or pattern_analysis "patterns" (VDict [])) ] in
  (* 2. and 3. kind of page and domain *)
  let current_url := PyDict.get_or context "current_url" (VStr "") in
  context ← (if PyDict.truthy current_url
             then url ← as_str current_url;
                  Ok (PyDict.update (PyDict.update context (_analyze_page_type url))
                                    (_analyze_domain url))
             else Ok context);
  (* 4. the URL of a navigation *)
  context ← (if is_navigation action_type
             then let target_url := PyDict.get_or context "target_url" (VStr target) in
                  if PyDict.truthy target_url
                  then url_analysis ← _analyze_navigation_url target_url current_url;
                       Ok (PyDict.update context url_analysis)
                  else Ok context
             else Ok context);
  (* 5. key words *)
  let context := PyDict.update context (_analyze_keywords target) in
  (* 6. sequence of actions *)
  context ← (match PyDict.get context "recent_history" with
             | Some history =>
                 sequence_analysis ← _analyze_sequence history;
                 Ok (PyDict.update context sequence_analysis)
             | None => Ok context
             end);
  (* 7. the action in its context *)
  let context := PyDict.update context (_analyze_action_context action_type context) in
  (* 8. confidence *)
  let context := PyDict.set context "confidence" (VFloat (_calculate_confidence context)) in
  (* 9. recommendations *)
  Ok (PyDict.set context "recommendations"
        (VList (map VStr (_generate_recommendations context)))).

End ContextAnalyzer.

(* ===================================================================== *)
(** ** rule_engine.py *)
(* ===================================================================== *)

Module RuleEngine.
Import PyStr.

Definition rule (name pattern : string) (action_type : option ActionType)
  (risk_level message : string) (regex : bool)
  (condition : option (pydict -> pyval)) (weight : float) : SecurityRule.t :=
  SecurityRule.Build name pattern action_type risk_level message true regex
    condition weight.

(** [_load_default_rules].  The file [rule_engine.py] holds its texts outside
    ASCII in a twice-encoded form; the patterns and messages below are the
    string literals of the file as Python reads them, character for
    character. *)
Definition _load_default_rules : list SecurityRule.t :=
  [ rule "payment_click"
      "(–∫—É–ø–∏—Ç—å|–æ–ø–ª–∞—Ç–∏—Ç—å|–ø–æ–∫—É–ø–∫–∞|–∑–∞–∫–∞–∑|checkout|buy now|add to cart|–æ—Ñ–æ—Ä–º–∏—Ç—å|–∑–∞–∫–∞–∑–∞—Ç—å|–∫–æ—Ä–∑–∏–Ω|basket)"
      (Some CLICK_BUTTON) "high" "üí∞ –ö–Ω–æ–ø–∫–∞ –æ–ø–ª–∞—Ç—ã/–ø–æ–∫—É–ø–∫–∏" true None 2.0;
    rule "card_data_input"
      "(–∫–∞—Ä—Ç|card|–Ω–æ–º–µ—Ä.*–∫–∞—Ä—Ç|cvv|cvc|—Å—Ä–æ–∫.*–¥–µ–π—Å—Ç–≤–∏—è|expir|valid|–ø–ª–∞—Å—Ç–∏–∫)"
      (Some TYPE) "critical" "üí≥ –í–≤–æ–¥ –¥–∞–Ω–Ω—ã—Ö –∫–∞—Ä—Ç—ã" true None 3.0;
    rule "password_input"
      "(–ø–∞—Ä–æ–ª—å|password|pwd|pass|–∫–ª—é—á|key|—Å–µ–∫—Ä–µ—Ç|secret|pin|–∫–æ–¥.*–¥–æ—Å—Ç—É–ø)"
      (Some TYPE) "critical" "üîê –í–≤–æ–¥ –ø–∞—Ä–æ–ª—è/–∫–ª—é—á–∞" true None 3.0;
    rule "email_input"
      "(@|email|–µ–º–µ–π–ª|–ø–æ—á—Ç–∞|e-mail|mail\.|gmail\.|yandex\.)"
      (Some TYPE) "medium" "üìß –í–≤–æ–¥ email" true None 1.5;
    rule "external_navigation"
      "(https?://|www\.|\.com|\.ru|\.org|\.net)"
      (Some NAVIGATE) "low" "üåç –ù–∞–≤–∏–≥–∞—Ü–∏—è –Ω–∞ –≤–Ω–µ—à–Ω–∏–π —Ä–µ—Å—É—Ä—Å" true None 1.0;
    rule "non_https_navigation"
      "^http://"
      (Some NAVIGATE) "medium" "üîì –ù–∞–≤–∏–≥–∞—Ü–∏—è –ø–æ HTTP (–Ω–µ–±–µ–∑–æ–ø–∞—Å–Ω–æ)" true None 1.5;
    rule "context_login_flow_password" ""
      (Some TYPE_PASSWORD) "high" "üîê –í–≤–æ–¥ –ø–∞—Ä–æ–ª—è –≤ –∫–æ–Ω—Ç–µ–∫—Å—Ç–µ –ª–æ–≥–∏–Ω–∞" false
      (Some (fun ctx => PyDict.get_or ctx "is_login_page" (VBool false))) 2.5;
    rule "context_payment_flow" ""
      (Some PAYMENT) "critical" "üí∏ –û–ø–ª–∞—Ç–∞ –≤ –∫–æ–Ω—Ç–µ–∫—Å—Ç–µ checkout" false
      (Some (fun ctx => PyDict.get_or ctx "is_payment_page" (VBool false))) 3.0 ].

(** The body of the first loop of [evaluate_rules] for one rule: whether the
    rule is triggered.  [re.search] on a pattern that does not compile raises,
    and nothing around it catches. *)
Definition rule_triggers (r : SecurityRule.t) (action_type : ActionType)
  (target : string) (context : pydict) : res bool :=
  if match SecurityRule.action_type r with
     | Some a => negb (bool_decide (a = action_type))
     | None => false
     end then Ok false
  else if bool_decide (action_type = NAVIGATE)
          || bool_decide (action_type = NAVIGATE_EXTERNAL) then Ok false
  else if match SecurityRule.condition r with
          | Some c => negb (PyDict.truthy (c context))
          | None => false
          end then Ok false
  else if negb (String.eqb (SecurityRule.pattern r) "") then
    if SecurityRule.regex r
    then of_pres (PyRe.search (SecurityRule.pattern r) target true)
    else Ok (contains (lower (SecurityRule.pattern r)) (lower target))
  else match SecurityRule.condition r with
       | Some _ => Ok true
       | None => Ok false
       end.

(** The first loop: the triggered rules, in the order of [self.rules]. *)
Fixpoint triggered (rules : list SecurityRule.t) (action_type : ActionType)
  (target : string) (context : pydict) : res (list SecurityRule.t) :=
  match rules with
  | [] => Ok []
  | r :: rest =>
      t ← rule_triggers r action_type target context;
      tl ← triggered rest action_type target context;
      Ok (if (t : bool) then r :: tl else tl)
  end.

Definition risk_level_multiplier (risk_level : string) : float :=
  if String.eqb risk_level "low" then 0.3
  else if String.eqb risk_level "medium" then 0.6
  else if String.eqb risk_level "high" then 0.9
  else if String.eqb risk_level "critical" then 1.0
  else 0.5.

(** The thresholds that turn a score into a level, in both scorers. *)
Definition level_of (normalized_score : float) : string :=
  if (80 <=? normalized_score)%float then "critical"
  else if (60 <=? normalized_score)%float then "high"
  else if (30 <=? normalized_score)%float then "medium"
  else "low".

(** [context.get("confidence", 0.5)] *)
Definition confidence_of (context : pydict) : pyval :=
  PyDict.get_or context "confidence" (VFloat 0.5).

(** The second half of [evaluate_rules]: the assessment of the triggered
    rules. *)
Definition rule_assessment (triggered_rules : list SecurityRule.t)
  (action_type : ActionType) (confidence : pyval) : RiskAssessment.t :=
  let risk_score :=
    fold_left (fun acc r =>
      (acc + SecurityRule.weight r
             * risk_level_multiplier (SecurityRule.risk_level r))%float)
      triggered_rules 0%float in
  let max_possible :=
    fold_left (fun acc r => (acc + SecurityRule.weight r)%float)
      triggered_rules 0%float in
  let normalized_score :=
    if (0 <? max_possible)%float then (risk_score / max_possible * 100)%float
    else 0%float in
  let risk_level := level_of normalized_score in
  let '(normalized_score, risk_level) :=
    if bool_decide (action_type = NAVIGATE)
       || bool_decide (action_type = NAVIGATE_EXTERNAL)
    then (5%float, "low") else (normalized_score, risk_level) in
  RiskAssessment.Build normalized_score risk_level
    (map SecurityRule.name triggered_rules) [] confidence.

(** [evaluate_rules] *)
Definition evaluate_rules (rules : list SecurityRule.t) (action_type : ActionType)
  (target : string) (context : pydict)
  : res (list SecurityRule.t * RiskAssessment.t) :=
  triggered_rules ← triggered rules action_type target context;
  Ok (triggered_rules,
      rule_assessment triggered_rules action_type (confidence_of context)).

(** [add_rule] and [remove_rule] *)
Definition add_rule (rules : list SecurityRule.t) (r : SecurityRule.t)
  : list SecurityRule.t := (rules ++ [r])%list.

Definition remove_rule (rules : list SecurityRule.t) (rule_name : string)
  : list SecurityRule.t :=
  List.filter (fun r => negb (String.eqb (SecurityRule.name r) rule_name)) rules.

End RuleEngine.

(* ===================================================================== *)
(** ** risk_assessor.py *)
(* ===================================================================== *)

Module RiskAssessor.

(** [risk_weights["action_type"]], read through [action_type.value.lower()];
    every kind has an entry, so the default [1.0] is never used. *)
Definition base_risk (action_type : ActionType) : float :=
  match action_type with
  | TYPE => 0.5
  | TYPE_PASSWORD => 80.0
  | TYPE_EMAIL => 2.0
  | TYPE_PHONE => 1.5
  | TYPE_CARD => 89.0
  | TYPE_PERSONAL => 2.0
  | CLICK => 1.0
  | CLICK_BUTTON => 1.0
  | CLICK_LINK => 0.8
  | NAVIGATE => 0.2
  | NAVIGATE_EXTERNAL => 0.3
  | NAVIGATE_SUSPICIOUS => 1.0
  | FORM_SUBMIT => 1.5
  | PAYMENT => 60.0
  | DELETE => 25.0
  | SOCIAL_ACTION => 1.5
  | LEGAL_ACTION => 1.5
  | SCROLL => 0.1
  | ANALYZE => 0.0
  end.

(** [risk_weights["context"]], in the order of the source. *)
Definition context_weights : list (string * float) :=
  [ ("is_payment_page", 1.3); ("is_login_page", 1.1);
    ("is_registration_page", 1.2); ("is_settings_page", 1.1);
    ("is_admin_page", 1.5); ("is_social_page", 1.1);
    ("is_search_page", 0.9); ("is_email_page", 1.1);
    ("contains_financial", 1.5); ("contains_passwords", 1.8);
    ("contains_personal_data", 1.3); ("contains_contact_info", 1.1);
    ("is_external_domain", 1.0); ("is_suspicious_domain", 1.2);
    ("is_trusted_domain", 0.9); ("is_https", 0.9); ("is_http", 1.1);
    ("is_login_flow", 1.3); ("is_payment_flow", 1.8);
    ("is_registration_flow", 1.3); ("is_form_filling", 1.2);
    ("is_password_in_login_context", 1.4);
    ("is_payment_in_checkout_context", 1.6);
    ("is_delete_in_settings_context", 1.7);
    ("is_social_action_in_context", 1.1);
    ("confidence_high", 1.1); ("confidence_low", 0.9) ]%float.

Definition navigation_keys : list string :=
  ["is_suspicious_domain"; "is_http"; "is_https"].

(** Whether the loop over the context weights applies the entry [context_key]. *)
Definition applies (is_navigation : bool) (context : pydict) (context_key : string)
  : bool :=
  PyDict.flag context context_key
  && (negb is_navigation || existsb (String.eqb context_key) navigation_keys).

(** The loop: the product of the weights applied, from [1.0], and the names
    recorded. *)
Definition context_modifier (is_navigation : bool) (context : pydict) : float :=
  fold_left (fun acc kw =>
      if applies is_navigation context (fst kw) then (acc * snd kw)%float else acc)
    context_weights 1%float.

Definition context_rules (is_navigation : bool) (context : pydict) : list string :=
  flat_map (fun kw =>
      if applies is_navigation context (fst kw)
      then [("context_" ++ fst kw)%string] else [])
    context_weights.

(** A value compared with a float: a number, or [TypeError]. *)
Definition numeric (v : pyval) : res float :=
  match v with
  | VFloat f => Ok f
  | VInt z => Ok (PyFloat.of_Z z)
  | VBool b => Ok (if b then 1%float else 0%float)
  | _ => Raise TypeError
  end.

Definition confidence_modifier (confidence : float) : float :=
  if (0.7 <? confidence)%float then 1.1%float
  else if (confidence <? 0.3)%float then 0.9%float
  else 1%float.

(** The score: the product scaled by 20 and capped at 100, and for the three
    navigation kinds capped again at 25. *)
Definition normalized_score (action_type : ActionType) (context : pydict)
  (confidence : float) : float :=
  let is_navigation := ContextAnalyzer.is_navigation action_type in
  let total_risk :=
    (base_risk action_type * context_modifier is_navigation context
     * confidence_modifier confidence)%float in
  let s := PyFloat.pymin (total_risk * 20)%float 100%float in
  if is_navigation then PyFloat.pymin s 25%float else s.

(** [assess_risk] *)
Definition assess_risk (action_type : ActionType) (target : string)
  (context : pydict) : res RiskAssessment.t :=
  let is_navigation := ContextAnalyzer.is_navigation action_type in
  let triggered_rules := context_rules is_navigation context in
  let confidence := RuleEngine.confidence_of context in
  c ← numeric confidence;
  let score := normalized_score action_type context c in
  let risk_level := RuleEngine.level_of score in
  let recommendations :=
    ((if String.eqb risk_level "high" || String.eqb risk_level "critical"
      then ["⚠️ Требуется подтверждение пользователя"] else [])
     ++ (if PyDict.flag context "contains_passwords"
         then ["🔐 Пароли никогда не должны храниться в логах"] else [])
     ++ (if PyDict.flag context "contains_financial"
         then ["💰 Финансовые операции требуют особого внимания"] else [])
     ++ (if PyDict.flag context "is_suspicious_domain"
         then ["🚫 Подозрительный домен, рекомендуется отмена"] else [])
     ++ (if ContextAnalyzer.absent_or_false context "is_https"
            && (10 <? base_risk action_type)%float
         then ["🔓 Действие выполняется по HTTP (небезопасно)"] else []))%list in
  Ok (RiskAssessment.Build score risk_level triggered_rules recommendations
        confidence).

End RiskAssessor.

(* ===================================================================== *)
(** ** audit_logger.py *)
(* ===================================================================== *)

Module AuditLogger.
#[local] Open Scope Z_scope.

(** [self.stats] *)
Record stats_t : Type := Stats {
  total_events : Z;
  blocked_actions : Z;
  confirmed_actions : Z;
  critical_events : Z;
  high_events : Z;
  medium_events : Z;
  low_events : Z
}.

Record t : Type := Build {
  events : list SecurityEvent.t;
  max_events : Z;
  stats : stats_t
}.

(** [AuditLogger(max_events)] *)
Definition init (max_events : Z) : t :=
  Build [] max_events (Stats 0 0 0 0 0 0 0).

(** [l[-n:]]: the last [n] elements for a positive [n], the whole list for
    [n = 0] (the slice then starts at index [-0 = 0]), and the list without
    its first [-n] elements for a negative [n]. *)
Definition last_n {A} (n : Z) (l : list A) : list A :=
  if 0 <? n then skipn (List.length l - Z.to_nat n) l
  else skipn (Z.to_nat (- n)) l.

(** [log_event] *)
Definition log_event (self : t) (event : SecurityEvent.t) : t :=
  let events := (events self ++ [event])%list in
  let s := stats self in
  let lvl := RiskAssessment.level (SecurityEvent.risk_assessment event) in
  let s := Stats (total_events s + 1) (blocked_actions s) (confirmed_actions s)
             (critical_events s + (if String.eqb lvl "critical" then 1 else 0))
             (high_events s
              + (if negb (String.eqb lvl "critical") && String.eqb lvl "high"
                 then 1 else 0))
             (medium_events s
              + (if negb (String.eqb lvl "critical") && negb (String.eqb lvl "high")
                    && String.eqb lvl "medium" then 1 else 0))
             (low_events s
              + (if negb (String.eqb lvl "critical") && negb (String.eqb lvl "high")
                    && negb (String.eqb lvl "medium") then 1 else 0)) in
  let s := if SecurityEvent.confirmed event
           then Stats (total_events s) (blocked_actions s) (confirmed_actions s + 1)
                  (critical_events s) (high_events s) (medium_events s) (low_events s)
           else Stats (total_events s) (blocked_actions s + 1) (confirmed_actions s)
                  (critical_events s) (high_events s) (medium_events s) (low_events s) in
  let events :=
    if max_events self <? Z.of_nat (List.length events)
    then last_n (max_events self) events else events in
  Build events (max_events self) s.

(** [log_action]; the event's time stamp is the reading of the clock. *)
Definition log_action (self : t) (now : Z) (action_type : ActionType)
  (target : string) (risk_assessment : RiskAssessment.t) (allowed : bool)
  (context : pydict) : t :=
  log_event self
    (SecurityEvent.Build (VInt now) action_type (PyStr.take 200 target)
       risk_assessment context allowed
       (Some (if allowed then "auto_allowed" else "auto_blocked")%string)
       (RiskAssessment.confidence risk_assessment)).

(** [get_stats] *)
Definition get_stats (self : t) : stats_t := stats self.

(** What [get_report] returns: the summary, the distribution over the
    levels, the number of recent events of each kind of action, and the
    recent events. *)
Module Report.
Record summary_t : Type := Summary {
  total_events : Z;
  recent_events : Z;
  blocked_actions : Z;
  confirmed_actions : Z;
  block_rate : pyval
}.
Record t : Type := Build {
  summary : summary_t;
  risk_distribution : list (string * Z);
  action_statistics : list (string * Z);
  recent_events_list : list pydict
}.
End Report.

(** [action_stats[k] = action_stats.get(k, 0) + 1] *)
Fixpoint bump (k : string) (l : list (string * Z)) : list (string * Z) :=
  match l with
  | [] => [(k, 1)]
  | (k', n) :: r =>
      if String.eqb k k' then (k', n + 1) :: r else (k', n) :: bump k r
  end.

(** One element of the report's [recent_events]. *)
Definition event_entry (e : SecurityEvent.t) : pydict :=
  [ ("timestamp", SecurityEvent.timestamp e);
    ("action", VStr (ActionType_.value (SecurityEvent.action e)));
    ("target", VStr (SecurityEvent.target e));
    ("risk_score", VFloat (RiskAssessment.score (SecurityEvent.risk_assessment e)));
    ("risk_level", VStr (RiskAssessment.level (SecurityEvent.risk_assessment e)));
    ("confirmed", VBool (SecurityEvent.confirmed e));
    ("user_decision", match SecurityEvent.user_decision e with
                      | Some d => VStr d
                      | None => VNone
                      end) ]%string.

(** [get_report]; the quotient of the two counters is the float quotient of
    their float values, which is Python's for counters below [2^53]. *)
Definition get_report (self : t) (limit : Z) : Report.t :=
  let recent_events :=
    match events self with
    | [] => []
    | _ => last_n limit (events self)
    end in
  let action_stats :=
    fold_left (fun acc e => bump (ActionType_.value (SecurityEvent.action e)) acc)
      recent_events [] in
  let s := stats self in
  Report.Build
    (Report.Summary
       (Z.of_nat (List.length (events self)))
       (Z.of_nat (List.length recent_events))
       (blocked_actions s) (confirmed_actions s)
       (if 0 <? total_events s
        then VFloat (PyFloat.of_Z (blocked_actions s) / PyFloat.of_Z (total_events s))
        else VInt 0))
    [ ("critical", critical_events s); ("high", high_events s);
      ("medium", medium_events s); ("low", low_events s) ]%string
    action_stats
    (map event_entry recent_events).

End AuditLogger.

(* ===================================================================== *)
(** ** The world outside the layer

    The module-level hash cache of [utils.py], the lines the input provider
    will return, and the record of the calls [check_action] makes on its
    collaborators, in the order it makes them. *)
(* ===================================================================== *)

(** What one call of [input_provider.get_input] does: return a line, raise
    [KeyboardInterrupt] or [EOFError], or raise another exception.  When the
    list is used up the input is at its end, which is [EOFError]. *)
Inductive inp : Type :=
| Line (s : string)
| Interrupt
| InputFailure.

Inductive call : Type :=
| CallAnalyze
| CallEvaluateRules
| CallAssessRisk
| CallRequestConfirmation
| CallGetInput
| CallLogAction (allowed : bool)
| CallCallback (returned : bool).

Record world : Type := World {
  hash_cache : Utils.hash_cache;
  stdin : list inp;
  calls : list call
}.

Definition record_call (w : world) (c : call) : world :=
  World (hash_cache w) (stdin w) (calls w ++ [c])%list.

(* ===================================================================== *)
(** ** confirmation_requester.py *)
(* ===================================================================== *)

Module ConfirmationRequester.
Import PyStr.

(** [self.auto_confirm_hashes] *)
Abbreviation t := (gset string).

(** [_get_user_decision]: the loop over the answers.  The decision, the
    number of lines asked for, and the input that is left.  The input is the
    finite list of what the provider gives before it raises [EOFError], and
    the [while True] of the source is the recursion on this list; a provider
    that gives lines that are none of the four answers for ever keeps the
    source asking, and is not described. *)
Fixpoint _get_user_decision (inputs : list inp)
  : (bool * string) * nat * list inp :=
  match inputs with
  | [] => ((false, "interrupted"), 1%nat, [])
  | Interrupt :: rest => ((false, "interrupted"), 1%nat, rest)
  | InputFailure :: rest => ((false, "input_error"), 1%nat, rest)
  | Line response_raw :: rest =>
      let response := strip (lower response_raw) in
      if String.eqb response "y" then ((true, "approved"), 1%nat, rest)
      else if String.eqb response "a" then ((true, "approved_all"), 1%nat, rest)
      else if String.eqb response "n" then ((false, "blocked"), 1%nat, rest)
      else if String.eqb response "q" then ((false, "task_aborted"), 1%nat, rest)
      else
        (* [d] shows the details, anything else is refused; both ask again *)
        let '(d, n, rest') := _get_user_decision rest in (d, S n, rest')
  end.

(** [request_confirmation]; the message and the details it prints are not
    modelled, the masking of the target that they show is. *)
Definition request_confirmation (self : t) (now : Z) (w : world)
  (action_type : ActionType) (target : string)
  (risk_assessment : RiskAssessment.t) (context : pydict)
  (triggered_rules : list SecurityRule.t) : res (world * (bool * string)) :=
  let w := record_call w CallRequestConfirmation in
  let '(action_hash, cache) :=
    Utils.generate_action_hash now (hash_cache w) action_type target context in
  let w := World cache (stdin w) (calls w) in
  if bool_decide (action_hash ∈ self) then Ok (w, (true, "previously_confirmed"))
  else
    masked_target ← Utils.mask_sensitive_data target;
    let '(decision, asked, rest) := _get_user_decision (stdin w) in
    Ok (World (hash_cache w) rest (calls w ++ repeat CallGetInput asked)%list,
        decision).

(** [set_auto_confirm] *)
Definition set_auto_confirm (self : t) (action_hash : string) : t :=
  {[action_hash]} ∪ self.

End ConfirmationRequester.

(* ===================================================================== *)
(** ** security_layer.py *)
(* ===================================================================== *)

Module SecurityLayer.

(** A registered callback, as far as [check_action] depends on it: whether,
    given the event, it returns ([true]) or raises an [Exception] ([false]),
    which [_notify_callbacks] catches.  This describes callbacks that only
    observe.  The event handed to a callback holds the very assessment and
    context that [check_action] goes on to return, and a callback that
    changes these objects, or that raises outside [Exception], is not
    described by this type: nothing below speaks of what such a callback
    does. *)
Definition callback : Type := SecurityEvent.t -> bool.

Record t : Type := Build {
  security_level : SecurityLevel;
  pattern_matcher : PatternMatcher.patterns_t;
  rule_engine : list SecurityRule.t;
  audit_logger : AuditLogger.t;
  confirmation_requester : ConfirmationRequester.t;
  action_history : list pydict;
  confirmed_actions : gset string;
  confirmation_callbacks : list callback
}.

(** [SecurityLayer(security_level)] *)
Definition init (security_level : SecurityLevel) : t :=
  Build security_level PatternMatcher._load_patterns
    RuleEngine._load_default_rules (AuditLogger.init 1000) ∅ [] ∅ [].

Definition set_history (self : t) (h : list pydict) : t :=
  Build (security_level self) (pattern_matcher self) (rule_engine self)
    (audit_logger self) (confirmation_requester self) h
    (confirmed_actions self) (confirmation_callbacks self).

Definition set_audit_logger (self : t) (a : AuditLogger.t) : t :=
  Build (security_level self) (pattern_matcher self) (rule_engine self)
    a (confirmation_requester self) (action_history self)
    (confirmed_actions self) (confirmation_callbacks self).

Definition set_confirmed (self : t) (c : gset string) : t :=
  Build (security_level self) (pattern_matcher self) (rule_engine self)
    (audit_logger self) (confirmation_requester self) (action_history self)
    c (confirmation_callbacks self).

(** [_add_to_history] *)
Definition _add_to_history (self : t) (now : Z) (entry : pydict) : t :=
  let entry := PyDict.set entry "timestamp" (VInt now) in
  let h := (action_history self ++ [entry])%list in
  set_history self
    (if (100 <? List.length h)%nat then skipn (List.length h - 100) h else h).

(** [_notify_callbacks]: every callback is called; one that raises is caught. *)
Definition _notify_callbacks (self : t) (w : world) (event : SecurityEvent.t)
  : world :=
  fold_left (fun w cb => record_call w (CallCallback (cb event)))
    (confirmation_callbacks self) w.

(** [register_confirmation_callback] *)
Definition register_confirmation_callback (self : t) (cb : callback) : t :=
  Build (security_level self) (pattern_matcher self) (rule_engine self)
    (audit_logger self) (confirmation_requester self) (action_history self)
    (confirmed_actions self) (confirmation_callbacks self ++ [cb])%list.

(** The assessment returned for an action confirmed before. *)
Definition previously_confirmed : RiskAssessment.t :=
  RiskAssessment.Build 0%float "low" ["previously_confirmed"] [] (VFloat 1.0).

(** Step 6 of [check_action]: the two assessments combined. *)
Definition combine (rule_risk risk_assessment : RiskAssessment.t)
  : RiskAssessment.t :=
  let combined_score :=
    PyFloat.pymax (RiskAssessment.score rule_risk)
                  (RiskAssessment.score risk_assessment) in
  let combined_level :=
    if (RiskAssessment.score risk_assessment <? RiskAssessment.score rule_risk)%float
    then RiskAssessment.level rule_risk
    else RiskAssessment.level risk_assessment in
  let combined_rules :=
    remove_dups (RiskAssessment.triggered_rules rule_risk
                 ++ RiskAssessment.triggered_rules risk_assessment)%list in
  RiskAssessment.Build combined_score combined_level combined_rules
    (RiskAssessment.recommendations risk_assessment)
    (RiskAssessment.confidence risk_assessment).

(** The log entry every deciding branch writes. *)
Definition log (self : t) (w : world) (now : Z) (action_type : ActionType)
  (target : string) (risk : RiskAssessment.t) (allowed : bool) (context : pydict)
  : t * world :=
  (set_audit_logger self
     (AuditLogger.log_action (audit_logger self) now action_type target risk
        allowed context),
   record_call w (CallLogAction allowed)).

(** The confirmation branch, as the threshold branch and the MEDIUM branch
    write it: ask, remember an allow-all, log, notify, return. *)
Definition confirm_and_notify (self : t) (w : world) (now : Z)
  (action_type : ActionType) (target : string) (risk : RiskAssessment.t)
  (context : pydict) (triggered_rules : list SecurityRule.t)
  (action_hash : string) : res (t * world * (bool * RiskAssessment.t)) :=
  '(w, (allowed, reason)) ←
     ConfirmationRequester.request_confirmation (confirmation_requester self)
       now w action_type target risk context triggered_rules;
  let self :=
    if allowed && String.eqb reason "approved_all"
    then set_confirmed self ({[action_hash]} ∪ confirmed_actions self)
    else self in
  let '(self, w) := log self w now action_type target risk allowed context in
  let event :=
    SecurityEvent.Build (PyDict.get_or context "timestamp" (VStr ""))
      action_type target risk context allowed (Some reason)
      (RiskAssessment.confidence risk) in
  let w := _notify_callbacks self w event in
  Ok (self, w, (allowed, risk)).

(** The confirmation branch of the HIGH level: ask, log, return. *)
Definition confirm_only (self : t) (w : world) (now : Z)
  (action_type : ActionType) (target : string) (risk : RiskAssessment.t)
  (context : pydict) (triggered_rules : list SecurityRule.t)
  : res (t * world * (bool * RiskAssessment.t)) :=
  '(w, (allowed, reason)) ←
     ConfirmationRequester.request_confirmation (confirmation_requester self)
       now w action_type target risk context triggered_rules;
  let '(self, w) := log self w now action_type target risk allowed context in
  Ok (self, w, (allowed, risk)).

Definition is_high_or_critical (level : string) : bool :=
  String.eqb level "high" || String.eqb level "critical".

(** Steps 7 and 8 of [check_action]: the decision on the combined
    assessment. *)
Definition decide_action (self : t) (w : world) (now : Z)
  (action_type : ActionType) (target : string) (risk : RiskAssessment.t)
  (context : pydict) (triggered_rules : list SecurityRule.t)
  (action_hash : string) : res (t * world * (bool * RiskAssessment.t)) :=
  if (20 <? RiskAssessment.score risk)%float then
    confirm_and_notify self w now action_type target risk context
      triggered_rules action_hash
  else
    match security_level self with
    | LOW =>
        let '(self, w) := log self w now action_type target risk true context in
        Ok (self, w, (true, risk))
    | MEDIUM =>
        if bool_decide (action_type = NAVIGATE_SUSPICIOUS)
           && (String.eqb (RiskAssessment.level risk) "medium"
               || is_high_or_critical (RiskAssessment.level risk))
        then confirm_and_notify self w now action_type target risk context
               triggered_rules action_hash
        else
          let '(self, w) := log self w now action_type target risk true context in
          Ok (self, w, (true, risk))
    | HIGH =>
        if is_high_or_critical (RiskAssessment.level risk) then
          let '(self, w) := log self w now action_type target risk false context in
          Ok (self, w, (false, risk))
        else if String.eqb (RiskAssessment.level risk) "medium" then
          confirm_only self w now action_type target risk context triggered_rules
        else
          let '(self, w) := log self w now action_type target risk true context in
          Ok (self, w, (true, risk))
    end.

(** [check_action] *)
Definition check_action (self : t) (w : world) (now : Z)
  (action_type : ActionType) (target : string) (context : pydict)
  : res (t * world * (bool * RiskAssessment.t)) :=
  (* 1. history *)
  let self := _add_to_history self now
    [ ("action_type", VStr (ActionType_.value action_type));
      ("target", VStr (PyStr.take 200 target));
      ("url", PyDict.get_or context "current_url" (VStr "")) ] in
  (* 2. context *)
  let w := record_call w CallAnalyze in
  context ← ContextAnalyzer.analyze (pattern_matcher self) action_type target context;
  (* 3. confirmed before? *)
  let '(action_hash, cache) :=
    Utils.generate_action_hash now (hash_cache w) action_type target context in
  let w := World cache (stdin w) (calls w) in
  if bool_decide (action_hash ∈ confirmed_actions self) then
    Ok (self, w, (true, previously_confirmed))
  else
    (* 4. rules *)
    let w := record_call w CallEvaluateRules in
    '(triggered_rules, rule_risk) ←
       RuleEngine.evaluate_rules (rule_engine self) action_type target context;
    (* 5. risk *)
    let w := record_call w CallAssessRisk in
    risk_assessment ← RiskAssessor.assess_risk action_type target context;
    (* 6. combined *)
    let final_risk_assessment := combine rule_risk risk_assessment in
    (* 7. and 8. *)
    decide_action self w now action_type target final_risk_assessment context
      triggered_rules action_hash.

End SecurityLayer.

(* ===================================================================== *)
(** * Properties *)
(* ===================================================================== *)

(** ** The order of binary64 numbers

    [Prim2SF] sends a float that is not NaN to a key, a triple of integers
    compared lexicographically, and the primitive comparisons are the
    comparisons of keys.  [float_order] proves facts about [<?], [<=?] and
    [=?] on floats by turning them into facts about integers. *)

Module FloatOrder.
#[local] Open Scope Z_scope.

Definition key (f : spec_float) : option (Z * Z * Z) :=
  match f with
  | S754_nan => None
  | S754_zero _ => Some (0, 0, 0)
  | S754_infinity s => Some (if s then -2 else 2, 0, 0)
  | S754_finite s m e => Some (if s then (-1, - e, Zneg m) else (1, e, Zpos m))
  end.

Definition lex (a b : Z * Z * Z) : comparison :=
  let '(a1, a2, a3) := a in
  let '(b1, b2, b3) := b in
  match a1 ?= b1 with
  | Eq => match a2 ?= b2 with Eq => a3 ?= b3 | c => c end
  | c => c
  end.

Definition cmp (x y : float) : option comparison :=
  match key (Prim2SF x), key (Prim2SF y) with
  | Some a, Some b => Some (lex a b)
  | _, _ => None
  end.

(** Decide the integer comparisons of the goal from the hypotheses. *)
Ltac zcmp :=
  repeat match goal with
  | |- context [(?a ?= ?b)%Z] =>
      first [ replace (a ?= b) with Eq by (symmetry; apply Z.compare_eq_iff; lia)
            | replace (a ?= b) with Lt by (symmetry; apply Z.compare_lt_iff; lia)
            | replace (a ?= b) with Gt by (symmetry; apply Z.compare_gt_iff; lia) ]
  end.

Lemma SFcompare_key f1 f2 :
  SFcompare f1 f2 =
  match key f1, key f2 with Some a, Some b => Some (lex a b) | _, _ => None end.
Proof.
  destruct f1 as [s1| s1| |s1 m1 e1], f2 as [s2| s2| |s2 m2 e2];
    try destruct s1; try destruct s2; try reflexivity.
  all: unfold SFcompare, key, lex.
  all: change (Pos.compare_cont Eq m1 m2) with (m1 ?= m2)%positive.
  all: destruct (Z.compare_spec e1 e2); destruct (Pos.compare_spec m1 m2).
  all: zcmp; reflexivity.
Qed.

Lemma ltb_cmp x y : (x <? y)%float = match cmp x y with Some Lt => true | _ => false end.
Proof. rewrite FloatAxioms.ltb_spec. unfold SFltb, cmp. rewrite SFcompare_key. reflexivity. Qed.

Lemma leb_cmp x y :
  (x <=? y)%float = match cmp x y with Some Lt | Some Eq => true | _ => false end.
Proof. rewrite FloatAxioms.leb_spec. unfold SFleb, cmp. rewrite SFcompare_key. reflexivity. Qed.

Lemma eqb_cmp x y : (x =? y)%float = match cmp x y with Some Eq => true | _ => false end.
Proof. rewrite FloatAxioms.eqb_spec. unfold SFeqb, cmp. rewrite SFcompare_key. reflexivity. Qed.

(** Turn every comparison of floats in the goal and the hypotheses into
    comparisons of integers, and decide. *)
Ltac keys :=
  repeat match goal with
  | |- context [key (Prim2SF ?x)] =>
      first [ is_var x; destruct (key (Prim2SF x)) as [[[? ?] ?]|]
            | let k := eval vm_compute in (key (Prim2SF x)) in
              change (key (Prim2SF x)) with k ]
  | H : context [key (Prim2SF ?x)] |- _ =>
      first [ is_var x; destruct (key (Prim2SF x)) as [[[? ?] ?]|]
            | let k := eval vm_compute in (key (Prim2SF x)) in
              change (key (Prim2SF x)) with k in H ]
  end.

Ltac compares :=
  repeat match goal with
  | |- context [Z.compare ?a ?b] => destruct (Z.compare_spec a b)
  | H : context [Z.compare ?a ?b] |- _ => destruct (Z.compare_spec a b)
  end.

Ltac float_order :=
  intros;
  rewrite ?ltb_cmp, ?leb_cmp, ?eqb_cmp in *;
  unfold cmp in *; keys; unfold lex in *; compares;
  try discriminate; try reflexivity; try lia; try congruence.

Lemma ltb_asym x y : (x <? y)%float = true -> (y <? x)%float = false.
Proof. float_order. Qed.

Lemma ltb_irrefl x : (x <? x)%float = false.
Proof. float_order. Qed.

Lemma eqb_not_ltb x y : (x =? y)%float = true -> (y <? x)%float = false.
Proof. float_order. Qed.

Lemma leb_of_not_ltb c x y :
  (x <? y)%float = false -> (y <? x)%float = false -> (x =? x)%float = true ->
  (c <=? y)%float = true -> (c <=? x)%float = true.
Proof. float_order. Qed.

Lemma leb_eqb c x y : (x =? y)%float = true -> (c <=? x)%float = (c <=? y)%float.
Proof. float_order. Qed.

Lemma leb_60_of_80 x : (80 <=? x)%float = true -> (60 <=? x)%float = true.
Proof. float_order. Qed.

Lemma above_20_of_60 x : (60 <=? x)%float = true -> (20 <? x)%float = true.
Proof. float_order. Qed.

Lemma above_20_of_80 x : (80 <=? x)%float = true -> (20 <? x)%float = true.
Proof. float_order. Qed.

Lemma below_25 s :
  (25 <? s)%float = false -> (5 <? s)%float = true -> (s <=? 25)%float = true.
Proof. float_order. Qed.

End FloatOrder.

(* ===================================================================== *)
(** ** The audit store *)
(* ===================================================================== *)

Module AuditLoggerProps.
Import AuditLogger.
#[local] Open Scope Z_scope.
#[local] Open Scope list_scope.

(** The logger after the events of [evs] were logged in turn. *)
Definition log_all (self : t) (evs : list SecurityEvent.t) : t :=
  fold_left log_event evs self.

Definition count (p : SecurityEvent.t -> bool) (evs : list SecurityEvent.t) : Z :=
  Z.of_nat (List.length (List.filter p evs)).

Definition has_level (l : string) (e : SecurityEvent.t) : bool :=
  String.eqb (RiskAssessment.level (SecurityEvent.risk_assessment e)) l.

Definition other_level (e : SecurityEvent.t) : bool :=
  negb (has_level "critical" e) && negb (has_level "high" e)
  && negb (has_level "medium" e).

(** The counters computed over a whole history. *)
Definition stats_of (evs : list SecurityEvent.t) : stats_t :=
  Stats (Z.of_nat (List.length evs))
        (count (fun e => negb (SecurityEvent.confirmed e)) evs)
        (count SecurityEvent.confirmed evs)
        (count (has_level "critical") evs)
        (count (has_level "high") evs)
        (count (has_level "medium") evs)
        (count other_level evs).

(** The store keeps the last [max_events] events of the history and the
    counters count all of it. *)
Definition inv (self : t) (hist : list SecurityEvent.t) : Prop :=
  events self = skipn (List.length hist - Z.to_nat (max_events self)) hist
  /\ stats self = stats_of hist.

Lemma count_app p l e :
  count p (l ++ [e]) = count p l + (if p e then 1 else 0).
Proof.
  unfold count. rewrite List.filter_app, List.length_app. simpl.
  destruct (p e); simpl; lia.
Qed.

Lemma stats_step s hist e :
  s = stats_of hist -> stats (log_event (Build (skipn 0 hist) 1 s) e)
                       = stats_of (hist ++ [e]).
Proof.
  intros ->. unfold log_event, stats_of. cbn [stats events max_events].
  rewrite !count_app, List.length_app. cbn [total_events blocked_actions
    confirmed_actions critical_events high_events medium_events low_events].
  unfold other_level, has_level.
  set (lvl := RiskAssessment.level (SecurityEvent.risk_assessment e)).
  assert (Hc : String.eqb lvl "high" = true -> String.eqb lvl "critical" = false).
  { intros H. apply String.eqb_eq in H. rewrite H. reflexivity. }
  assert (Hm : String.eqb lvl "medium" = true ->
               String.eqb lvl "critical" = false /\ String.eqb lvl "high" = false).
  { intros H. apply String.eqb_eq in H. rewrite H. split; reflexivity. }
  destruct (String.eqb lvl "critical") eqn:E1;
    destruct (String.eqb lvl "high") eqn:E2;
    destruct (String.eqb lvl "medium") eqn:E3;
    try (specialize (Hc eq_refl); discriminate);
    try (destruct (Hm eq_refl); discriminate);
    destruct (SecurityEvent.confirmed e); cbn; f_equal; lia.
Qed.

Lemma stats_log_event self e :
  stats (log_event self e) = stats (log_event (Build [] 1 (stats self)) e).
Proof. unfold log_event. destruct (SecurityEvent.confirmed e); reflexivity. Qed.

Lemma max_events_log_event self e : max_events (log_event self e) = max_events self.
Proof. reflexivity. Qed.

Lemma events_step self hist e :
  1 <= max_events self ->
  events self = skipn (List.length hist - Z.to_nat (max_events self)) hist ->
  events (log_event self e)
  = skipn (List.length (hist ++ [e]) - Z.to_nat (max_events self)) (hist ++ [e]).
Proof.
  intros Hcap Hev. unfold log_event. cbn [events max_events].
  set (c := Z.to_nat (max_events self)) in *.
  set (n := List.length hist) in *.
  assert (Hc : (1 <= c)%nat) by (subst c; lia).
  assert (Hcz : max_events self = Z.of_nat c) by (subst c; lia).
  assert (Hlen : List.length (events self) = Nat.min n c).
  { rewrite Hev, List.length_skipn. subst n. lia. }
  rewrite !List.length_app. cbn [List.length]. fold n.
  destruct (Z.ltb_spec (max_events self) (Z.of_nat (List.length (events self) + 1))) as [Hgt|Hle].
  - (* the store is full: the oldest event goes *)
    assert (Hn : (c <= n)%nat) by lia.
    unfold last_n. replace (0 <? max_events self) with true by (symmetry; apply Z.ltb_lt; lia).
    rewrite List.length_app. cbn [List.length]. fold c.
    rewrite Hlen, Hev.
    replace (Nat.min n c + 1 - c)%nat with 1%nat by lia.
    replace (n + 1 - c)%nat with (S (n - c)) by lia.
    rewrite List.skipn_app.
    rewrite List.length_skipn. fold n.
    replace (1 - (n - (n - c)))%nat with 0%nat by lia.
    rewrite List.skipn_skipn.
    rewrite (List.skipn_app (S (n - c))). fold n.
    replace (S (n - c) - n)%nat with 0%nat by lia.
    replace (1 + (n - c))%nat with (S (n - c)) by lia.
    reflexivity.
  - assert (Hn : (n < c)%nat) by lia.
    rewrite Hev.
    replace (n - c)%nat with 0%nat by lia.
    replace (n + 1 - c)%nat with 0%nat by lia.
    reflexivity.
Qed.

Lemma inv_step self hist e :
  1 <= max_events self -> inv self hist -> inv (log_event self e) (hist ++ [e]).
Proof.
  intros Hcap [Hev Hst]. split.
  - rewrite max_events_log_event. apply events_step; assumption.
  - rewrite stats_log_event. apply (stats_step (stats self) hist e Hst).
Qed.

Lemma inv_log_all evs : forall self hist,
  1 <= max_events self -> inv self hist ->
  inv (log_all self evs) (hist ++ evs) /\ max_events (log_all self evs) = max_events self.
Proof.
  induction evs as [|e evs IH]; intros self hist Hcap Hinv; simpl.
  - rewrite List.app_nil_r. split; [assumption | reflexivity].
  - destruct (IH (log_event self e) (hist ++ [e])) as [H1 H2].
    + rewrite max_events_log_event. assumption.
    + apply inv_step; assumption.
    + rewrite <- List.app_assoc in H1. simpl in H1. split; [exact H1|].
      rewrite H2. apply max_events_log_event.
Qed.

(** What logging one event does to the logger: the total goes up by one, and
    so does the counter of confirmed or of blocked actions; for a capacity
    that is not negative the event is the last one of the store, after what
    is kept of the events held before. *)
Lemma log_event_effect self e :
  total_events (stats (log_event self e)) = total_events (stats self) + 1
  /\ confirmed_actions (stats (log_event self e))
     = confirmed_actions (stats self) + (if SecurityEvent.confirmed e then 1 else 0)
  /\ blocked_actions (stats (log_event self e))
     = blocked_actions (stats self) + (if SecurityEvent.confirmed e then 0 else 1)
  /\ (0 <= max_events self ->
      exists k, events (log_event self e) = skipn k (events self) ++ [e]).
Proof.
  unfold log_event. cbn [stats events].
  split; [destruct (SecurityEvent.confirmed e); reflexivity|].
  split; [destruct (SecurityEvent.confirmed e); cbn [confirmed_actions]; lia|].
  split; [destruct (SecurityEvent.confirmed e); cbn [blocked_actions]; lia|].
  intros Hcap.
  destruct (max_events self <? Z.of_nat (List.length (events self ++ [e]))) eqn:E;
    [|exists 0%nat; reflexivity].
  unfold last_n. destruct (0 <? max_events self) eqn:E0.
  - apply Z.ltb_lt in E0.
    exists (List.length (events self ++ [e]) - Z.to_nat (max_events self))%nat.
    rewrite List.skipn_app, List.length_app. cbn [List.length].
    replace (List.length (events self) + 1 - Z.to_nat (max_events self)
             - List.length (events self))%nat with 0%nat by lia.
    reflexivity.
  - apply Z.ltb_ge in E0. replace (max_events self) with 0 by lia.
    exists 0%nat. reflexivity.
Qed.

End AuditLoggerProps.

(* ===================================================================== *)
(** ** The two scorers *)
(* ===================================================================== *)

Module ScorerProps.
#[local] Open Scope list_scope.

Ltac bind_ok := unfold mbind, res_bind.

(** The constant patterns of [mask_sensitive_data] compile, so it returns. *)
Lemma sub_ok pat repl text icase :
  (exists p, PyRe.compile pat = PyRe.POk p) ->
  exists s, of_pres (PyRe.sub pat repl text icase) = Ok s.
Proof.
  intros [p Hp]. unfold PyRe.sub. rewrite Hp. cbn. eauto.
Qed.

Lemma mask_sensitive_data_ok text : exists s, Utils.mask_sensitive_data text = Ok s.
Proof.
  unfold Utils.mask_sensitive_data.
  destruct (String.eqb text ""); [eauto|].
  bind_ok.
  match goal with |- context [PyRe.sub ?p ?r text ?i] =>
    destruct (sub_ok p r text i) as [s1 ->]; [vm_compute; eauto|] end.
  match goal with |- context [PyRe.sub ?p ?r s1 ?i] =>
    destruct (sub_ok p r s1 i) as [s2 ->]; [vm_compute; eauto|] end.
  assert (H3 : exists s3,
    (if PyStr.contains "пароль" (PyStr.lower s2) || PyStr.contains "password" (PyStr.lower s2)
     then of_pres (PyRe.sub "(пароль|password)[:\s]*[^\s]+"
            (fun m => default [] (PyRe.group 1 m) ++ PyStr.cps ": *******") s2 true)
     else Ok s2) = Ok s3).
  { destruct (_ || _); [|eauto]. apply sub_ok. vm_compute. eauto. }
  destruct H3 as [s3 ->].
  match goal with |- context [PyRe.sub ?p ?r s3 ?i] =>
    destruct (sub_ok p r s3 i) as [s4 ->]; [vm_compute; eauto|] end.
  apply sub_ok. vm_compute. eauto.
Qed.

(** Each scorer's level is the level of its score. *)
Lemma evaluate_rules_level rules a t ctx tr rr :
  RuleEngine.evaluate_rules rules a t ctx = Ok (tr, rr) ->
  RiskAssessment.level rr = RuleEngine.level_of (RiskAssessment.score rr).
Proof.
  unfold RuleEngine.evaluate_rules. bind_ok.
  destruct (RuleEngine.triggered rules a t ctx); [|discriminate].
  intros [= <- <-]. unfold RuleEngine.rule_assessment.
  destruct (bool_decide (a = NAVIGATE) || bool_decide (a = NAVIGATE_EXTERNAL));
    reflexivity.
Qed.

Lemma assess_risk_level a t ctx ra :
  RiskAssessor.assess_risk a t ctx = Ok ra ->
  RiskAssessment.level ra = RuleEngine.level_of (RiskAssessment.score ra).
Proof.
  unfold RiskAssessor.assess_risk. bind_ok.
  destruct (RiskAssessor.numeric _); [|discriminate].
  intros [= <-]. reflexivity.
Qed.

(** A level [high] or [critical] is the level of a score above 20. *)
Lemma high_level_above_20 x :
  SecurityLayer.is_high_or_critical (RuleEngine.level_of x) = true ->
  (20 <? x)%float = true.
Proof.
  unfold RuleEngine.level_of, SecurityLayer.is_high_or_critical.
  destruct (80 <=? x)%float eqn:E80; [intros _; apply FloatOrder.above_20_of_80, E80|].
  destruct (60 <=? x)%float eqn:E60; [intros _; apply FloatOrder.above_20_of_60, E60|].
  destruct (30 <=? x)%float; cbn; discriminate.
Qed.

Lemma level_of_eqb x y :
  (x =? y)%float = true -> RuleEngine.level_of x = RuleEngine.level_of y.
Proof.
  intros H. unfold RuleEngine.level_of.
  rewrite (FloatOrder.leb_eqb 80 x y H), (FloatOrder.leb_eqb 60 x y H),
          (FloatOrder.leb_eqb 30 x y H).
  reflexivity.
Qed.

Lemma level_of_leb x :
  SecurityLayer.is_high_or_critical (RuleEngine.level_of x) = (60 <=? x)%float.
Proof.
  unfold RuleEngine.level_of, SecurityLayer.is_high_or_critical.
  destruct (80 <=? x)%float eqn:E80.
  - symmetry. apply FloatOrder.leb_60_of_80, E80.
  - destruct (60 <=? x)%float; [reflexivity|]. destruct (30 <=? x)%float; reflexivity.
Qed.

(** For the two plain navigation kinds the rule engine's score is 5. *)
Lemma evaluate_rules_navigation rules a t ctx tr rr :
  a = NAVIGATE \/ a = NAVIGATE_EXTERNAL ->
  RuleEngine.evaluate_rules rules a t ctx = Ok (tr, rr) ->
  RiskAssessment.score rr = 5%float.
Proof.
  intros Ha. unfold RuleEngine.evaluate_rules. bind_ok.
  destruct (RuleEngine.triggered rules a t ctx); [|discriminate].
  intros [= <- <-]. unfold RuleEngine.rule_assessment.
  destruct Ha as [-> | ->]; reflexivity.
Qed.

(** For a navigation kind the assessor's score is capped at 25. *)
Lemma assess_risk_navigation a t ctx ra :
  ContextAnalyzer.is_navigation a = true ->
  RiskAssessor.assess_risk a t ctx = Ok ra ->
  exists s, RiskAssessment.score ra = PyFloat.pymin s 25.
Proof.
  intros Ha. unfold RiskAssessor.assess_risk. bind_ok.
  destruct (RiskAssessor.numeric _); [|discriminate].
  intros [= <-]. cbn [RiskAssessment.score]. unfold RiskAssessor.normalized_score.
  rewrite Ha. eauto.
Qed.

End ScorerProps.

(* ===================================================================== *)
(** ** The orchestrator *)
(* ===================================================================== *)

Module SecurityLayerProps.
Import SecurityLayer.
#[local] Open Scope list_scope.

Ltac bind_ok := unfold mbind, res_bind.

(** The history entry that [check_action] records first. *)
Definition with_history (self : t) (now : Z) (a : ActionType) (target : string)
  (c0 : pydict) : t :=
  _add_to_history self now
    [ ("action_type", VStr (ActionType_.value a));
      ("target", VStr (PyStr.take 200 target));
      ("url", PyDict.get_or c0 "current_url" (VStr "")) ].

(** The world when the decision is taken: the cache after the hash was
    computed, and the three calls made so far. *)
Definition before_decision (w : world) (cache : Utils.hash_cache) : world :=
  World cache (stdin w)
    (calls w ++ [CallAnalyze; CallEvaluateRules; CallAssessRisk]).

(** The event handed to the callbacks. *)
Definition callback_event (a : ActionType) (target : string)
  (risk : RiskAssessment.t) (ctx : pydict) (allowed : bool) (reason : string)
  : SecurityEvent.t :=
  SecurityEvent.Build (PyDict.get_or ctx "timestamp" (VStr "")) a target risk
    ctx allowed (Some reason) (RiskAssessment.confidence risk).

Lemma with_history_fields self now a target c0 :
  let s := with_history self now a target c0 in
  security_level s = security_level self
  /\ pattern_matcher s = pattern_matcher self
  /\ rule_engine s = rule_engine self
  /\ audit_logger s = audit_logger self
  /\ confirmation_requester s = confirmation_requester self
  /\ confirmed_actions s = confirmed_actions self
  /\ confirmation_callbacks s = confirmation_callbacks self.
Proof. cbn. repeat split; reflexivity. Qed.

(** The gate always answers, and what it adds to the record of calls is the
    request followed by the lines it read. *)
Lemma request_confirmation_ok self now w a target risk ctx tr :
  exists w1 allowed reason n,
    ConfirmationRequester.request_confirmation self now w a target risk ctx tr
    = Ok (w1, (allowed, reason))
    /\ calls w1 = calls w ++ CallRequestConfirmation :: repeat CallGetInput n.
Proof.
  unfold ConfirmationRequester.request_confirmation.
  destruct (Utils.generate_action_hash _ _ _ _ _) as [h cache].
  cbn [hash_cache stdin calls record_call].
  destruct (bool_decide (h ∈ self)).
  - exists (World cache (stdin w) (calls w ++ [CallRequestConfirmation])),
      true, "previously_confirmed", 0%nat.
    split; reflexivity.
  - destruct (ScorerProps.mask_sensitive_data_ok target) as [m ->]. bind_ok.
    destruct (ConfirmationRequester._get_user_decision (stdin w))
      as [[[allowed reason] n] rest].
    eexists _, allowed, reason, n. split; [reflexivity|].
    cbn [calls]. rewrite <- List.app_assoc. reflexivity.
Qed.

Lemma notify_calls self ev : forall w,
  calls (_notify_callbacks self w ev)
  = calls w ++ map (fun cb => CallCallback (cb ev)) (confirmation_callbacks self).
Proof.
  unfold _notify_callbacks.
  induction (confirmation_callbacks self) as [|cb cbs IH]; intros w; cbn.
  - rewrite List.app_nil_r. reflexivity.
  - rewrite IH. cbn. rewrite <- List.app_assoc. reflexivity.
Qed.

Lemma notify_world self ev w :
  hash_cache (_notify_callbacks self w ev) = hash_cache w
  /\ stdin (_notify_callbacks self w ev) = stdin w.
Proof.
  unfold _notify_callbacks. revert w.
  induction (confirmation_callbacks self) as [|cb cbs IH]; intros w; cbn.
  - split; reflexivity.
  - destruct (IH (record_call w (CallCallback (cb ev)))) as [-> ->]. split; reflexivity.
Qed.

(** What the confirmation branch does, in full. *)
Lemma confirm_and_notify_spec self w now a target risk ctx tr h :
  exists w1 allowed reason n,
    ConfirmationRequester.request_confirmation (confirmation_requester self)
      now w a target risk ctx tr = Ok (w1, (allowed, reason))
    /\ calls w1 = calls w ++ CallRequestConfirmation :: repeat CallGetInput n
    /\ exists self' w',
        confirm_and_notify self w now a target risk ctx tr h
        = Ok (self', w', (allowed, risk))
        /\ confirmed_actions self'
           = (if allowed && String.eqb reason "approved_all"
              then {[h]} ∪ confirmed_actions self else confirmed_actions self)
        /\ audit_logger self'
           = AuditLogger.log_action (audit_logger self) now a target risk allowed ctx
        /\ calls w'
           = calls w1 ++ CallLogAction allowed
               :: map (fun cb => CallCallback
                                   (cb (callback_event a target risk ctx allowed reason)))
                      (confirmation_callbacks self).
Proof.
  destruct (request_confirmation_ok (confirmation_requester self) now w a target
              risk ctx tr) as (w1 & allowed & reason & n & Hreq & Hcalls).
  exists w1, allowed, reason, n. split; [exact Hreq|]. split; [exact Hcalls|].
  unfold confirm_and_notify. rewrite Hreq. bind_ok. cbn [log].
  eexists _, _. split; [reflexivity|].
  split; [|split].
  - destruct (allowed && String.eqb reason "approved_all"); reflexivity.
  - destruct (allowed && String.eqb reason "approved_all"); reflexivity.
  - rewrite notify_calls. cbn [calls record_call].
    rewrite <- List.app_assoc. cbn.
    destruct (allowed && String.eqb reason "approved_all"); reflexivity.
Qed.

(** [check_action] on an action confirmed before. *)
Lemma check_action_memoized self w now a target c0 ctx h cache :
  ContextAnalyzer.analyze (pattern_matcher self) a target c0 = Ok ctx ->
  Utils.generate_action_hash now (hash_cache w) a target ctx = (h, cache) ->
  h ∈ confirmed_actions self ->
  check_action self w now a target c0
  = Ok (with_history self now a target c0,
        World cache (stdin w) (calls w ++ [CallAnalyze]),
        (true, previously_confirmed)).
Proof.
  intros Hctx Hh Hin. unfold check_action.
  cbn [pattern_matcher _add_to_history set_history].
  rewrite Hctx. bind_ok. cbn [hash_cache record_call].
  rewrite Hh. cbn [confirmed_actions].
  rewrite bool_decide_eq_true_2 by exact Hin. reflexivity.
Qed.

(** [check_action] on any other action: the decision on the combined
    assessment. *)
Lemma check_action_decides self w now a target c0 ctx h cache tr rr ra :
  ContextAnalyzer.analyze (pattern_matcher self) a target c0 = Ok ctx ->
  Utils.generate_action_hash now (hash_cache w) a target ctx = (h, cache) ->
  h ∉ confirmed_actions self ->
  RuleEngine.evaluate_rules (rule_engine self) a target ctx = Ok (tr, rr) ->
  RiskAssessor.assess_risk a target ctx = Ok ra ->
  check_action self w now a target c0
  = decide_action (with_history self now a target c0) (before_decision w cache)
      now a target (combine rr ra) ctx tr h.
Proof.
  intros Hctx Hh Hin Hrr Hra. unfold check_action.
  cbn [pattern_matcher rule_engine _add_to_history set_history].
  rewrite Hctx. bind_ok. cbn [hash_cache record_call].
  rewrite Hh. cbn [confirmed_actions].
  rewrite bool_decide_eq_false_2 by exact Hin.
  cbn [stdin calls]. rewrite Hrr, Hra.
  unfold before_decision, with_history, _add_to_history, record_call.
  cbn [hash_cache stdin calls]. rewrite <- !List.app_assoc. reflexivity.
Qed.

(** Every way [check_action] returns: the short cut, or a decision. *)
Lemma check_action_inv self w now a target c0 self' w' allowed risk :
  check_action self w now a target c0 = Ok (self', w', (allowed, risk)) ->
  risk = previously_confirmed
  \/ (exists ctx h cache tr rr ra,
       ContextAnalyzer.analyze (pattern_matcher self) a target c0 = Ok ctx
       /\ Utils.generate_action_hash now (hash_cache w) a target ctx = (h, cache)
       /\ (h ∉ confirmed_actions self)
       /\ RuleEngine.evaluate_rules (rule_engine self) a target ctx = Ok (tr, rr)
       /\ RiskAssessor.assess_risk a target ctx = Ok ra
       /\ decide_action (with_history self now a target c0) (before_decision w cache)
            now a target (combine rr ra) ctx tr h
          = Ok (self', w', (allowed, risk))).
Proof.
  intros H.
  destruct (ContextAnalyzer.analyze (pattern_matcher self) a target c0) as [ctx|e] eqn:Hctx.
  2:{ unfold check_action in H. cbn [pattern_matcher _add_to_history set_history] in H.
      rewrite Hctx in H. discriminate. }
  destruct (Utils.generate_action_hash now (hash_cache w) a target ctx) as [h cache] eqn:Hh.
  destruct (decide (h ∈ confirmed_actions self)) as [Hin|Hin].
  - rewrite (check_action_memoized _ _ _ _ _ _ _ _ _ Hctx Hh Hin) in H.
    injection H as _ _ _ <-. left. reflexivity.
  - right.
    destruct (RuleEngine.evaluate_rules (rule_engine self) a target ctx) as [[tr rr]|e] eqn:Hrr.
    2:{ unfold check_action in H.
        cbn [pattern_matcher rule_engine _add_to_history set_history] in H.
        rewrite Hctx in H. unfold mbind, res_bind in H.
        cbn [hash_cache record_call] in H. rewrite Hh in H.
        cbn [confirmed_actions] in H.
        rewrite bool_decide_eq_false_2 in H by exact Hin.
        cbn [stdin calls] in H. rewrite Hrr in H. discriminate. }
    destruct (RiskAssessor.assess_risk a target ctx) as [ra|e] eqn:Hra.
    2:{ unfold check_action in H.
        cbn [pattern_matcher rule_engine _add_to_history set_history] in H.
        rewrite Hctx in H. unfold mbind, res_bind in H.
        cbn [hash_cache record_call] in H. rewrite Hh in H.
        cbn [confirmed_actions] in H.
        rewrite bool_decide_eq_false_2 in H by exact Hin.
        cbn [stdin calls] in H. rewrite Hrr, Hra in H. discriminate. }
    exists ctx, h, cache, tr, rr, ra.
    rewrite (check_action_decides _ _ _ _ _ _ _ _ _ _ _ _ Hctx Hh Hin Hrr Hra) in H.
    repeat split; assumption.
Qed.

(** Whatever the branch, the assessment returned is the one decided on. *)
Lemma decide_action_risk self w now a target risk ctx tr h self' w' allowed r :
  decide_action self w now a target risk ctx tr h = Ok (self', w', (allowed, r)) ->
  r = risk.
Proof.
  unfold decide_action, confirm_only.
  destruct (confirm_and_notify_spec self w now a target risk ctx tr h)
    as (w1 & al & reason & n & Hreq & _ & s1 & w2 & Hc & _).
  rewrite Hc, Hreq. bind_ok. cbn [log].
  destruct (20 <? RiskAssessment.score risk)%float; [intros [= _ _ _ <-]; reflexivity|].
  destruct (security_level self).
  - intros [= _ _ _ <-]; reflexivity.
  - destruct (_ && _); intros [= _ _ _ <-]; reflexivity.
  - destruct (is_high_or_critical _); [intros [= _ _ _ <-]; reflexivity|].
    destruct (String.eqb _ _); intros [= _ _ _ <-]; reflexivity.
Qed.

End SecurityLayerProps.

(* ===================================================================== *)
(** * Main results *)
(* ===================================================================== *)

Section Decision.
Import SecurityLayer SecurityLayerProps.
#[local] Open Scope list_scope.

(** The threshold branch of [check_action], for an action that was not
    confirmed before and whose combined score is above 20: the gate is asked,
    an allow-all answer puts the hash among the confirmed ones, the outcome is
    logged, every callback is called, and the gate's decision is returned. *)
Lemma threshold_branch self w now a target c0 ctx h cache tr rr ra :
  ContextAnalyzer.analyze (pattern_matcher self) a target c0 = Ok ctx ->
  Utils.generate_action_hash now (hash_cache w) a target ctx = (h, cache) ->
  h ∉ confirmed_actions self ->
  RuleEngine.evaluate_rules (rule_engine self) a target ctx = Ok (tr, rr) ->
  RiskAssessor.assess_risk a target ctx = Ok ra ->
  (20 <? RiskAssessment.score (combine rr ra))%float = true ->
  exists w1 allowed reason n self' w',
    ConfirmationRequester.request_confirmation (confirmation_requester self)
      now (before_decision w cache) a target (combine rr ra) ctx tr
    = Ok (w1, (allowed, reason))
    /\ calls w1
       = calls w ++ [CallAnalyze; CallEvaluateRules; CallAssessRisk;
                     CallRequestConfirmation] ++ repeat CallGetInput n
    /\ check_action self w now a target c0 = Ok (self', w', (allowed, combine rr ra))
    /\ confirmed_actions self'
       = (if allowed && String.eqb reason "approved_all"
          then {[h]} ∪ confirmed_actions self else confirmed_actions self)
    /\ audit_logger self'
       = AuditLogger.log_action (audit_logger self) now a target (combine rr ra)
           allowed ctx
    /\ calls w'
       = calls w1 ++ CallLogAction allowed
           :: map (fun cb => CallCallback
                     (cb (callback_event a target (combine rr ra) ctx allowed reason)))
                  (confirmation_callbacks self).
Proof.
  intros Hctx Hh Hin Hrr Hra Hscore.
  rewrite (check_action_decides _ _ _ _ _ _ _ _ _ _ _ _ Hctx Hh Hin Hrr Hra).
  unfold decide_action. rewrite Hscore.
  destruct (confirm_and_notify_spec (with_history self now a target c0)
              (before_decision w cache) now a target (combine rr ra) ctx tr h)
    as (w1 & allowed & reason & n & Hreq & Hcalls & self' & w' & Hc & H1 & H2 & H3).
  exists w1, allowed, reason, n, self', w'.
  split; [exact Hreq|]. split.
  { rewrite Hcalls. cbn [before_decision calls]. rewrite <- List.app_assoc.
    reflexivity. }
  split; [exact Hc|]. split; [exact H1|]. split; [exact H2|exact H3].
Qed.

(** C2.  For every action that was not confirmed before and under every
    security level, when the combined score is above 20 [check_action] asks
    the confirmation gate before it returns, remembers the action hash on an
    allow-all answer, logs the outcome, calls the registered callbacks, and
    returns the gate's decision as the allowed flag.  Logging the outcome
    changes the audit logger: its total goes up by one, and so does its
    counter of confirmed actions when the gate allowed the action, of blocked
    actions when it did not; and, the capacity not being negative, the event
    of this action, with the combined assessment and the gate's decision, is
    the last of the events it holds. *)
Theorem score_above_20_requests_confirmation
  self w now a target c0 ctx h cache tr rr ra :
  ContextAnalyzer.analyze (pattern_matcher self) a target c0 = Ok ctx ->
  Utils.generate_action_hash now (hash_cache w) a target ctx = (h, cache) ->
  h ∉ confirmed_actions self ->
  RuleEngine.evaluate_rules (rule_engine self) a target ctx = Ok (tr, rr) ->
  RiskAssessor.assess_risk a target ctx = Ok ra ->
  (20 <? RiskAssessment.score (combine rr ra))%float = true ->
  exists w1 allowed reason n self' w',
    ConfirmationRequester.request_confirmation (confirmation_requester self)
      now (before_decision w cache) a target (combine rr ra) ctx tr
    = Ok (w1, (allowed, reason))
    /\ calls w1
       = calls w ++ [CallAnalyze; CallEvaluateRules; CallAssessRisk;
                     CallRequestConfirmation] ++ repeat CallGetInput n
    /\ check_action self w now a target c0 = Ok (self', w', (allowed, combine rr ra))
    /\ confirmed_actions self'
       = (if allowed && String.eqb reason "approved_all"
          then {[h]} ∪ confirmed_actions self else confirmed_actions self)
    /\ audit_logger self'
       = AuditLogger.log_action (audit_logger self) now a target (combine rr ra)
           allowed ctx
    /\ calls w'
       = calls w1 ++ CallLogAction allowed
           :: map (fun cb => CallCallback
                     (cb (callback_event a target (combine rr ra) ctx allowed reason)))
                  (confirmation_callbacks self)
    /\ AuditLogger.total_events (AuditLogger.stats (audit_logger self'))
       = (AuditLogger.total_events (AuditLogger.stats (audit_logger self)) + 1)%Z
    /\ AuditLogger.confirmed_actions (AuditLogger.stats (audit_logger self'))
       = (AuditLogger.confirmed_actions (AuditLogger.stats (audit_logger self))
          + (if allowed then 1 else 0))%Z
    /\ AuditLogger.blocked_actions (AuditLogger.stats (audit_logger self'))
       = (AuditLogger.blocked_actions (AuditLogger.stats (audit_logger self))
          + (if allowed then 0 else 1))%Z
    /\ ((0 <= AuditLogger.max_events (audit_logger self))%Z ->
        exists k,
          AuditLogger.events (audit_logger self')
          = skipn k (AuditLogger.events (audit_logger self))
            ++ [SecurityEvent.Build (VInt now) a (PyStr.take 200 target)
                  (combine rr ra) ctx allowed
                  (Some (if allowed then "auto_allowed" else "auto_blocked"))
                  (RiskAssessment.confidence (combine rr ra))]).
Proof.
  intros Hctx Hh Hin Hrr Hra Hscore.
  destruct (threshold_branch self w now a target c0 ctx h cache tr rr ra
              Hctx Hh Hin Hrr Hra Hscore)
    as (w1 & allowed & reason & n & self' & w' & Hreq & Hc1 & Hchk & Hconf & Hlog & Hc2).
  exists w1, allowed, reason, n, self', w'.
  destruct (AuditLoggerProps.log_event_effect (audit_logger self)
              (SecurityEvent.Build (VInt now) a (PyStr.take 200 target)
                 (combine rr ra) ctx allowed
                 (Some (if allowed then "auto_allowed" else "auto_blocked"))
                 (RiskAssessment.confidence (combine rr ra))))
    as (Ht & Hcf & Hbl & Hev).
  split; [exact Hreq|]. split; [exact Hc1|]. split; [exact Hchk|].
  split; [exact Hconf|]. split; [exact Hlog|]. split; [exact Hc2|].
  rewrite Hlog.
  split; [exact Ht|]. split; [exact Hcf|]. split; [exact Hbl | exact Hev].
Qed.

(** A combined level [high] or [critical] comes with a combined score above
    20, when the rule engine's score is a number. *)
Lemma combined_high_above_20 rr ra :
  RiskAssessment.level rr = RuleEngine.level_of (RiskAssessment.score rr) ->
  RiskAssessment.level ra = RuleEngine.level_of (RiskAssessment.score ra) ->
  (RiskAssessment.score rr =? RiskAssessment.score rr)%float = true ->
  is_high_or_critical (RiskAssessment.level (combine rr ra)) = true ->
  (20 <? RiskAssessment.score (combine rr ra))%float = true.
Proof.
  intros Hlr Hla Hnan. unfold combine.
  cbn [RiskAssessment.level RiskAssessment.score]. unfold PyFloat.pymax.
  destruct (RiskAssessment.score ra <? RiskAssessment.score rr)%float eqn:E1.
  - rewrite Hlr. intros H.
    rewrite (FloatOrder.ltb_asym _ _ E1).
    apply ScorerProps.high_level_above_20, H.
  - rewrite Hla. intros H.
    destruct (RiskAssessment.score rr <? RiskAssessment.score ra)%float eqn:E2.
    + apply ScorerProps.high_level_above_20, H.
    + rewrite ScorerProps.level_of_leb in H.
      apply FloatOrder.above_20_of_60.
      exact (FloatOrder.leb_of_not_ltb _ _ _ E2 E1 Hnan H).
Qed.

(** C1, as the code has it.  Under the HIGH level an action whose combined
    level is [high] or [critical] (and whose rule score is a number) has a
    combined score above 20, so [check_action] takes the threshold branch: it
    asks the confirmation gate, logs the outcome and returns the gate's
    decision; it does not block the action on its own. *)
Theorem high_level_takes_confirmation_path
  self w now a target c0 ctx h cache tr rr ra :
  security_level self = HIGH ->
  ContextAnalyzer.analyze (pattern_matcher self) a target c0 = Ok ctx ->
  Utils.generate_action_hash now (hash_cache w) a target ctx = (h, cache) ->
  h ∉ confirmed_actions self ->
  RuleEngine.evaluate_rules (rule_engine self) a target ctx = Ok (tr, rr) ->
  RiskAssessor.assess_risk a target ctx = Ok ra ->
  (RiskAssessment.score rr =? RiskAssessment.score rr)%float = true ->
  is_high_or_critical (RiskAssessment.level (combine rr ra)) = true ->
  (20 <? RiskAssessment.score (combine rr ra))%float = true
  /\ exists w1 allowed reason n self' w',
       ConfirmationRequester.request_confirmation (confirmation_requester self)
         now (before_decision w cache) a target (combine rr ra) ctx tr
       = Ok (w1, (allowed, reason))
       /\ check_action self w now a target c0
          = Ok (self', w', (allowed, combine rr ra))
       /\ audit_logger self'
          = AuditLogger.log_action (audit_logger self) now a target
              (combine rr ra) allowed ctx
       /\ calls w'
          = calls w ++ [CallAnalyze; CallEvaluateRules; CallAssessRisk;
                        CallRequestConfirmation] ++ repeat CallGetInput n
              ++ CallLogAction allowed
                 :: map (fun cb => CallCallback
                           (cb (callback_event a target (combine rr ra) ctx
                                  allowed reason)))
                        (confirmation_callbacks self).
Proof.
  intros _ Hctx Hh Hin Hrr Hra Hnan Hlevel.
  assert (Hscore : (20 <? RiskAssessment.score (combine rr ra))%float = true).
  { apply combined_high_above_20; try assumption.
    - exact (ScorerProps.evaluate_rules_level _ _ _ _ _ _ Hrr).
    - exact (ScorerProps.assess_risk_level _ _ _ _ Hra). }
  split; [exact Hscore|].
  destruct (threshold_branch self w now a target c0 ctx h cache tr rr ra
              Hctx Hh Hin Hrr Hra Hscore)
    as (w1 & allowed & reason & n & self' & w' & Hreq & Hc1 & Hchk & _ & Hlog & Hc2).
  exists w1, allowed, reason, n, self', w'.
  split; [exact Hreq|]. split; [exact Hchk|]. split; [exact Hlog|].
  rewrite Hc2, Hc1. rewrite <- !List.app_assoc. reflexivity.
Qed.

(** The built-in [max] returns one of its arguments, and neither argument is
    above what it returns. *)
Lemma pymax_spec x y :
  (PyFloat.pymax x y = x \/ PyFloat.pymax x y = y)
  /\ (PyFloat.pymax x y <? x)%float = false
  /\ (PyFloat.pymax x y <? y)%float = false.
Proof.
  unfold PyFloat.pymax. destruct (x <? y)%float eqn:E.
  - split; [right; reflexivity|]. split; [exact (FloatOrder.ltb_asym _ _ E)|].
    apply FloatOrder.ltb_irrefl.
  - split; [left; reflexivity|]. split; [|exact E].
    apply FloatOrder.ltb_irrefl.
Qed.

(** C3.  For an action that was not confirmed before, the assessment that
    [check_action] returns has the maximum of the two scores as its score, the
    level of the scorer with the strictly larger score as its level (on equal
    scores the rule engine's level, which is then also the assessor's), the
    union of the two lists of rule names as its triggered rules, and the
    assessor's recommendations. *)
Theorem fused_assessment
  self w now a target c0 ctx h cache tr rr ra self' w' allowed risk :
  ContextAnalyzer.analyze (pattern_matcher self) a target c0 = Ok ctx ->
  Utils.generate_action_hash now (hash_cache w) a target ctx = (h, cache) ->
  h ∉ confirmed_actions self ->
  RuleEngine.evaluate_rules (rule_engine self) a target ctx = Ok (tr, rr) ->
  RiskAssessor.assess_risk a target ctx = Ok ra ->
  check_action self w now a target c0 = Ok (self', w', (allowed, risk)) ->
  RiskAssessment.score risk
  = PyFloat.pymax (RiskAssessment.score rr) (RiskAssessment.score ra)
  /\ (RiskAssessment.score risk = RiskAssessment.score rr
      \/ RiskAssessment.score risk = RiskAssessment.score ra)
  /\ (RiskAssessment.score risk <? RiskAssessment.score rr)%float = false
  /\ (RiskAssessment.score risk <? RiskAssessment.score ra)%float = false
  /\ ((RiskAssessment.score ra <? RiskAssessment.score rr)%float = true ->
      RiskAssessment.level risk = RiskAssessment.level rr)
  /\ ((RiskAssessment.score rr <? RiskAssessment.score ra)%float = true ->
      RiskAssessment.level risk = RiskAssessment.level ra)
  /\ ((RiskAssessment.score rr =? RiskAssessment.score ra)%float = true ->
      RiskAssessment.level risk = RiskAssessment.level rr)
  /\ (forall x : string,
        x ∈ RiskAssessment.triggered_rules risk
        <-> x ∈ RiskAssessment.triggered_rules rr
            \/ x ∈ RiskAssessment.triggered_rules ra)
  /\ NoDup (RiskAssessment.triggered_rules risk)
  /\ RiskAssessment.recommendations risk = RiskAssessment.recommendations ra.
Proof.
  intros Hctx Hh Hin Hrr Hra Hchk.
  rewrite (check_action_decides _ _ _ _ _ _ _ _ _ _ _ _ Hctx Hh Hin Hrr Hra) in Hchk.
  apply decide_action_risk in Hchk. subst risk.
  pose proof (ScorerProps.evaluate_rules_level _ _ _ _ _ _ Hrr) as Hlr.
  pose proof (ScorerProps.assess_risk_level _ _ _ _ Hra) as Hla.
  destruct (pymax_spec (RiskAssessment.score rr) (RiskAssessment.score ra))
    as (Hone & Hr & Ha).
  unfold combine.
  cbn [RiskAssessment.score RiskAssessment.level RiskAssessment.triggered_rules
       RiskAssessment.recommendations].
  split; [reflexivity|]. split; [exact Hone|]. split; [exact Hr|].
  split; [exact Ha|]. split; [|split; [|split]].
  - intros ->. reflexivity.
  - intros E. rewrite (FloatOrder.ltb_asym _ _ E). reflexivity.
  - intros E.
    rewrite (FloatOrder.eqb_not_ltb _ _ E).
    rewrite Hlr, Hla. symmetry. apply ScorerProps.level_of_eqb, E.
  - split; [|split; [|reflexivity]].
    + intros x. rewrite elem_of_remove_dups, elem_of_app. reflexivity.
    + apply NoDup_remove_dups.
Qed.

Lemma navigation_cap s :
  (PyFloat.pymax 5 (PyFloat.pymin s 25) <=? 25)%float = true.
Proof.
  unfold PyFloat.pymax, PyFloat.pymin.
  destruct (25 <? s)%float eqn:E1; [reflexivity|].
  destruct (5 <? s)%float eqn:E2; [|reflexivity].
  exact (FloatOrder.below_25 s E1 E2).
Qed.

(** C7.  For every action of kind [NAVIGATE] or [NAVIGATE_EXTERNAL] the score
    of the assessment that [check_action] returns is at most 25, whatever the
    context. *)
Theorem navigation_score_at_most_25
  self w now a target c0 self' w' allowed risk :
  a = NAVIGATE \/ a = NAVIGATE_EXTERNAL ->
  check_action self w now a target c0 = Ok (self', w', (allowed, risk)) ->
  (RiskAssessment.score risk <=? 25)%float = true.
Proof.
  intros Ha Hchk.
  destruct (check_action_inv _ _ _ _ _ _ _ _ _ _ Hchk)
    as [-> | (ctx & h & cache & tr & rr & ra & _ & _ & _ & Hrr & Hra & Hdec)].
  - reflexivity.
  - apply decide_action_risk in Hdec. subst risk.
    unfold combine. cbn [RiskAssessment.score].
    rewrite (ScorerProps.evaluate_rules_navigation _ _ _ _ _ _ Ha Hrr).
    destruct (ScorerProps.assess_risk_navigation a target ctx ra) as [s ->];
      [destruct Ha as [-> | ->]; reflexivity | exact Hra |].
    apply navigation_cap.
Qed.

End Decision.

(* ===================================================================== *)
(** * The scenarios, computed *)
(* ===================================================================== *)

(** The facts about a concrete submission that the general results ask for
    are equations, each settled by evaluating its left-hand side in the
    virtual machine; what the right-hand side leaves open is read off the
    value.  The value is computed at the type of the left-hand side, so the
    instances in the types of the finite maps are left as they are. *)
Ltac computed :=
  lazymatch goal with
  | |- @eq ?T ?l ?r =>
      tryif has_evar r
      then (let v := eval vm_compute in l in unify r v)
      else idtac;
      vm_cast_no_check (@eq_refl T r)
  end.
Ltac not_confirmed := apply not_elem_of_empty.

Section Scenarios.
Import SecurityLayer SecurityLayerProps.
#[local] Open Scope list_scope.

Definition login_context : pydict := [("is_login_page", VBool true)].
Definition payment_context : pydict := [("is_payment_page", VBool true)].

(** A world with an empty hash cache and the given lines of input. *)
Definition world0 (lines : list inp) : world := World ∅ lines [].

(** C1, as stated, fails.  Under the HIGH level the typing of a password on
    a login page, of combined level [critical], is put to the gate and, on
    the answer [y], allowed. *)
Lemma high_level_not_auto_blocked :
  exists self' w' risk,
    check_action (init HIGH) (world0 [Line "y"]) 0 TYPE_PASSWORD "mypassword123"
      login_context = Ok (self', w', (true, risk))
    /\ RiskAssessment.level risk = "critical"
    /\ calls w' = [CallAnalyze; CallEvaluateRules; CallAssessRisk;
                   CallRequestConfirmation; CallGetInput; CallLogAction true].
Proof.
  eexists _, _, _. split; [computed|]. split; reflexivity.
Qed.

Lemma high_level_takes_confirmation_path_witness :
  exists ctx h cache tr rr ra,
    ContextAnalyzer.analyze (pattern_matcher (init HIGH)) TYPE_PASSWORD
      "mypassword123" login_context = Ok ctx
    /\ Utils.generate_action_hash 0 (hash_cache (world0 [Line "y"]))
         TYPE_PASSWORD "mypassword123" ctx = (h, cache)
    /\ RuleEngine.evaluate_rules (rule_engine (init HIGH)) TYPE_PASSWORD
         "mypassword123" ctx = Ok (tr, rr)
    /\ RiskAssessor.assess_risk TYPE_PASSWORD "mypassword123" ctx = Ok ra
    /\ is_high_or_critical (RiskAssessment.level (combine rr ra)) = true
    /\ (20 <? RiskAssessment.score (combine rr ra))%float = true.
Proof.
  eexists _, _, _, _, _, _.
  split; [computed|]. split; [computed|]. split; [computed|].
  split; [computed|]. split; [computed|].
  eapply (high_level_takes_confirmation_path (init HIGH) (world0 [Line "y"]) 0
            TYPE_PASSWORD "mypassword123" login_context);
    [reflexivity | computed | computed | not_confirmed | computed | computed
    | computed | computed].
Defined.

Lemma score_above_20_requests_confirmation_witness :
  exists ctx h cache tr rr ra self' w' allowed,
    ContextAnalyzer.analyze (pattern_matcher (init MEDIUM)) PAYMENT
      "оформить заказ" payment_context = Ok ctx
    /\ Utils.generate_action_hash 0 (hash_cache (world0 [Line "a"])) PAYMENT
         "оформить заказ" ctx = (h, cache)
    /\ RuleEngine.evaluate_rules (rule_engine (init MEDIUM)) PAYMENT
         "оформить заказ" ctx = Ok (tr, rr)
    /\ RiskAssessor.assess_risk PAYMENT "оформить заказ" ctx = Ok ra
    /\ (20 <? RiskAssessment.score (combine rr ra))%float = true
    /\ check_action (init MEDIUM) (world0 [Line "a"]) 0 PAYMENT "оформить заказ"
         payment_context = Ok (self', w', (allowed, combine rr ra))
    /\ AuditLogger.total_events (AuditLogger.stats (audit_logger self'))
       = (AuditLogger.total_events
            (AuditLogger.stats (audit_logger (init MEDIUM))) + 1)%Z.
Proof.
  eexists _, _, _, _, _, _.
  destruct (score_above_20_requests_confirmation (init MEDIUM)
              (world0 [Line "a"]) 0 PAYMENT "оформить заказ" payment_context
              _ _ _ _ _ _
              ltac:(computed) ltac:(computed) ltac:(not_confirmed)
              ltac:(computed) ltac:(computed) ltac:(computed))
    as (w1 & allowed & reason & n & self' & w' & _ & _ & Hchk & _ & _ & _
        & Htotal & _).
  exists self', w', allowed.
  split; [computed|]. split; [computed|]. split; [computed|].
  split; [computed|]. split; [computed|]. split; [exact Hchk | exact Htotal].
Defined.

Lemma fused_assessment_witness :
  exists ctx h cache tr rr ra self' w' allowed risk,
    ContextAnalyzer.analyze (pattern_matcher (init LOW)) ANALYZE "" [] = Ok ctx
    /\ Utils.generate_action_hash 0 (hash_cache (world0 [])) ANALYZE "" ctx
       = (h, cache)
    /\ RuleEngine.evaluate_rules (rule_engine (init LOW)) ANALYZE "" ctx
       = Ok (tr, rr)
    /\ RiskAssessor.assess_risk ANALYZE "" ctx = Ok ra
    /\ check_action (init LOW) (world0 []) 0 ANALYZE "" []
       = Ok (self', w', (allowed, risk))
    /\ (RiskAssessment.score rr =? RiskAssessment.score ra)%float = true
    /\ RiskAssessment.level risk = RiskAssessment.level rr.
Proof.
  eexists _, _, _, _, _, _, _, _, _, _.
  split; [computed|]. split; [computed|]. split; [computed|].
  split; [computed|]. split; [computed|]. split; [computed|].
  eapply (fused_assessment (init LOW) (world0 []) 0 ANALYZE "" []);
    [computed | computed | not_confirmed | computed | computed | computed
    | computed].
Defined.

Lemma navigation_score_at_most_25_witness :
  exists self' w' allowed risk,
    check_action (init MEDIUM) (world0 []) 0 NAVIGATE "https://example.com" []
    = Ok (self', w', (allowed, risk))
    /\ (RiskAssessment.score risk <=? 25)%float = true.
Proof.
  eexists _, _, _, _. split; [computed|].
  eapply (navigation_score_at_most_25 (init MEDIUM) (world0 []) 0 NAVIGATE
            "https://example.com" []); [left; reflexivity | computed].
Defined.

(** C4 fails on the code.  A payment is submitted and allowed with the
    answer [y]; a moment later the same kind and target are submitted from
    the same location with another context, and allowed with [a].  The hash
    remembered for this allow-all is the one the cache still held, the digest
    of the first context.  Ten minutes after the first submission the
    submission that was answered [a] is made again, the same in kind, target,
    location and context: the cache entry has expired, the hash is now the
    digest of its own context, which is not the remembered one, and
    [check_action] does not take the short cut: both scorers run, the gate
    asks again, and with the answer [n] the action is blocked. *)
Theorem resubmission_after_allow_all_asked_again :
  let c1 : pydict := [("is_payment_page", VBool true)] in
  let c2 : pydict := [("is_payment_page", VBool true); ("step", VInt 2)] in
  exists ctx1 ctx2 self1 w1 risk1 self2 w2 risk2 self3 w3 risk3,
    ContextAnalyzer.analyze PatternMatcher._load_patterns PAYMENT "оформить заказ" c1
    = Ok ctx1
    /\ ContextAnalyzer.analyze PatternMatcher._load_patterns PAYMENT "оформить заказ" c2
       = Ok ctx2
    /\ check_action (init MEDIUM) (world0 [Line "y"; Line "a"; Line "n"]) 0
         PAYMENT "оформить заказ" c1 = Ok (self1, w1, (true, risk1))
    /\ check_action self1 w1 1 PAYMENT "оформить заказ" c2
       = Ok (self2, w2, (true, risk2))
    /\ elements (confirmed_actions self2)
       = [Utils.fresh_hash PAYMENT "оформить заказ" ctx1]
    /\ Utils.fresh_hash PAYMENT "оформить заказ" ctx2
       <> Utils.fresh_hash PAYMENT "оформить заказ" ctx1
    /\ check_action self2 w2 600000000 PAYMENT "оформить заказ" c2
       = Ok (self3, w3, (false, risk3))
    /\ RiskAssessment.triggered_rules risk3 <> ["previously_confirmed"]
    /\ calls w3
       = calls w2 ++ [CallAnalyze; CallEvaluateRules; CallAssessRisk;
                      CallRequestConfirmation; CallGetInput; CallLogAction false]
    /\ stdin w2 = [Line "n"] /\ stdin w3 = [].
Proof.
  intros c1 c2. eexists _, _, _, _, _, _, _, _, _, _, _.
  split; [computed|]. split; [computed|]. split; [computed|]. split; [computed|].
  split; [computed|]. split; [vm_compute; discriminate|]. split; [computed|].
  split; [vm_compute; discriminate|]. split; [reflexivity|].
  split; reflexivity.
Qed.

(** C5 fails on the code.  The action allowed with answer [a] is submitted
    again: it is allowed on the short cut, and the audit logger is what it
    was, with the one event of the first submission. *)
Theorem memoized_short_circuit_not_logged :
  exists self1 w1 risk1 self2 w2,
    check_action (init MEDIUM) (world0 [Line "a"]) 0 PAYMENT "оформить заказ"
      payment_context = Ok (self1, w1, (true, risk1))
    /\ check_action self1 w1 1 PAYMENT "оформить заказ" payment_context
       = Ok (self2, w2, (true, previously_confirmed))
    /\ audit_logger self2 = audit_logger self1
    /\ AuditLogger.total_events (AuditLogger.stats (audit_logger self2)) = 1%Z
    /\ List.length (AuditLogger.events (audit_logger self2)) = 1%nat
    /\ calls w2 = calls w1 ++ [CallAnalyze].
Proof.
  eexists _, _, _, _, _. split; [computed|]. split; [computed|].
  repeat split; reflexivity.
Qed.

(** C6 fails on the code.  Two calls within ten minutes, with the same kind,
    target and location and different contexts: the second returns the hash
    of the first, not the digest of its own context. *)
Theorem action_hash_ignores_context_when_cached :
  let c1 : pydict := [("a", VInt 1)] in
  let c2 : pydict := [("a", VInt 2)] in
  let '(h1, cache1) := Utils.generate_action_hash 0 ∅ CLICK "x" c1 in
  let '(h2, _) := Utils.generate_action_hash 1 cache1 CLICK "x" c2 in
  h1 = Utils.fresh_hash CLICK "x" c1
  /\ h2 = h1
  /\ h2 <> Utils.fresh_hash CLICK "x" c2.
Proof.
  vm_compute. split; [reflexivity|]. split; [reflexivity|]. discriminate.
Qed.

(** C8 fails on the code for the capacity 0: the slice [events[-0:]] is the
    whole list, so the store of a logger of capacity 0 holds the event just
    logged. *)
Theorem capacity_zero_store_grows (e : SecurityEvent.t) :
  let a := AuditLogger.log_event (AuditLogger.init 0) e in
  AuditLogger.max_events a = 0%Z /\ AuditLogger.events a = [e].
Proof. split; reflexivity. Qed.

(** A rule whose pattern has an unclosed parenthesis. *)
Definition bad_rule : SecurityRule.t :=
  SecurityRule.Build "bad" "(" None "medium" "" true true None 1%float.

(** C9 fails on the code.  With one rule of malformed pattern added,
    [evaluate_rules] raises [re.error], and so does [check_action]; without
    it the same calls return. *)
Theorem malformed_pattern_aborts_evaluation :
  let rules := RuleEngine.add_rule RuleEngine._load_default_rules bad_rule in
  let layer :=
    Build LOW PatternMatcher._load_patterns rules (AuditLogger.init 1000) ∅ [] ∅ [] in
  RuleEngine.evaluate_rules rules CLICK "x" [] = Raise ReError
  /\ check_action layer (world0 []) 0 CLICK "x" [] = Raise ReError
  /\ (exists tr rr,
        RuleEngine.evaluate_rules RuleEngine._load_default_rules CLICK "x" []
        = Ok (tr, rr)).
Proof.
  split; [computed|]. split; [computed|]. eexists _, _. computed.
Qed.

(** C10, as stated, fails.  For the typing of ["mypassword123"] on a login
    page, neither the context nor the pattern analysis inside it flags a
    password, and the rule [password_input] is not triggered. *)
Lemma scenario_password_input_not_triggered :
  exists ctx pa tr rr,
    ContextAnalyzer.analyze PatternMatcher._load_patterns TYPE_PASSWORD
      "mypassword123" login_context = Ok ctx
    /\ PyDict.flag ctx "contains_passwords" = false
    /\ PatternMatcher.extract_sensitive_data PatternMatcher._load_patterns
         "mypassword123" = Ok pa
    /\ PyDict.get pa "context"
       = Some (VDict [ ("contains_passwords", VBool false);
                       ("contains_financial", VBool false);
                       ("contains_contact_info", VBool false);
                       ("contains_personal_data", VBool false);
                       ("contains_dangerous", VBool false);
                       ("confidence", VFloat 0) ])
    /\ RuleEngine.evaluate_rules RuleEngine._load_default_rules TYPE_PASSWORD
         "mypassword123" ctx = Ok (tr, rr)
    /\ ~ In "password_input" (RiskAssessment.triggered_rules rr).
Proof.
  eexists _, _, _, _.
  split; [computed|]. split; [computed|]. split; [computed|].
  split; [computed|]. split; [computed|].
  cbn. intros [H|[]]. discriminate.
Qed.

(** C10, as the code has it.  For the typing of ["mypassword123"] on a login
    page, under every security level and whatever the input: the pattern
    matcher finds no pattern, the rule engine triggers the rule
    [context_login_flow_password] alone, the combined assessment has score 100
    and level [critical], and the gate is asked before the outcome is logged. *)
Theorem scenario_password_on_login_page (lvl : SecurityLevel) (lines : list inp) :
  exists ctx tr rr ra,
    ContextAnalyzer.analyze PatternMatcher._load_patterns TYPE_PASSWORD
      "mypassword123" login_context = Ok ctx
    /\ PyDict.get ctx "detected_patterns" = Some (VDict [])
    /\ RuleEngine.evaluate_rules RuleEngine._load_default_rules TYPE_PASSWORD
         "mypassword123" ctx = Ok (tr, rr)
    /\ RiskAssessment.triggered_rules rr = ["context_login_flow_password"]
    /\ RiskAssessor.assess_risk TYPE_PASSWORD "mypassword123" ctx = Ok ra
    /\ RiskAssessment.score (combine rr ra) = 100%float
    /\ RiskAssessment.level (combine rr ra) = "critical"
    /\ exists self' w' allowed n,
         check_action (init lvl) (world0 lines) 0 TYPE_PASSWORD "mypassword123"
           login_context = Ok (self', w', (allowed, combine rr ra))
         /\ calls w'
            = [CallAnalyze; CallEvaluateRules; CallAssessRisk;
               CallRequestConfirmation] ++ repeat CallGetInput n
              ++ [CallLogAction allowed].
Proof.
  eexists _, _, _, _.
  split; [computed|]. split; [computed|]. split; [computed|].
  split; [computed|]. split; [computed|]. split; [computed|].
  split; [computed|].
  edestruct (threshold_branch (init lvl) (world0 lines) 0 TYPE_PASSWORD
               "mypassword123" login_context)
    as (w1 & allowed & reason & n & self' & w' & _ & Hc1 & Hchk & _ & _ & Hc2);
    [destruct lvl; computed | computed | destruct lvl; not_confirmed
    | destruct lvl; computed | computed | computed |].
  exists self', w', allowed, n. split; [exact Hchk|].
  rewrite Hc2, Hc1. destruct lvl; cbn; rewrite <- ?List.app_assoc; reflexivity.
Qed.

End Scenarios.

(* ===================================================================== *)
(** * Further properties of the code *)
(* ===================================================================== *)

(** ** More on the order of binary64 numbers *)

Module FloatFacts.

Lemma not_above_20_30 x : (20 <? x)%float = false -> (30 <=? x)%float = false.
Proof. FloatOrder.float_order. Qed.

Lemma not_above_20_60 x : (20 <? x)%float = false -> (60 <=? x)%float = false.
Proof. FloatOrder.float_order. Qed.

Lemma not_above_20_80 x : (20 <? x)%float = false -> (80 <=? x)%float = false.
Proof. FloatOrder.float_order. Qed.

(** Two numbers neither of which is below the other are on the same side of
    20, when the first is a number. *)
Lemma tie_not_above_20 x y :
  (x <? y)%float = false -> (y <? x)%float = false -> (x =? x)%float = true ->
  (20 <? x)%float = false -> (20 <? y)%float = false.
Proof. FloatOrder.float_order. Qed.

(** The built-in [min] with a cap never returns more than the cap. *)
Lemma pymin_cap x c : (c <? PyFloat.pymin x c)%float = false.
Proof.
  unfold PyFloat.pymin. destruct (c <? x)%float eqn:E; [|exact E].
  apply FloatOrder.ltb_irrefl.
Qed.

Lemma level_of_low x : (20 <? x)%float = false -> RuleEngine.level_of x = "low".
Proof.
  intros H. unfold RuleEngine.level_of.
  rewrite (not_above_20_80 x H), (not_above_20_60 x H), (not_above_20_30 x H).
  reflexivity.
Qed.

End FloatFacts.

(* ===================================================================== *)
(** ** The audit store for a capacity of at least one, and its counters *)
(* ===================================================================== *)

Section AuditStore.
Import AuditLogger AuditLoggerProps.
#[local] Open Scope Z_scope.
#[local] Open Scope list_scope.

Lemma inv_init cap : inv (init cap) [].
Proof. split; reflexivity. Qed.

(** The store after [evs]: what was logged last. *)
Lemma events_log_all (cap : Z) (evs : list SecurityEvent.t) :
  1 <= cap ->
  events (log_all (init cap) evs) = skipn (List.length evs - Z.to_nat cap) evs
  /\ max_events (log_all (init cap) evs) = cap.
Proof.
  intros Hcap.
  destruct (inv_log_all evs (init cap) [] Hcap (inv_init cap)) as [[Hev _] Hmax].
  rewrite List.app_nil_l in Hev. rewrite Hmax in Hev.
  change (max_events (init cap)) with cap in *.
  split; [exact Hev | exact Hmax].
Qed.

(** X1.  A logger of capacity at least one that has logged the events [evs]
    holds the last [max_events] of them, in their order, and so never more
    than its capacity; the capacity itself is not changed by logging. *)
Theorem audit_store_keeps_latest (cap : Z) (evs : list SecurityEvent.t) :
  1 <= cap ->
  events (log_all (init cap) evs) = skipn (List.length evs - Z.to_nat cap) evs
  /\ (List.length (events (log_all (init cap) evs)) <= Z.to_nat cap)%nat
  /\ max_events (log_all (init cap) evs) = cap.
Proof.
  intros Hcap.
  destruct (events_log_all cap evs Hcap) as [Hev Hmax].
  split; [exact Hev|]. split; [|exact Hmax].
  rewrite Hev, List.length_skipn. lia.
Qed.

(** An event of the given level and outcome, for the examples. *)
Definition sample_event (level : string) (confirmed : bool) : SecurityEvent.t :=
  SecurityEvent.Build (VInt 0) CLICK "x"
    (RiskAssessment.Build 0 level [] [] (VFloat 0.5)) [] confirmed None
    (VFloat 0.5).

Lemma audit_store_keeps_latest_witness :
  let evs := [sample_event "low" true; sample_event "high" false;
              sample_event "critical" true] in
  1 <= 2
  /\ events (log_all (init 2) evs) = skipn (List.length evs - Z.to_nat 2) evs
  /\ (List.length (events (log_all (init 2) evs)) <= Z.to_nat 2)%nat
  /\ max_events (log_all (init 2) evs) = 2.
Proof.
  intros evs. split; [lia|]. apply (audit_store_keeps_latest 2 evs). lia.
Defined.

Lemma stats_log_all evs : forall self hist,
  stats self = stats_of hist -> stats (log_all self evs) = stats_of (hist ++ evs).
Proof.
  induction evs as [|e evs IH]; intros self hist H; simpl.
  - rewrite List.app_nil_r. exact H.
  - rewrite (IH (log_event self e) (hist ++ [e])).
    + rewrite <- List.app_assoc. reflexivity.
    + rewrite stats_log_event. apply (stats_step (stats self) hist e H).
Qed.

Lemma count_cons p e evs :
  count p (e :: evs) = (if p e then 1 else 0) + count p evs.
Proof.
  unfold count. cbn [List.filter]. destruct (p e); cbn [List.length];
    rewrite ?Nat2Z.inj_succ; lia.
Qed.

Lemma count_split p evs :
  count p evs + count (fun e => negb (p e)) evs = Z.of_nat (List.length evs).
Proof.
  induction evs as [|e evs IH]; [reflexivity|].
  rewrite !count_cons. cbn [List.length]. rewrite Nat2Z.inj_succ.
  destruct (p e); cbn [negb]; lia.
Qed.

(** Every event falls under one of the four levels, and only one. *)
Lemma level_once e :
  (if has_level "critical" e then 1 else 0) + (if has_level "high" e then 1 else 0)
  + (if has_level "medium" e then 1 else 0) + (if other_level e then 1 else 0) = 1.
Proof.
  unfold other_level, has_level.
  set (lvl := RiskAssessment.level (SecurityEvent.risk_assessment e)).
  destruct (String.eqb_spec lvl "critical") as [->|E1]; [reflexivity|].
  destruct (String.eqb_spec lvl "high") as [->|E2]; [reflexivity|].
  destruct (String.eqb_spec lvl "medium") as [->|E3]; reflexivity.
Qed.

Lemma count_levels evs :
  count (has_level "critical") evs + count (has_level "high") evs
  + count (has_level "medium") evs + count other_level evs
  = Z.of_nat (List.length evs).
Proof.
  induction evs as [|e evs IH]; [reflexivity|].
  rewrite !count_cons. cbn [List.length]. rewrite Nat2Z.inj_succ.
  pose proof (level_once e). lia.
Qed.

(** The counters after [evs] are those of the whole of [evs]. *)
Lemma stats_of_log_all (cap : Z) (evs : list SecurityEvent.t) :
  stats (log_all (init cap) evs) = stats_of evs.
Proof.
  rewrite (stats_log_all evs (init cap) [] eq_refl). rewrite List.app_nil_l.
  reflexivity.
Qed.

(** X2.  Whatever the capacity, the counters of a logger that has logged the
    events [evs] count all of them, evicted or not: the total is their
    number, every event is counted once as confirmed or as blocked, and once
    under one of the four levels. *)
Theorem audit_counters_cover_history (cap : Z) (evs : list SecurityEvent.t) :
  let s := stats (log_all (init cap) evs) in
  total_events s = Z.of_nat (List.length evs)
  /\ confirmed_actions s = count SecurityEvent.confirmed evs
  /\ blocked_actions s = count (fun e => negb (SecurityEvent.confirmed e)) evs
  /\ critical_events s = count (has_level "critical") evs
  /\ high_events s = count (has_level "high") evs
  /\ medium_events s = count (has_level "medium") evs
  /\ confirmed_actions s + blocked_actions s = total_events s
  /\ critical_events s + high_events s + medium_events s + low_events s
     = total_events s.
Proof.
  intros s. subst s.
  rewrite stats_of_log_all.
  unfold stats_of.
  cbn [total_events confirmed_actions blocked_actions critical_events
       high_events medium_events low_events].
  repeat (split; [reflexivity|]). split.
  - apply count_split.
  - apply count_levels.
Qed.

End AuditStore.

(* ===================================================================== *)
(** ** The confirmation gate answers yes only when told so *)
(* ===================================================================== *)

Section Gate.
Import PyStr ConfirmationRequester.
#[local] Open Scope list_scope.

(** A line that is none of the four answers: the gate asks again. *)
Definition asks_again (response_raw : string) : Prop :=
  let response := strip (lower response_raw) in
  response <> "y" /\ response <> "a" /\ response <> "n" /\ response <> "q".

Lemma _get_user_decision_allowed : forall inputs reason n rest,
  _get_user_decision inputs = ((true, reason), n, rest) ->
  exists skipped response_raw,
    inputs = map Line skipped ++ Line response_raw :: rest
    /\ n = S (List.length skipped)
    /\ (strip (lower response_raw) = "y" /\ reason = "approved"
        \/ strip (lower response_raw) = "a" /\ reason = "approved_all")
    /\ Forall asks_again skipped.
Proof.
  induction inputs as [|i inputs IH]; intros reason n rest H;
    cbn [_get_user_decision] in H; [discriminate|].
  destruct i as [s| |]; try discriminate.
  destruct (String.eqb (strip (lower s)) "y") eqn:Ey.
  { injection H as <- <- <-. apply String.eqb_eq in Ey.
    exists [], s. repeat split; auto. }
  destruct (String.eqb (strip (lower s)) "a") eqn:Ea.
  { injection H as <- <- <-. apply String.eqb_eq in Ea.
    exists [], s. repeat split; auto. }
  destruct (String.eqb (strip (lower s)) "n") eqn:En; [discriminate|].
  destruct (String.eqb (strip (lower s)) "q") eqn:Eq; [discriminate|].
  destruct (_get_user_decision inputs) as [[d n'] rest'] eqn:E.
  injection H as -> <- <-.
  destruct (IH _ _ _ eq_refl) as (skipped & r & -> & -> & Hr & Hs).
  exists (s :: skipped), r. repeat split; auto.
  constructor; [|exact Hs].
  apply String.eqb_neq in Ey, Ea, En, Eq. repeat split; assumption.
Qed.

(** A yes for a hash that is not set for automatic confirmation was typed. *)
Lemma request_confirmation_typed self now w a target risk ctx tr w' reason :
  request_confirmation self now w a target risk ctx tr = Ok (w', (true, reason)) ->
  fst (Utils.generate_action_hash now (hash_cache w) a target ctx) ∉ self ->
  exists skipped response_raw,
    stdin w = map Line skipped ++ Line response_raw :: stdin w'
    /\ (strip (lower response_raw) = "y" /\ reason = "approved"
        \/ strip (lower response_raw) = "a" /\ reason = "approved_all")
    /\ Forall asks_again skipped.
Proof.
  unfold request_confirmation. cbn [record_call hash_cache stdin calls].
  destruct (Utils.generate_action_hash now (hash_cache w) a target ctx)
    as [h cache]. cbn [fst].
  intros H Hout. rewrite bool_decide_eq_false_2 in H by exact Hout. revert H.
  destruct (ScorerProps.mask_sensitive_data_ok target) as [m ->].
  unfold mbind, res_bind.
  destruct (_get_user_decision (stdin w)) as [[[allowed r] n] rest] eqn:E.
  intros [= <- -> ->]. cbn [stdin].
  destruct (_get_user_decision_allowed _ _ _ _ E) as (sk & resp & H1 & _ & H2 & H3).
  exists sk, resp. auto.
Qed.

(** X3.  The gate fails closed.  When [request_confirmation] answers yes,
    either the action hash was among the hashes set for automatic
    confirmation and no input was read, or the input held a line that, in
    lower case and stripped, is [y] or [a], after lines that were none of
    the four answers; the end of the input, an interrupt and a failing input
    never give a yes. *)
Theorem gate_allows_only_on_approval self now w a target risk ctx tr w' reason :
  request_confirmation self now w a target risk ctx tr = Ok (w', (true, reason)) ->
  (reason = "previously_confirmed"
   /\ fst (Utils.generate_action_hash now (hash_cache w) a target ctx) ∈ self
   /\ stdin w' = stdin w)
  \/ (exists skipped response_raw,
        stdin w = map Line skipped ++ Line response_raw :: stdin w'
        /\ (strip (lower response_raw) = "y" /\ reason = "approved"
            \/ strip (lower response_raw) = "a" /\ reason = "approved_all")
        /\ Forall asks_again skipped).
Proof.
  intros H.
  destruct (decide (fst (Utils.generate_action_hash now (hash_cache w) a target ctx)
                    ∈ self)) as [Hin|Hout].
  - left. revert H Hin.
    unfold request_confirmation. cbn [record_call hash_cache stdin calls].
    destruct (Utils.generate_action_hash now (hash_cache w) a target ctx)
      as [h cache]. cbn [fst].
    intros H Hin. rewrite bool_decide_eq_true_2 in H by exact Hin.
    injection H as <- <-. auto.
  - right. exact (request_confirmation_typed _ _ _ _ _ _ _ _ _ _ H Hout).
Qed.

Lemma gate_allows_only_on_approval_witness :
  let w := world0 [Line "maybe"; Line " Y "; Line "n"] in
  exists w',
    request_confirmation ∅ 0 w CLICK "x" SecurityLayer.previously_confirmed [] []
    = Ok (w', (true, "approved"))
    /\ ("approved" = "previously_confirmed"
        /\ fst (Utils.generate_action_hash 0 (hash_cache w) CLICK "x" []) ∈ (∅ : t)
        /\ stdin w' = stdin w
        \/ (exists skipped response_raw,
              stdin w = map Line skipped ++ Line response_raw :: stdin w'
              /\ (strip (lower response_raw) = "y" /\ "approved" = "approved"
                  \/ strip (lower response_raw) = "a" /\ "approved" = "approved_all")
              /\ Forall asks_again skipped)).
Proof.
  intros w. eexists. split; [computed|].
  apply (gate_allows_only_on_approval ∅ 0 w CLICK "x"
           SecurityLayer.previously_confirmed [] []).
  computed.
Defined.

End Gate.

(* ===================================================================== *)
(** ** What [check_action] changes, and what it leaves alone *)
(* ===================================================================== *)

Section Orchestrator.
Import PyStr SecurityLayer SecurityLayerProps.
#[local] Open Scope list_scope.

(** The parts of the layer that no decision touches. *)
Definition same_setup (s s' : t) : Prop :=
  security_level s' = security_level s
  /\ pattern_matcher s' = pattern_matcher s
  /\ rule_engine s' = rule_engine s
  /\ confirmation_requester s' = confirmation_requester s
  /\ confirmation_callbacks s' = confirmation_callbacks s
  /\ action_history s' = action_history s.

Lemma confirm_and_notify_inv s w now a t risk ctx tr h s' w' al r :
  confirm_and_notify s w now a t risk ctx tr h = Ok (s', w', (al, r)) ->
  exists w1 reason,
    ConfirmationRequester.request_confirmation (confirmation_requester s) now w
      a t risk ctx tr = Ok (w1, (al, reason))
    /\ r = risk
    /\ same_setup s s'
    /\ audit_logger s' = AuditLogger.log_action (audit_logger s) now a t risk al ctx
    /\ confirmed_actions s'
       = (if al && String.eqb reason "approved_all"
          then {[h]} ∪ confirmed_actions s else confirmed_actions s)
    /\ stdin w' = stdin w1.
Proof.
  unfold confirm_and_notify.
  destruct (ConfirmationRequester.request_confirmation _ _ _ _ _ _ _ _)
    as [[w1 [al' reason]]|e]; [|discriminate].
  unfold mbind, res_bind. cbn [log].
  intros H. injection H as <- <- <- <-.
  exists w1, reason. split; [reflexivity|]. split; [reflexivity|].
  rewrite (proj2 (notify_world _ _ _)).
  destruct (al' && String.eqb reason "approved_all"); repeat split.
Qed.

Lemma confirm_only_inv s w now a t risk ctx tr s' w' al r :
  confirm_only s w now a t risk ctx tr = Ok (s', w', (al, r)) ->
  r = risk
  /\ same_setup s s'
  /\ audit_logger s' = AuditLogger.log_action (audit_logger s) now a t risk al ctx
  /\ confirmed_actions s' = confirmed_actions s.
Proof.
  unfold confirm_only.
  destruct (ConfirmationRequester.request_confirmation _ _ _ _ _ _ _ _)
    as [[w1 [al' reason]]|e]; [|discriminate].
  unfold mbind, res_bind. cbn [log].
  intros H. injection H as <- <- <- <-. repeat split.
Qed.

(** Every way [decide_action] returns: the assessment is the one decided on,
    the outcome is logged with it, the set-up is untouched, and the only hash
    that may join the confirmed ones is the action's. *)
Lemma decide_action_inv s w now a t risk ctx tr h s' w' al r :
  decide_action s w now a t risk ctx tr h = Ok (s', w', (al, r)) ->
  r = risk
  /\ same_setup s s'
  /\ audit_logger s' = AuditLogger.log_action (audit_logger s) now a t risk al ctx
  /\ (confirmed_actions s' = confirmed_actions s
      \/ confirmed_actions s' = {[h]} ∪ confirmed_actions s)
  /\ ((20 <? RiskAssessment.score risk)%float = true ->
      exists w1 reason,
        ConfirmationRequester.request_confirmation (confirmation_requester s)
          now w a t risk ctx tr = Ok (w1, (al, reason))
        /\ stdin w' = stdin w1).
Proof.
  unfold decide_action.
  assert (Hconfirm :
    confirm_and_notify s w now a t risk ctx tr h = Ok (s', w', (al, r)) ->
    r = risk /\ same_setup s s'
    /\ audit_logger s' = AuditLogger.log_action (audit_logger s) now a t risk al ctx
    /\ (confirmed_actions s' = confirmed_actions s
        \/ confirmed_actions s' = {[h]} ∪ confirmed_actions s)
    /\ exists w1 reason,
        ConfirmationRequester.request_confirmation (confirmation_requester s)
          now w a t risk ctx tr = Ok (w1, (al, reason))
        /\ stdin w' = stdin w1).
  { intros H.
    destruct (confirm_and_notify_inv _ _ _ _ _ _ _ _ _ _ _ _ _ H)
      as (w1 & reason & Hreq & -> & Hs & Ha & Hc & Hin).
    split; [reflexivity|]. split; [exact Hs|]. split; [exact Ha|]. split.
    - rewrite Hc. destruct (al && String.eqb reason "approved_all"); auto.
    - exists w1, reason. auto. }
  assert (Hlog : forall b,
    (let '(s0, w0) := log s w now a t risk b ctx in Ok (s0, w0, (b, risk)))
    = Ok (s', w', (al, r)) ->
    r = risk /\ same_setup s s'
    /\ audit_logger s' = AuditLogger.log_action (audit_logger s) now a t risk al ctx
    /\ (confirmed_actions s' = confirmed_actions s
        \/ confirmed_actions s' = {[h]} ∪ confirmed_actions s)).
  { intros b. cbn [log]. intros H. injection H as <- <- <- <-.
    repeat split. left. reflexivity. }
  destruct (20 <? RiskAssessment.score risk)%float.
  { intros H. destruct (Hconfirm H) as (H1 & H2 & H3 & H4 & H5).
    split; [exact H1|]. split; [exact H2|]. split; [exact H3|].
    split; [exact H4|]. intros _. exact H5. }
  assert (Hfour :
    r = risk /\ same_setup s s'
    /\ audit_logger s' = AuditLogger.log_action (audit_logger s) now a t risk al ctx
    /\ (confirmed_actions s' = confirmed_actions s
        \/ confirmed_actions s' = {[h]} ∪ confirmed_actions s) ->
    r = risk /\ same_setup s s'
    /\ audit_logger s' = AuditLogger.log_action (audit_logger s) now a t risk al ctx
    /\ (confirmed_actions s' = confirmed_actions s
        \/ confirmed_actions s' = {[h]} ∪ confirmed_actions s)
    /\ (false = true ->
        exists w1 reason,
          ConfirmationRequester.request_confirmation (confirmation_requester s)
            now w a t risk ctx tr = Ok (w1, (al, reason))
          /\ stdin w' = stdin w1)).
  { intros (H1 & H2 & H3 & H4).
    split; [exact H1|]. split; [exact H2|]. split; [exact H3|].
    split; [exact H4|]. discriminate. }
  destruct (security_level s).
  - intros H. apply Hfour, (Hlog _ H).
  - destruct (_ && _).
    + intros H. apply Hfour.
      destruct (Hconfirm H) as (H1 & H2 & H3 & H4 & _). auto.
    + intros H. apply Hfour, (Hlog _ H).
  - destruct (is_high_or_critical _).
    + intros H. apply Hfour, (Hlog _ H).
    + destruct (String.eqb _ _).
      * intros H. apply Hfour.
        destruct (confirm_only_inv _ _ _ _ _ _ _ _ _ _ _ _ H)
          as (H1 & H2 & H3 & H4). auto.
      * intros H. apply Hfour, (Hlog _ H).
Qed.

(** Every way [check_action] returns, with the state it leaves. *)
Lemma check_action_cases self w now a target c0 self' w' allowed risk :
  check_action self w now a target c0 = Ok (self', w', (allowed, risk)) ->
  exists ctx h cache,
    ContextAnalyzer.analyze (pattern_matcher self) a target c0 = Ok ctx
    /\ Utils.generate_action_hash now (hash_cache w) a target ctx = (h, cache)
    /\ ((h ∈ confirmed_actions self
         /\ self' = with_history self now a target c0
         /\ w' = World cache (stdin w) (calls w ++ [CallAnalyze])
         /\ allowed = true /\ risk = previously_confirmed)
        \/ ((h ∉ confirmed_actions self)
            /\ exists tr rr ra,
                RuleEngine.evaluate_rules (rule_engine self) a target ctx = Ok (tr, rr)
                /\ RiskAssessor.assess_risk a target ctx = Ok ra
                /\ decide_action (with_history self now a target c0)
                     (before_decision w cache) now a target (combine rr ra) ctx tr h
                   = Ok (self', w', (allowed, risk)))).
Proof.
  intros H.
  destruct (ContextAnalyzer.analyze (pattern_matcher self) a target c0)
    as [ctx|e] eqn:Hctx.
  2:{ unfold check_action in H. cbn [pattern_matcher _add_to_history set_history] in H.
      rewrite Hctx in H. discriminate. }
  destruct (Utils.generate_action_hash now (hash_cache w) a target ctx)
    as [h cache] eqn:Hh.
  exists ctx, h, cache. split; [reflexivity|]. split; [exact Hh|].
  destruct (decide (h ∈ confirmed_actions self)) as [Hin|Hin].
  - rewrite (check_action_memoized _ _ _ _ _ _ _ _ _ Hctx Hh Hin) in H.
    injection H as <- <- <- <-. left. auto.
  - right. split; [exact Hin|].
    assert (Hstep : check_action self w now a target c0
      = '(tr, rr) ← RuleEngine.evaluate_rules (rule_engine self) a target ctx;
        ra ← RiskAssessor.assess_risk a target ctx;
        decide_action (with_history self now a target c0) (before_decision w cache)
          now a target (combine rr ra) ctx tr h).
    { destruct (RuleEngine.evaluate_rules (rule_engine self) a target ctx)
        as [[tr rr]|e] eqn:Hrr.
      - destruct (RiskAssessor.assess_risk a target ctx) as [ra|e] eqn:Hra.
        + apply (check_action_decides _ _ _ _ _ _ _ _ _ _ _ _ Hctx Hh Hin Hrr Hra).
        + unfold check_action.
          cbn [pattern_matcher rule_engine _add_to_history set_history].
          rewrite Hctx. unfold mbind, res_bind. cbn [hash_cache record_call].
          rewrite Hh. cbn [confirmed_actions].
          rewrite bool_decide_eq_false_2 by exact Hin.
          cbn [stdin calls]. rewrite Hrr, Hra. reflexivity.
      - unfold check_action.
        cbn [pattern_matcher rule_engine _add_to_history set_history].
        rewrite Hctx. unfold mbind, res_bind. cbn [hash_cache record_call].
        rewrite Hh. cbn [confirmed_actions].
        rewrite bool_decide_eq_false_2 by exact Hin.
        cbn [stdin calls]. rewrite Hrr. reflexivity. }
    rewrite Hstep in H. unfold mbind, res_bind in H.
    destruct (RuleEngine.evaluate_rules (rule_engine self) a target ctx)
      as [[tr rr]|e]; [|discriminate].
    destruct (RiskAssessor.assess_risk a target ctx) as [ra|e]; [|discriminate].
    exists tr, rr, ra. auto.
Qed.

(** Every way [decide_action] allows: the gate said yes, or the score is not
    above 20 and nothing was read from the input. *)
Lemma decide_action_allowed s w now a t risk ctx tr h s' w' r :
  decide_action s w now a t risk ctx tr h = Ok (s', w', (true, r)) ->
  (exists w1 reason,
     ConfirmationRequester.request_confirmation (confirmation_requester s) now w
       a t risk ctx tr = Ok (w1, (true, reason))
     /\ stdin w' = stdin w1)
  \/ ((20 <? RiskAssessment.score risk)%float = false /\ stdin w' = stdin w).
Proof.
  unfold decide_action.
  assert (Hconfirm :
    confirm_and_notify s w now a t risk ctx tr h = Ok (s', w', (true, r)) ->
    exists w1 reason,
      ConfirmationRequester.request_confirmation (confirmation_requester s) now w
        a t risk ctx tr = Ok (w1, (true, reason))
      /\ stdin w' = stdin w1).
  { intros H.
    destruct (confirm_and_notify_inv _ _ _ _ _ _ _ _ _ _ _ _ _ H)
      as (w1 & reason & Hreq & _ & _ & _ & _ & Hin).
    exists w1, reason. auto. }
  assert (Honly :
    confirm_only s w now a t risk ctx tr = Ok (s', w', (true, r)) ->
    exists w1 reason,
      ConfirmationRequester.request_confirmation (confirmation_requester s) now w
        a t risk ctx tr = Ok (w1, (true, reason))
      /\ stdin w' = stdin w1).
  { unfold confirm_only.
    destruct (ConfirmationRequester.request_confirmation _ _ _ _ _ _ _ _)
      as [[w1 [al' reason]]|e]; [|discriminate].
    unfold mbind, res_bind. cbn [log].
    intros H. injection H as _ <- -> _. exists w1, reason. auto. }
  assert (Hlog : forall b,
    (let '(s0, w0) := log s w now a t risk b ctx in Ok (s0, w0, (b, risk)))
    = Ok (s', w', (true, r)) -> stdin w' = stdin w).
  { intros b. cbn [log]. intros H. injection H as _ <- _ _. reflexivity. }
  destruct (20 <? RiskAssessment.score risk)%float.
  { intros H. left. exact (Hconfirm H). }
  destruct (security_level s).
  - intros H. right. split; [reflexivity | exact (Hlog _ H)].
  - destruct (_ && _).
    + intros H. left. exact (Hconfirm H).
    + intros H. right. split; [reflexivity | exact (Hlog _ H)].
  - destruct (is_high_or_critical _).
    + intros H. right. split; [reflexivity | exact (Hlog _ H)].
    + destruct (String.eqb _ _).
      * intros H. left. exact (Honly H).
      * intros H. right. split; [reflexivity | exact (Hlog _ H)].
Qed.

(** X4.  Why an action is allowed.  In a layer whose gate has no hash set
    for automatic confirmation (as in every layer that [SecurityLayer(...)]
    builds), [check_action] allows an action in three ways only.  The hash
    it computed for the action is among the confirmed ones: the action is
    not scored, what is returned is the assessment [previously_confirmed]
    of score 0, and no input is read.  Or the input held a line that, in
    lower case and stripped, is [y] or [a], after lines that are none of
    the four answers.  Or the assessment returned is the combination of the
    two scorers' assessments of this action in its context, its score is not
    above 20, and no input is read.  So an action allowed with a returned
    score above 20 was approved at the prompt in that very call; what the
    first way lets through is not measured by the score returned. *)
Theorem allowed_action_has_a_cause self w now a target c0 self' w' risk :
  confirmation_requester self = ∅ ->
  check_action self w now a target c0 = Ok (self', w', (true, risk)) ->
  (risk = previously_confirmed
   /\ stdin w' = stdin w
   /\ exists ctx,
        ContextAnalyzer.analyze (pattern_matcher self) a target c0 = Ok ctx
        /\ fst (Utils.generate_action_hash now (hash_cache w) a target ctx)
           ∈ confirmed_actions self)
  \/ (exists skipped response_raw,
        stdin w = map Line skipped ++ Line response_raw :: stdin w'
        /\ (strip (lower response_raw) = "y" \/ strip (lower response_raw) = "a")
        /\ Forall asks_again skipped)
  \/ ((20 <? RiskAssessment.score risk)%float = false
      /\ stdin w' = stdin w
      /\ exists ctx tr rr ra,
           ContextAnalyzer.analyze (pattern_matcher self) a target c0 = Ok ctx
           /\ RuleEngine.evaluate_rules (rule_engine self) a target ctx
              = Ok (tr, rr)
           /\ RiskAssessor.assess_risk a target ctx = Ok ra
           /\ risk = combine rr ra).
Proof.
  intros Hgate Hchk.
  destruct (check_action_cases _ _ _ _ _ _ _ _ _ _ Hchk)
    as (ctx & h & cache & Hctx & Hh
        & [(Hin & _ & -> & _ & ->) | (_ & tr & rr & ra & Hrr & Hra & Hdec)]).
  { left. split; [reflexivity|]. split; [reflexivity|].
    exists ctx. split; [exact Hctx|]. rewrite Hh. exact Hin. }
  right.
  pose proof (decide_action_risk _ _ _ _ _ _ _ _ _ _ _ _ _ Hdec) as Hrisk.
  destruct (decide_action_allowed _ _ _ _ _ _ _ _ _ _ _ _ Hdec)
    as [(w1 & reason & Hreq & Hin) | (Hlow & Hin)].
  - left.
    change (confirmation_requester (with_history self now a target c0))
      with (confirmation_requester self) in Hreq.
    rewrite Hgate in Hreq.
    destruct (request_confirmation_typed _ _ _ _ _ _ _ _ _ _ Hreq
                (not_elem_of_empty _))
      as (skipped & r & H1 & H2 & H3).
    exists skipped, r. rewrite Hin. split; [exact H1|]. split; [|exact H3].
    destruct H2 as [[H2 _] | [H2 _]]; auto.
  - right. subst risk. split; [exact Hlow|]. split; [rewrite Hin; reflexivity|].
    exists ctx, tr, rr, ra. auto.
Qed.

Lemma allowed_action_has_a_cause_witness :
  let w := world0 [Line "d"; Line " Y "] in
  exists self' w' risk,
    confirmation_requester (init MEDIUM) = ∅
    /\ check_action (init MEDIUM) w 0 PAYMENT "x" payment_context
       = Ok (self', w', (true, risk))
    /\ (20 <? RiskAssessment.score risk)%float = true
    /\ ((risk = previously_confirmed
         /\ stdin w' = stdin w
         /\ exists ctx,
              ContextAnalyzer.analyze (pattern_matcher (init MEDIUM)) PAYMENT "x"
                payment_context = Ok ctx
              /\ fst (Utils.generate_action_hash 0 (hash_cache w) PAYMENT "x" ctx)
                 ∈ confirmed_actions (init MEDIUM))
        \/ (exists skipped response_raw,
              stdin w = map Line skipped ++ Line response_raw :: stdin w'
              /\ (strip (lower response_raw) = "y"
                  \/ strip (lower response_raw) = "a")
              /\ Forall asks_again skipped)
        \/ ((20 <? RiskAssessment.score risk)%float = false
            /\ stdin w' = stdin w
            /\ exists ctx tr rr ra,
                 ContextAnalyzer.analyze (pattern_matcher (init MEDIUM)) PAYMENT
                   "x" payment_context = Ok ctx
                 /\ RuleEngine.evaluate_rules (rule_engine (init MEDIUM)) PAYMENT
                      "x" ctx = Ok (tr, rr)
                 /\ RiskAssessor.assess_risk PAYMENT "x" ctx = Ok ra
                 /\ risk = combine rr ra)).
Proof.
  intros w. eexists _, _, _.
  split; [reflexivity|]. split; [computed|]. split; [reflexivity|].
  eapply (allowed_action_has_a_cause (init MEDIUM) w 0 PAYMENT "x" payment_context);
    [reflexivity | computed].
Defined.

(** X5.  [check_action] leaves the set-up of the layer as it was: the
    security level, the patterns, the rules, the gate's hashes, the callbacks
    and the capacity of the audit store; and the confirmed hashes only grow. *)
Theorem check_action_keeps_setup self w now a target c0 self' w' allowed risk :
  check_action self w now a target c0 = Ok (self', w', (allowed, risk)) ->
  security_level self' = security_level self
  /\ pattern_matcher self' = pattern_matcher self
  /\ rule_engine self' = rule_engine self
  /\ confirmation_requester self' = confirmation_requester self
  /\ confirmation_callbacks self' = confirmation_callbacks self
  /\ AuditLogger.max_events (audit_logger self')
     = AuditLogger.max_events (audit_logger self)
  /\ confirmed_actions self ⊆ confirmed_actions self'.
Proof.
  intros Hchk.
  destruct (check_action_cases _ _ _ _ _ _ _ _ _ _ Hchk)
    as (ctx & h & cache & _ & _
        & [(_ & -> & _ & _ & _) | (_ & tr & rr & ra & _ & _ & Hdec)]).
  { repeat split; reflexivity. }
  destruct (decide_action_inv _ _ _ _ _ _ _ _ _ _ _ _ _ Hdec)
    as (_ & (H1 & H2 & H3 & H4 & H5 & _) & Ha & Hc & _).
  rewrite H1, H2, H3, H4, H5, Ha.
  repeat (split; [reflexivity|]).
  change (confirmed_actions (with_history self now a target c0))
    with (confirmed_actions self) in Hc.
  destruct Hc as [-> | ->]; [reflexivity | apply union_subseteq_r].
Qed.

Lemma check_action_keeps_setup_witness :
  exists self' w' allowed risk,
    check_action (init HIGH) (world0 [Line "a"]) 0 PAYMENT "x" payment_context
    = Ok (self', w', (allowed, risk))
    /\ security_level self' = security_level (init HIGH)
    /\ pattern_matcher self' = pattern_matcher (init HIGH)
    /\ rule_engine self' = rule_engine (init HIGH)
    /\ confirmation_requester self' = confirmation_requester (init HIGH)
    /\ confirmation_callbacks self' = confirmation_callbacks (init HIGH)
    /\ AuditLogger.max_events (audit_logger self')
       = AuditLogger.max_events (audit_logger (init HIGH))
    /\ confirmed_actions (init HIGH) ⊆ confirmed_actions self'.
Proof.
  eexists _, _, _, _. split; [computed|].
  eapply (check_action_keeps_setup (init HIGH) (world0 [Line "a"]) 0 PAYMENT "x"
            payment_context).
  computed.
Defined.

(** [_add_to_history] keeps the last hundred entries. *)
Lemma _add_to_history_length self now entry :
  List.length (action_history (_add_to_history self now entry))
  = Nat.min (S (List.length (action_history self))) 100.
Proof.
  unfold _add_to_history. cbn [action_history set_history].
  rewrite List.length_app. cbn [List.length].
  destruct (Nat.ltb_spec 100 (List.length (action_history self) + 1)).
  - rewrite List.length_skipn, List.length_app. cbn [List.length]. lia.
  - rewrite List.length_app. cbn [List.length]. lia.
Qed.

Lemma _add_to_history_last self now entry :
  List.last (action_history (_add_to_history self now entry)) []
  = PyDict.set entry "timestamp" (VInt now).
Proof.
  unfold _add_to_history. cbn [action_history set_history].
  set (h := action_history self). set (e := PyDict.set entry "timestamp" (VInt now)).
  destruct (100 <? List.length (h ++ [e]))%nat eqn:E.
  - apply Nat.ltb_lt in E. rewrite List.length_app in *. cbn [List.length] in *.
    rewrite List.skipn_app.
    replace (List.length h + 1 - 100 - List.length h)%nat with 0%nat by lia.
    cbn [skipn]. apply List.last_last.
  - apply List.last_last.
Qed.

(** X6.  The history is bounded.  After [check_action] the history holds at
    most a hundred entries, whatever it held before, and its last entry is
    the one of this action: its kind, the first 200 characters of its
    target, the location, and the time. *)
Theorem check_action_bounds_history self w now a target c0 self' w' allowed risk :
  check_action self w now a target c0 = Ok (self', w', (allowed, risk)) ->
  List.length (action_history self')
  = Nat.min (S (List.length (action_history self))) 100
  /\ List.last (action_history self') []
     = [ ("action_type", VStr (ActionType_.value a));
         ("target", VStr (take 200 target));
         ("url", PyDict.get_or c0 "current_url" (VStr ""));
         ("timestamp", VInt now) ].
Proof.
  intros Hchk.
  assert (Hh : action_history self'
               = action_history (with_history self now a target c0)).
  { destruct (check_action_cases _ _ _ _ _ _ _ _ _ _ Hchk)
      as (ctx & h & cache & _ & _
          & [(_ & -> & _ & _ & _) | (_ & tr & rr & ra & _ & _ & Hdec)]);
      [reflexivity|].
    destruct (decide_action_inv _ _ _ _ _ _ _ _ _ _ _ _ _ Hdec)
      as (_ & (_ & _ & _ & _ & _ & H6) & _). exact H6. }
  rewrite Hh. unfold with_history. split.
  - apply _add_to_history_length.
  - rewrite _add_to_history_last. reflexivity.
Qed.

Lemma check_action_bounds_history_witness :
  exists self' w' allowed risk,
    check_action (init LOW) (world0 []) 7 SCROLL "x" [] = Ok (self', w', (allowed, risk))
    /\ List.length (action_history self')
       = Nat.min (S (List.length (action_history (init LOW)))) 100
    /\ List.last (action_history self') []
       = [ ("action_type", VStr (ActionType_.value SCROLL));
           ("target", VStr (take 200 "x"));
           ("url", PyDict.get_or [] "current_url" (VStr ""));
           ("timestamp", VInt 7) ].
Proof.
  eexists _, _, _, _. split; [computed|].
  eapply (check_action_bounds_history (init LOW) (world0 []) 7 SCROLL "x" []).
  computed.
Defined.





End Orchestrator.

(* ===================================================================== *)
(** ** The two scorers *)
(* ===================================================================== *)

Section Scorers.
Import RuleEngine.
#[local] Open Scope list_scope.

(** X9.  The assessor's score is capped: it is never above 100, and for the
    three navigation kinds never above 25, whatever the context says. *)
Theorem assessor_score_is_capped a target ctx ra :
  RiskAssessor.assess_risk a target ctx = Ok ra ->
  (100 <? RiskAssessment.score ra)%float = false
  /\ (ContextAnalyzer.is_navigation a = true ->
      (25 <? RiskAssessment.score ra)%float = false).
Proof.
  unfold RiskAssessor.assess_risk. unfold mbind, res_bind.
  destruct (RiskAssessor.numeric _) as [c|]; [|discriminate].
  intros [= <-]. cbn [RiskAssessment.score].
  unfold RiskAssessor.normalized_score.
  destruct (ContextAnalyzer.is_navigation a).
  - split; [|intros _; apply FloatFacts.pymin_cap].
    unfold PyFloat.pymin at 1.
    match goal with |- context [if ?b then _ else _] => destruct b end;
      [reflexivity | apply FloatFacts.pymin_cap].
  - split; [apply FloatFacts.pymin_cap | discriminate].
Qed.

Lemma assessor_score_is_capped_witness :
  exists ra,
    RiskAssessor.assess_risk NAVIGATE_SUSPICIOUS "http://x"
      [("is_suspicious_domain", VBool true); ("is_http", VBool true)] = Ok ra
    /\ (100 <? RiskAssessment.score ra)%float = false
    /\ (ContextAnalyzer.is_navigation NAVIGATE_SUSPICIOUS = true ->
        (25 <? RiskAssessment.score ra)%float = false).
Proof.
  eexists. split; [computed|].
  eapply (assessor_score_is_capped NAVIGATE_SUSPICIOUS "http://x"
            [("is_suspicious_domain", VBool true); ("is_http", VBool true)]).
  computed.
Defined.

(** What it takes for one rule to be triggered. *)
Lemma rule_triggers_true r a t ctx :
  rule_triggers r a t ctx = Ok true ->
  (SecurityRule.action_type r = None \/ SecurityRule.action_type r = Some a)
  /\ a <> NAVIGATE /\ a <> NAVIGATE_EXTERNAL
  /\ match SecurityRule.condition r with
     | Some c => PyDict.truthy (c ctx) = true
     | None => True
     end.
Proof.
  unfold rule_triggers. intros H.
  destruct (SecurityRule.action_type r) as [a0|].
  - destruct (decide (a0 = a)) as [->|Hne].
    2:{ rewrite bool_decide_eq_false_2 in H by exact Hne. discriminate. }
    rewrite bool_decide_eq_true_2 in H by reflexivity. cbn [negb] in H.
    split; [right; reflexivity|].
    destruct (decide (a = NAVIGATE)) as [->|H1]; [discriminate|].
    destruct (decide (a = NAVIGATE_EXTERNAL)) as [->|H2]; [discriminate|].
    split; [exact H1|]. split; [exact H2|].
    rewrite !bool_decide_eq_false_2 in H by assumption. cbn [orb] in H.
    destruct (SecurityRule.condition r) as [c|]; [|exact I].
    destruct (PyDict.truthy (c ctx)); [reflexivity | discriminate].
  - split; [left; reflexivity|].
    destruct (decide (a = NAVIGATE)) as [->|H1]; [discriminate|].
    destruct (decide (a = NAVIGATE_EXTERNAL)) as [->|H2]; [discriminate|].
    split; [exact H1|]. split; [exact H2|].
    rewrite !bool_decide_eq_false_2 in H by assumption. cbn [orb] in H.
    destruct (SecurityRule.condition r) as [c|]; [|exact I].
    destruct (PyDict.truthy (c ctx)); [reflexivity | discriminate].
Qed.

Lemma triggered_inv rules a t ctx : forall tr,
  triggered rules a t ctx = Ok tr ->
  tr `sublist_of` rules
  /\ Forall (fun r => rule_triggers r a t ctx = Ok true) tr.
Proof.
  induction rules as [|r rules IH]; intros tr; cbn [triggered].
  - intros [= <-]. split; constructor.
  - unfold mbind, res_bind.
    destruct (rule_triggers r a t ctx) as [b|] eqn:Er; [|discriminate].
    destruct (triggered rules a t ctx) as [tl|]; [|discriminate].
    destruct (IH tl eq_refl) as [Hs Hf].
    intros [= <-]. destruct b; split.
    + apply sublist_skip, Hs.
    + constructor; assumption.
    + apply sublist_cons, Hs.
    + exact Hf.
Qed.

(** What [evaluate_rules] returns: rules of the list that triggered. *)
Lemma evaluate_rules_inv rules a target ctx tr rr :
  evaluate_rules rules a target ctx = Ok (tr, rr) ->
  tr `sublist_of` rules
  /\ RiskAssessment.triggered_rules rr = map SecurityRule.name tr
  /\ Forall (fun r => rule_triggers r a target ctx = Ok true) tr.
Proof.
  unfold evaluate_rules. unfold mbind, res_bind.
  destruct (triggered rules a target ctx) as [tr0|] eqn:E; [|discriminate].
  intros [= <- <-].
  destruct (triggered_inv _ _ _ _ _ E) as [Hs Hf].
  split; [exact Hs|]. split; [|exact Hf].
  unfold rule_assessment.
  destruct (bool_decide (a = NAVIGATE) || bool_decide (a = NAVIGATE_EXTERNAL));
    reflexivity.
Qed.

(** X10.  The rule engine returns the rules of its list that apply, in the
    order of the list: each is bound to no kind or to the kind of the action,
    its condition holds of the context, and the names in the assessment are
    theirs; for the kinds [NAVIGATE] and [NAVIGATE_EXTERNAL] no rule is
    returned, whatever the list. *)
Theorem only_applicable_rules_trigger rules a target ctx tr rr :
  evaluate_rules rules a target ctx = Ok (tr, rr) ->
  tr `sublist_of` rules
  /\ RiskAssessment.triggered_rules rr = map SecurityRule.name tr
  /\ (forall r, r ∈ tr ->
        (SecurityRule.action_type r = None \/ SecurityRule.action_type r = Some a)
        /\ match SecurityRule.condition r with
           | Some c => PyDict.truthy (c ctx) = true
           | None => True
           end)
  /\ (a = NAVIGATE \/ a = NAVIGATE_EXTERNAL -> tr = []).
Proof.
  intros H.
  destruct (evaluate_rules_inv _ _ _ _ _ _ H) as (Hs & Hn & Hf).
  split; [exact Hs|]. split; [exact Hn|]. split.
  - intros r Hr. rewrite Forall_forall in Hf.
    destruct (rule_triggers_true _ _ _ _ (Hf r Hr)) as (H1 & _ & _ & H4). auto.
  - intros Ha. destruct tr as [|r tl]; [reflexivity|].
    apply Forall_cons in Hf as [Hr _].
    destruct (rule_triggers_true _ _ _ _ Hr) as (_ & H2 & H3 & _).
    destruct Ha; contradiction.
Qed.

Lemma only_applicable_rules_trigger_witness :
  exists tr rr,
    evaluate_rules _load_default_rules TYPE "my password" [] = Ok (tr, rr)
    /\ RiskAssessment.triggered_rules rr = ["password_input"]
    /\ tr `sublist_of` _load_default_rules
    /\ RiskAssessment.triggered_rules rr = map SecurityRule.name tr
    /\ (forall r, r ∈ tr ->
          (SecurityRule.action_type r = None \/ SecurityRule.action_type r = Some TYPE)
          /\ match SecurityRule.condition r with
             | Some c => PyDict.truthy (c []) = true
             | None => True
             end)
    /\ (TYPE = NAVIGATE \/ TYPE = NAVIGATE_EXTERNAL -> tr = []).
Proof.
  eexists _, _. split; [computed|]. split; [reflexivity|].
  eapply (only_applicable_rules_trigger _load_default_rules TYPE "my password" []).
  computed.
Defined.

(** X11.  Two of the default rules are dead.  [external_navigation] and
    [non_https_navigation] are bound to the kind [NAVIGATE], for which the
    engine skips every rule, so no action, target and context make the
    default engine report either of them. *)
Theorem navigation_rules_never_trigger a target ctx tr rr :
  evaluate_rules _load_default_rules a target ctx = Ok (tr, rr) ->
  ("external_navigation" ∉ RiskAssessment.triggered_rules rr)
  /\ ("non_https_navigation" ∉ RiskAssessment.triggered_rules rr).
Proof.
  intros H.
  destruct (evaluate_rules_inv _ _ _ _ _ _ H) as (Hs & Hn & Hf).
  rewrite Forall_forall in Hf.
  assert (Hdead : forall n,
    (forall r, r ∈ _load_default_rules -> SecurityRule.name r = n ->
               SecurityRule.action_type r = Some NAVIGATE) ->
    (n ∉ RiskAssessment.triggered_rules rr)).
  { intros n Hbound Hin. rewrite Hn in Hin.
    apply list_elem_of_In, in_map_iff in Hin as (r & Hname & Hin).
    apply list_elem_of_In in Hin.
    pose proof (elem_of_submseteq _ _ _ Hin (sublist_submseteq _ _ Hs)) as Hdef.
    pose proof (Hbound r Hdef Hname) as Hty.
    destruct (rule_triggers_true _ _ _ _ (Hf r Hin))
      as ([Hnone | Hsome] & Hnav & _ & _); [congruence|].
    apply Hnav. congruence. }
  split; apply Hdead; intros r Hin Hname; unfold _load_default_rules in Hin;
    repeat (apply elem_of_cons in Hin as [-> | Hin]);
    try (inversion Hin; fail); try reflexivity; discriminate Hname.
Qed.

Lemma navigation_rules_never_trigger_witness :
  exists tr rr,
    evaluate_rules _load_default_rules NAVIGATE "http://example.com" [] = Ok (tr, rr)
    /\ ("external_navigation" ∉ RiskAssessment.triggered_rules rr)
    /\ ("non_https_navigation" ∉ RiskAssessment.triggered_rules rr).
Proof.
  eexists _, _. split; [computed|].
  eapply (navigation_rules_never_trigger NAVIGATE "http://example.com" []).
  computed.
Defined.

(** X12.  [remove_rule] removes every rule of the given name and keeps the
    others in their order; so removing a rule by name right after adding it
    also removes the rules of that name that were there before, and gives the
    list back only when the name was new. *)
Theorem remove_rule_removes_all_of_name rules r n :
  (forall r', r' ∈ remove_rule rules n <-> r' ∈ rules /\ SecurityRule.name r' <> n)
  /\ remove_rule rules n `sublist_of` rules
  /\ remove_rule (add_rule rules r) (SecurityRule.name r)
     = remove_rule rules (SecurityRule.name r)
  /\ (remove_rule (add_rule rules r) (SecurityRule.name r) = rules
      <-> Forall (fun r' => SecurityRule.name r' <> SecurityRule.name r) rules).
Proof.
  assert (Hfilter : forall m l,
    Forall (fun r' => SecurityRule.name r' <> m) l <-> remove_rule l m = l).
  { intros m l. unfold remove_rule. induction l as [|x l IH]; cbn [List.filter].
    - split; [reflexivity | constructor].
    - destruct (String.eqb_spec (SecurityRule.name x) m) as [E|E]; cbn [negb].
      + split.
        * intros Hf. apply Forall_cons in Hf as [Hx _]. contradiction.
        * intros Heq. exfalso.
          assert (Hlen : (List.length (List.filter
                    (fun r0 => negb (String.eqb (SecurityRule.name r0) m)) l)
                  <= List.length l)%nat) by apply List.filter_length_le.
          rewrite Heq in Hlen. cbn [List.length] in Hlen. lia.
      + split.
        * intros Hf. apply Forall_cons in Hf as [_ Hl]. f_equal. apply IH, Hl.
        * intros [= Heq]. constructor; [exact E | apply IH, Heq]. }
  assert (Hadd : remove_rule (add_rule rules r) (SecurityRule.name r)
                 = remove_rule rules (SecurityRule.name r)).
  { unfold remove_rule, add_rule. rewrite List.filter_app. cbn [List.filter].
    rewrite String.eqb_refl. cbn [negb]. apply List.app_nil_r. }
  split; [|split; [|split]].
  - intros r'. unfold remove_rule.
    rewrite !list_elem_of_In, List.filter_In, negb_true_iff, String.eqb_neq.
    reflexivity.
  - clear. unfold remove_rule. induction rules as [|x l IH]; cbn [List.filter].
    + constructor.
    + destruct (negb _); [apply sublist_skip | apply sublist_cons]; exact IH.
  - exact Hadd.
  - rewrite Hadd. symmetry. apply Hfilter.
Qed.

End Scorers.

(* ===================================================================== *)
(** ** The cache of action hashes *)
(* ===================================================================== *)

Section HashCache.
Import Utils.
#[local] Open Scope Z_scope.

(** X13.  A hash is kept for ten minutes from the call that computed it.
    When a call finds no live entry for the kind, target and location, the
    hash it returns is the digest of its own context; a later call with that
    kind, target and location, whatever else its context holds, gets the same
    hash and leaves the cache as it is while less than ten minutes have
    passed since the first call, and the digest of its own context from then
    on. *)
Theorem action_hash_is_kept_for_ten_minutes
  now1 now2 cache a target c1 c2 h cache1 :
  cache_key a target c2 = cache_key a target c1 ->
  (forall h0 stamp, cache !! cache_key a target c1 = Some (h0, stamp) ->
                    _cache_ttl <= now1 - stamp) ->
  generate_action_hash now1 cache a target c1 = (h, cache1) ->
  h = fresh_hash a target c1
  /\ (now2 - now1 < _cache_ttl ->
      generate_action_hash now2 cache1 a target c2 = (h, cache1))
  /\ (_cache_ttl <= now2 - now1 ->
      fst (generate_action_hash now2 cache1 a target c2) = fresh_hash a target c2).
Proof.
  intros Hkey Hmiss Hgen.
  assert (Hfirst : h = fresh_hash a target c1
    /\ cache1 = _clean_hash_cache now1
                  (<[cache_key a target c1 := (fresh_hash a target c1, now1)]> cache)).
  { revert Hgen. unfold generate_action_hash.
    destruct (cache !! cache_key a target c1) as [[h0 stamp]|] eqn:E.
    - rewrite bool_decide_eq_false_2 by (specialize (Hmiss _ _ eq_refl); lia).
      intros [= <- <-]. split; reflexivity.
    - intros [= <- <-]. split; reflexivity. }
  destruct Hfirst as [-> ->]. split; [reflexivity|].
  assert (Hlook :
    _clean_hash_cache now1
      (<[cache_key a target c1 := (fresh_hash a target c1, now1)]> cache)
    !! cache_key a target c2 = Some (fresh_hash a target c1, now1)).
  { rewrite Hkey. unfold _clean_hash_cache. apply map_lookup_filter_Some.
    split; [apply lookup_insert_eq|]. cbn [snd]. unfold _cache_ttl. lia. }
  split; intros Hage; unfold generate_action_hash; rewrite Hlook.
  - rewrite bool_decide_eq_true_2 by exact Hage. reflexivity.
  - rewrite bool_decide_eq_false_2 by lia. reflexivity.
Qed.

Lemma action_hash_is_kept_for_ten_minutes_witness :
  let c1 : pydict := [("a", VInt 1)] in
  let c2 : pydict := [("a", VInt 2)] in
  exists h cache1,
    cache_key CLICK "x" c2 = cache_key CLICK "x" c1
    /\ generate_action_hash 0 ∅ CLICK "x" c1 = (h, cache1)
    /\ h = fresh_hash CLICK "x" c1
    /\ (5 - 0 < _cache_ttl ->
        generate_action_hash 5 cache1 CLICK "x" c2 = (h, cache1))
    /\ (_cache_ttl <= 5 - 0 ->
        fst (generate_action_hash 5 cache1 CLICK "x" c2) = fresh_hash CLICK "x" c2).
Proof.
  intros c1 c2. eexists _, _. split; [reflexivity|]. split; [computed|].
  eapply (action_hash_is_kept_for_ten_minutes 0 5 ∅ CLICK "x" c1 c2);
    [reflexivity | | computed].
  intros h0 stamp H. rewrite lookup_empty in H. discriminate H.
Defined.

(** X14.  No address is external to itself, and being external is
    symmetric; [is_external_domain] is true only of two strings that both
    name a network location, and different ones. *)
Theorem is_external_domain_spec u v :
  is_external_domain u u = false
  /\ is_external_domain u v = is_external_domain v u
  /\ (is_external_domain u v = true ->
      exists c t cd td,
        u = VStr c /\ v = VStr t /\ netloc c = Ok cd /\ netloc t = Ok td
        /\ cd <> "" /\ td <> "" /\ td <> cd).
Proof.
  split; [|split].
  - unfold is_external_domain. destruct u; try reflexivity.
    destruct (netloc s) as [cd|]; [|reflexivity].
    rewrite String.eqb_refl. destruct (String.eqb cd "" || String.eqb cd "");
      reflexivity.
  - unfold is_external_domain. destruct u, v; try reflexivity.
    destruct (netloc s) as [cd|], (netloc s0) as [td|]; try reflexivity.
    rewrite (String.eqb_sym td cd), orb_comm. reflexivity.
  - unfold is_external_domain. destruct u, v; try discriminate.
    destruct (netloc s) as [cd|] eqn:E1; [|discriminate].
    destruct (netloc s0) as [td|] eqn:E2; [|discriminate].
    destruct (String.eqb_spec cd "") as [|H1]; [discriminate|].
    destruct (String.eqb_spec td "") as [|H2]; [discriminate|].
    cbn [orb]. destruct (String.eqb_spec td cd) as [|H3]; [discriminate|].
    intros _. exists s, s0, cd, td. auto 8.
Qed.

End HashCache.

(* ===================================================================== *)
(** ** The context analyzer *)
(* ===================================================================== *)

Section Analyzer.
Import PyStr ContextAnalyzer.
#[local] Open Scope list_scope.

Lemma bind_inv {A B} (c : res A) (k : A -> res B) (r : B) :
  mbind k c = Ok r -> exists x, c = Ok x /\ k x = Ok r.
Proof. destruct c; cbn; [eauto | discriminate]. Qed.

Lemma get_set_eq d k v : PyDict.get (PyDict.set d k v) k = Some v.
Proof.
  induction d as [|[k' v'] d IH]; cbn.
  - rewrite String.eqb_refl. reflexivity.
  - destruct (String.eqb k k') eqn:E; cbn.
    + rewrite String.eqb_refl. reflexivity.
    + rewrite E. exact IH.
Qed.

Lemma get_set_ne d k k0 v :
  k0 <> k -> PyDict.get (PyDict.set d k v) k0 = PyDict.get d k0.
Proof.
  intros Hne. induction d as [|[k' v'] d IH]; cbn.
  - destruct (String.eqb_spec k0 k); [contradiction | reflexivity].
  - destruct (String.eqb_spec k k') as [->|]; cbn.
    + destruct (String.eqb_spec k0 k'); [contradiction | reflexivity].
    + destruct (String.eqb k0 k'); [reflexivity | exact IH].
Qed.

Lemma get_update_frame e : forall d k,
  Forall (fun kv => fst kv <> k) e ->
  PyDict.get (PyDict.update d e) k = PyDict.get d k.
Proof.
  unfold PyDict.update.
  induction e as [|[k' v'] e IH]; intros d k H; cbn [fold_left]; [reflexivity|].
  apply Forall_cons in H as [H1 H2]. rewrite IH by exact H2.
  apply get_set_ne. intros ->. apply H1. reflexivity.
Qed.

(** The keys that [analyze] writes: those of the pattern analysis, of the
    kind of page, of the domain, of the navigation, of the key words, of the
    sequence of actions, of the action in its context, and the two it always
    sets last. *)
Definition analysis_keys : list string :=
  [ "pattern_analysis"; "detected_patterns";
    "is_login_page"; "is_payment_page"; "is_registration_page";
    "is_settings_page"; "is_admin_page"; "is_social_page"; "is_search_page";
    "is_email_page";
    "domain"; "domain_category"; "is_suspicious_domain"; "is_trusted_domain";
    "is_external_domain"; "is_https"; "is_http"; "is_suspicious_url";
    "contains_payment"; "contains_login"; "contains_registration";
    "contains_social"; "contains_delete"; "contains_download"; "contains_legal";
    "contains_contact"; "contains_search"; "contains_navigation";
    "contains_settings";
    "is_login_flow"; "is_payment_flow"; "is_registration_flow";
    "is_form_filling"; "recent_action_types"; "recent_targets";
    "is_password_in_login_context"; "is_payment_in_checkout_context";
    "is_delete_in_settings_context"; "is_social_action_in_context";
    "confidence"; "recommendations" ].

(** A dictionary all of whose keys are among them. *)
Definition owned (e : pydict) : Prop :=
  Forall (fun kv => In (fst kv) analysis_keys) e.

Lemma in_keys k : existsb (String.eqb k) analysis_keys = true -> In k analysis_keys.
Proof.
  intros H. apply existsb_exists in H as (x & Hx & E).
  apply String.eqb_eq in E. subst x. exact Hx.
Qed.

Ltac owned_literal :=
  cbv zeta; unfold owned;
  repeat (constructor; [apply in_keys; reflexivity|]); constructor.

Lemma owned_app e1 e2 : owned e1 -> owned e2 -> owned (e1 ++ e2).
Proof. intros H1 H2. apply Forall_app. split; assumption. Qed.

Lemma update_frame d e k :
  owned e -> ~ In k analysis_keys ->
  PyDict.get (PyDict.update d e) k = PyDict.get d k.
Proof.
  intros He Hk. apply get_update_frame.
  eapply Forall_impl; [exact He|]. intros kv Hin E. apply Hk. rewrite <- E. exact Hin.
Qed.

Lemma owned_page_type url : owned (_analyze_page_type url).
Proof.
  unfold _analyze_page_type. destruct (String.eqb url ""); [constructor|].
  owned_literal.
Qed.

Lemma owned_domain url : owned (_analyze_domain url).
Proof.
  unfold _analyze_domain. destruct (String.eqb _ ""); [constructor|].
  owned_literal.
Qed.

Lemma owned_keywords text : owned (_analyze_keywords text).
Proof.
  unfold _analyze_keywords. destruct (String.eqb text ""); [constructor|].
  unfold _load_keyword_patterns. cbn [flat_map fst snd].
  repeat (apply owned_app;
          [match goal with |- owned (if ?b then _ else _) =>
             destruct b; [owned_literal | constructor] end|]).
  constructor.
Qed.

Lemma owned_action_context a c : owned (_analyze_action_context a c).
Proof.
  unfold _analyze_action_context.
  repeat (apply owned_app;
          [match goal with |- owned (if ?b then _ else _) =>
             destruct b; [owned_literal | constructor] end|]).
  match goal with |- owned (if ?b then _ else _) =>
    destruct b; [owned_literal | constructor] end.
Qed.

Lemma owned_navigation_url tu cu ua :
  _analyze_navigation_url tu cu = Ok ua -> owned ua.
Proof.
  unfold _analyze_navigation_url. intros H.
  apply bind_inv in H as (t & _ & [= <-]). owned_literal.
Qed.

Lemma owned_sequence history sa : _analyze_sequence history = Ok sa -> owned sa.
Proof.
  unfold _analyze_sequence.
  destruct (negb (PyDict.truthy history)); [intros [= <-]; constructor|].
  destruct history as [| | | | |l|d]; try discriminate.
  - intros H.
    apply bind_inv in H as (ats & _ & H).
    apply bind_inv in H as (ts & _ & H).
    apply bind_inv in H as (ty & _ & [= <-]). owned_literal.
  - destruct (5 <=? List.length d)%nat; discriminate.
Qed.

(** The stages of [analyze] that may raise, and its last steps. *)
Definition stage_page (c1 : pydict) : res pydict :=
  let current_url := PyDict.get_or c1 "current_url" (VStr "") in
  if PyDict.truthy current_url
  then url ← as_str current_url;
       Ok (PyDict.update (PyDict.update c1 (_analyze_page_type url))
                         (_analyze_domain url))
  else Ok c1.

Definition stage_navigation (a : ActionType) (target : string)
  (current_url : pyval) (c2 : pydict) : res pydict :=
  if is_navigation a
  then let target_url := PyDict.get_or c2 "target_url" (VStr target) in
       if PyDict.truthy target_url
       then url_analysis ← _analyze_navigation_url target_url current_url;
            Ok (PyDict.update c2 url_analysis)
       else Ok c2
  else Ok c2.

Definition stage_sequence (c4 : pydict) : res pydict :=
  match PyDict.get c4 "recent_history" with
  | Some history =>
      sequence_analysis ← _analyze_sequence history;
      Ok (PyDict.update c4 sequence_analysis)
  | None => Ok c4
  end.

Definition with_confidence (c6 : pydict) : pydict :=
  PyDict.set c6 "confidence" (VFloat (_calculate_confidence c6)).

Definition finish (a : ActionType) (c5 : pydict) : pydict :=
  let c6 := PyDict.update c5 (_analyze_action_context a c5) in
  PyDict.set (with_confidence c6) "recommendations"
    (VList (map VStr (_generate_recommendations (with_confidence c6)))).

Definition with_patterns (c0 pa : pydict) : pydict :=
  PyDict.update c0
    [ ("pattern_analysis", VDict pa);
      ("detected_patterns", PyDict.get_or pa "patterns" (VDict [])) ].

Lemma analyze_stages pm a target c0 :
  analyze pm a target c0
  = (pa ← PatternMatcher.extract_sensitive_data pm target;
     c2 ← stage_page (with_patterns c0 pa);
     c3 ← stage_navigation a target
            (PyDict.get_or (with_patterns c0 pa) "current_url" (VStr "")) c2;
     c5 ← stage_sequence (PyDict.update c3 (_analyze_keywords target));
     Ok (finish a c5)).
Proof. reflexivity. Qed.

(** One context agrees with another outside the analyzer's keys. *)
Definition frame (c c' : pydict) : Prop :=
  forall k, ~ In k analysis_keys -> PyDict.get c' k = PyDict.get c k.

Lemma frame_refl c : frame c c.
Proof. intros k _. reflexivity. Qed.

Lemma frame_trans c1 c2 c3 : frame c1 c2 -> frame c2 c3 -> frame c1 c3.
Proof. intros H1 H2 k Hk. rewrite (H2 k Hk). apply H1, Hk. Qed.

Lemma frame_update c e : owned e -> frame c (PyDict.update c e).
Proof. intros He k Hk. apply update_frame; assumption. Qed.

Lemma frame_with_patterns c0 pa : frame c0 (with_patterns c0 pa).
Proof. apply frame_update. owned_literal. Qed.

Lemma frame_stage_page c1 c2 : stage_page c1 = Ok c2 -> frame c1 c2.
Proof.
  unfold stage_page. cbv zeta.
  destruct (PyDict.truthy _); [|intros [= <-]; apply frame_refl].
  intros H. apply bind_inv in H as (url & _ & [= <-]).
  eapply frame_trans; apply frame_update; [apply owned_page_type | apply owned_domain].
Qed.

Lemma frame_stage_navigation a target cu c2 c3 :
  stage_navigation a target cu c2 = Ok c3 -> frame c2 c3.
Proof.
  unfold stage_navigation. cbv zeta.
  destruct (is_navigation a); [|intros [= <-]; apply frame_refl].
  destruct (PyDict.truthy _); [|intros [= <-]; apply frame_refl].
  intros H. apply bind_inv in H as (ua & Hua & [= <-]).
  apply frame_update. exact (owned_navigation_url _ _ _ Hua).
Qed.

Lemma frame_stage_sequence c4 c5 : stage_sequence c4 = Ok c5 -> frame c4 c5.
Proof.
  unfold stage_sequence.
  destruct (PyDict.get c4 "recent_history") as [history|];
    [|intros [= <-]; apply frame_refl].
  intros H. apply bind_inv in H as (sa & Hsa & [= <-]).
  apply frame_update. exact (owned_sequence _ _ Hsa).
Qed.

(** [analyze], read back from a result. *)
Lemma analyze_inv pm a target c0 ctx :
  analyze pm a target c0 = Ok ctx ->
  exists c6,
    frame c0 c6
    /\ ctx = PyDict.set (with_confidence c6) "recommendations"
               (VList (map VStr (_generate_recommendations (with_confidence c6)))).
Proof.
  rewrite analyze_stages. intros H.
  apply bind_inv in H as (pa & _ & H).
  apply bind_inv in H as (c2 & H2 & H).
  apply bind_inv in H as (c3 & H3 & H).
  apply bind_inv in H as (c5 & H5 & H).
  injection H as <-. unfold finish. cbv zeta.
  eexists. split; [|reflexivity].
  eapply frame_trans; [apply frame_with_patterns|].
  eapply frame_trans; [exact (frame_stage_page _ _ H2)|].
  eapply frame_trans; [exact (frame_stage_navigation _ _ _ _ _ H3)|].
  eapply frame_trans; [apply frame_update, owned_keywords|].
  eapply frame_trans; [exact (frame_stage_sequence _ _ H5)|].
  apply frame_update, owned_action_context.
Qed.

(** X15.  The analyzer writes its own keys and no other.  The context that
    [analyze] returns agrees with the one it was given on every key outside
    [analysis_keys]; so the flags [contains_passwords], [contains_financial],
    [contains_personal_data] and [contains_contact_info], which the risk
    assessor weighs and the recommendations read, are in the result what
    they were for the caller: the analysis itself never raises them,
    whatever the pattern matcher found. *)
Theorem analyze_writes_only_its_keys pm a target c0 ctx :
  analyze pm a target c0 = Ok ctx ->
  (forall k, ~ In k analysis_keys -> PyDict.get ctx k = PyDict.get c0 k)
  /\ PyDict.flag ctx "contains_passwords" = PyDict.flag c0 "contains_passwords"
  /\ PyDict.flag ctx "contains_financial" = PyDict.flag c0 "contains_financial"
  /\ PyDict.flag ctx "contains_personal_data"
     = PyDict.flag c0 "contains_personal_data"
  /\ PyDict.flag ctx "contains_contact_info"
     = PyDict.flag c0 "contains_contact_info".
Proof.
  intros H. destruct (analyze_inv _ _ _ _ _ H) as (c6 & Hframe & ->).
  assert (Hall : forall k, ~ In k analysis_keys ->
    PyDict.get
      (PyDict.set (with_confidence c6) "recommendations"
         (VList (map VStr (_generate_recommendations (with_confidence c6)))))
      k = PyDict.get c0 k).
  { intros k Hk. unfold with_confidence.
    rewrite !get_set_ne; [exact (Hframe k Hk) | |];
      intros ->; apply Hk; apply in_keys; reflexivity. }
  split; [exact Hall|].
  assert (Hnot : forall k, existsb (String.eqb k) analysis_keys = false ->
                           ~ In k analysis_keys).
  { intros k E Hin.
    assert (existsb (String.eqb k) analysis_keys = true); [|congruence].
    apply existsb_exists. exists k. split; [exact Hin | apply String.eqb_refl]. }
  unfold PyDict.flag.
  rewrite !Hall by (apply Hnot; reflexivity).
  repeat split; reflexivity.
Qed.

Lemma analyze_writes_only_its_keys_witness :
  exists ctx,
    analyze PatternMatcher._load_patterns TYPE "password: hunter2" [] = Ok ctx
    /\ (forall k, ~ In k analysis_keys -> PyDict.get ctx k = PyDict.get [] k)
    /\ PyDict.flag ctx "contains_passwords" = PyDict.flag [] "contains_passwords"
    /\ PyDict.flag ctx "contains_financial" = PyDict.flag [] "contains_financial"
    /\ PyDict.flag ctx "contains_personal_data"
       = PyDict.flag [] "contains_personal_data"
    /\ PyDict.flag ctx "contains_contact_info"
       = PyDict.flag [] "contains_contact_info".
Proof.
  eexists. split; [computed|].
  eapply (analyze_writes_only_its_keys PatternMatcher._load_patterns TYPE
            "password: hunter2" []).
  computed.
Defined.

(** The context that [analyze] returns holds a float as its confidence. *)
Lemma analyze_confidence pm a target c0 ctx :
  analyze pm a target c0 = Ok ctx ->
  exists f, PyDict.get ctx "confidence" = Some (VFloat f).
Proof.
  intros H. destruct (analyze_inv _ _ _ _ _ H) as (c6 & _ & ->).
  exists (_calculate_confidence c6).
  rewrite get_set_ne by discriminate. apply get_set_eq.
Qed.

(** With a float as the confidence of the context, [assess_risk] returns. *)
Lemma assess_risk_of_float a target ctx f :
  PyDict.get ctx "confidence" = Some (VFloat f) ->
  exists ra,
    RiskAssessor.assess_risk a target ctx = Ok ra
    /\ RiskAssessment.confidence ra = VFloat f.
Proof.
  intros Hget.
  unfold RiskAssessor.assess_risk, RuleEngine.confidence_of, PyDict.get_or.
  rewrite Hget. cbn [RiskAssessor.numeric mbind res_bind].
  eexists. split; reflexivity.
Qed.

(** X16.  After the analysis the assessor cannot fail.  Whatever the caller
    put under [confidence], the context that [analyze] returns holds a float
    there, so [assess_risk] on it returns, with that float as its
    confidence. *)
Theorem assess_risk_returns_after_analyze pm a target c0 ctx :
  analyze pm a target c0 = Ok ctx ->
  exists f ra,
    PyDict.get ctx "confidence" = Some (VFloat f)
    /\ RiskAssessor.assess_risk a target ctx = Ok ra
    /\ RiskAssessment.confidence ra = VFloat f.
Proof.
  intros H.
  destruct (analyze_confidence _ _ _ _ _ H) as [f Hget].
  destruct (assess_risk_of_float a target ctx f Hget) as (ra & Hra & Hconf).
  exists f, ra. split; [exact Hget|]. split; [exact Hra | exact Hconf].
Qed.

Lemma assess_risk_returns_after_analyze_witness :
  let c0 : pydict := [("confidence", VStr "high")] in
  exists ctx,
    RiskAssessor.assess_risk CLICK "x" c0 = Raise TypeError
    /\ analyze PatternMatcher._load_patterns CLICK "x" c0 = Ok ctx
    /\ exists f ra,
         PyDict.get ctx "confidence" = Some (VFloat f)
         /\ RiskAssessor.assess_risk CLICK "x" ctx = Ok ra
         /\ RiskAssessment.confidence ra = VFloat f.
Proof.
  intros c0. eexists. split; [reflexivity|]. split; [computed|].
  eapply (assess_risk_returns_after_analyze PatternMatcher._load_patterns CLICK
            "x" c0).
  computed.
Defined.

End Analyzer.

(* ===================================================================== *)
(** ** When [check_action] returns *)
(* ===================================================================== *)

Section Returns.
Import PyStr ContextAnalyzer SecurityLayer SecurityLayerProps.
#[local] Open Scope list_scope.

(** A pattern that [re] accepts. *)
Definition compiles (pat : string) : Prop :=
  exists p, PyRe.compile pat = PyRe.POk p.

(** A rule whose pattern, when it is a regular expression, [re] accepts. *)
Definition well_formed (r : SecurityRule.t) : Prop :=
  SecurityRule.regex r = true -> compiles (SecurityRule.pattern r).

(** A key under which the context holds nothing or a string. *)
Definition absent_or_str (c : pydict) (k : string) : Prop :=
  PyDict.get c k = None \/ exists s, PyDict.get c k = Some (VStr s).

Lemma bind_ok {A B} (c : res A) (k : A -> res B) (x : A) :
  c = Ok x -> mbind k c = k x.
Proof. intros ->. reflexivity. Qed.

Lemma not_in_keys k :
  existsb (String.eqb k) analysis_keys = false -> ~ In k analysis_keys.
Proof.
  intros E Hin.
  assert (existsb (String.eqb k) analysis_keys = true); [|congruence].
  apply existsb_exists. exists k. split; [exact Hin | apply String.eqb_refl].
Qed.

Lemma absent_or_str_frame c c' k :
  existsb (String.eqb k) analysis_keys = false ->
  frame c c' -> absent_or_str c k -> absent_or_str c' k.
Proof.
  intros E Hf H. unfold absent_or_str. rewrite (Hf k (not_in_keys k E)). exact H.
Qed.

(** The patterns of the pattern matcher are all accepted, so the search for
    them skips none and returns. *)
Lemma findall_ok pat text icase :
  compiles pat -> exists m, PyRe.findall pat text icase = PyRe.POk m.
Proof. intros [p Hp]. unfold PyRe.findall. rewrite Hp. cbn. eauto. Qed.

Lemma category_results_ok text cs :
  Forall (fun np => compiles (snd np)) cs ->
  exists r, PatternMatcher.category_results text cs = Ok r.
Proof.
  induction cs as [|[n pat] cs IH]; intros H; cbn [PatternMatcher.category_results].
  - eauto.
  - apply Forall_cons in H as [Hp Hcs].
    destruct (findall_ok pat text true Hp) as [m ->].
    destruct (IH Hcs) as [tl ->]. cbn. eauto.
Qed.

Lemma all_results_ok text ps :
  Forall (fun c => Forall (fun np => compiles (snd np)) (snd c)) ps ->
  exists r, PatternMatcher.all_results text ps = Ok r.
Proof.
  induction ps as [|[c cs] ps IH]; intros H; cbn [PatternMatcher.all_results].
  - eauto.
  - apply Forall_cons in H as [Hc Hps].
    destruct (category_results_ok text cs Hc) as [cr ->].
    destruct (IH Hps) as [tl ->]. cbn. eauto.
Qed.

Lemma default_patterns_compile :
  Forall (fun c => Forall (fun np => compiles (snd np)) (snd c))
    PatternMatcher._load_patterns.
Proof.
  unfold PatternMatcher._load_patterns.
  repeat (constructor;
          [cbn [snd];
           repeat (constructor; [vm_compute; eexists; reflexivity|]); constructor|]).
  constructor.
Qed.

Lemma extract_sensitive_data_ok text :
  exists pa,
    PatternMatcher.extract_sensitive_data PatternMatcher._load_patterns text = Ok pa.
Proof.
  unfold PatternMatcher.extract_sensitive_data, PatternMatcher.find_patterns.
  change (String.eqb "all" "all") with true. cbv iota.
  destruct (all_results_ok text _ default_patterns_compile) as [r ->].
  unfold mbind at 1, res_bind at 1. cbv zeta.
  destruct (ScorerProps.mask_sensitive_data_ok text) as [m ->].
  cbn. eauto.
Qed.

Lemma stage_page_ok c1 :
  absent_or_str c1 "current_url" -> exists c2, stage_page c1 = Ok c2.
Proof.
  unfold stage_page, PyDict.get_or. intros [-> | [s ->]]; cbn; [eauto|].
  destruct (negb (String.eqb s "")); eauto.
Qed.

Lemma stage_navigation_ok a target cu c2 :
  absent_or_str c2 "target_url" -> exists c3, stage_navigation a target cu c2 = Ok c3.
Proof.
  unfold stage_navigation, PyDict.get_or, _analyze_navigation_url.
  destruct (is_navigation a); [|eauto].
  intros [-> | [s ->]]; cbn;
    match goal with |- exists c3, (if ?b then _ else _) = _ => destruct b end; eauto.
Qed.

(** An entry of a history as [_analyze_sequence] can read it: a dictionary
    whose [action_type], when it has one, is a string. *)
Definition history_entry (h : pyval) : Prop :=
  exists d, h = VDict d /\ absent_or_str d "action_type".

(** A context with no recent history, or with a list of such entries. *)
Definition history_ok (c : pydict) : Prop :=
  PyDict.get c "recent_history" = None
  \/ exists l, PyDict.get c "recent_history" = Some (VList l)
               /\ Forall history_entry l.

Lemma mapM_ok {A B} (f : A -> res B) (P : A -> Prop) (Q : B -> Prop) :
  (forall x, P x -> exists y, f x = Ok y /\ Q y) ->
  forall l, Forall P l -> exists ys, mapM f l = Ok ys /\ Forall Q ys.
Proof.
  intros Hf. induction l as [|x l IH]; intros H; cbn [mapM].
  - exists []. split; [reflexivity | constructor].
  - apply Forall_cons in H as [Hx Hl].
    destruct (Hf x Hx) as (y & -> & Hy).
    destruct (IH Hl) as (ys & -> & Hys).
    exists (y :: ys). split; [reflexivity | constructor; assumption].
Qed.

Lemma _analyze_sequence_ok l :
  Forall history_entry l -> exists sa, _analyze_sequence (VList l) = Ok sa.
Proof.
  intros Hl. unfold _analyze_sequence.
  destruct (negb (PyDict.truthy (VList l))); [eauto|].
  set (recent := if (5 <=? List.length l)%nat
                 then skipn (List.length l - 5) l else l).
  assert (Hrecent : Forall history_entry recent).
  { subst recent. destruct (5 <=? List.length l)%nat; [|exact Hl].
    apply Forall_drop, Hl. }
  destruct (mapM_ok (fun h => entry_get h "action_type") history_entry
              (fun v => exists s, v = VStr s)) with (l := recent)
    as (action_types & Eat & Hat); [|exact Hrecent|].
  { intros h (d & -> & Hd). cbn [entry_get]. unfold PyDict.get_or.
    destruct Hd as [-> | [s ->]]; eauto. }
  rewrite (bind_ok _ _ _ Eat). cbv beta.
  destruct (mapM_ok (fun h => v ← entry_get h "target"; Ok (lower (PyJson.str v)))
              history_entry (fun _ => True)) with (l := recent)
    as (targets & Etg & _); [|exact Hrecent|].
  { intros h (d & -> & _). cbn [entry_get mbind res_bind]. eauto. }
  rewrite (bind_ok _ _ _ Etg). cbv beta.
  destruct (mapM_ok (fun a => s ← as_str a; Ok (startswith s "TYPE_"))
              (fun v => exists s, v = VStr s) (fun _ => True))
    with (l := action_types) as (typed & Ety & _); [|exact Hat|].
  { intros v [s ->]. cbn [as_str mbind res_bind]. eauto. }
  cbv zeta. rewrite (bind_ok _ _ _ Ety). eauto.
Qed.

Lemma stage_sequence_ok c4 :
  history_ok c4 -> exists c5, stage_sequence c4 = Ok c5.
Proof.
  unfold stage_sequence. intros [-> | (l & -> & Hl)]; [eauto|].
  destruct (_analyze_sequence_ok l Hl) as [sa ->]. cbn [mbind res_bind]. eauto.
Qed.

(** With the default patterns, the analysis returns for every kind and
    target, when the locations that the context gives are strings and its
    history, if any, is a list of entries. *)
Lemma analyze_ok a target c0 :
  absent_or_str c0 "current_url" -> absent_or_str c0 "target_url" ->
  history_ok c0 ->
  exists ctx, analyze PatternMatcher._load_patterns a target c0 = Ok ctx.
Proof.
  intros Hcu Htu Hrh. rewrite analyze_stages.
  destruct (extract_sensitive_data_ok target) as [pa Hpa].
  rewrite (bind_ok _ _ _ Hpa).
  pose proof (frame_with_patterns c0 pa) as F1.
  destruct (stage_page_ok (with_patterns c0 pa)) as [c2 H2].
  { exact (absent_or_str_frame _ _ "current_url" eq_refl F1 Hcu). }
  rewrite (bind_ok _ _ _ H2).
  pose proof (frame_trans _ _ _ F1 (frame_stage_page _ _ H2)) as F2.
  destruct (stage_navigation_ok a target
              (PyDict.get_or (with_patterns c0 pa) "current_url" (VStr "")) c2)
    as [c3 H3].
  { exact (absent_or_str_frame _ _ "target_url" eq_refl F2 Htu). }
  rewrite (bind_ok _ _ _ H3).
  pose proof (frame_trans _ _ _ F2 (frame_stage_navigation _ _ _ _ _ H3)) as F3.
  pose proof (frame_trans _ _ _ F3
                (frame_update c3 _ (owned_keywords target))) as F4.
  destruct (stage_sequence_ok (PyDict.update c3 (_analyze_keywords target)))
    as [c5 H5].
  { unfold history_ok.
    rewrite (F4 "recent_history" (not_in_keys "recent_history" eq_refl)).
    exact Hrh. }
  rewrite (bind_ok _ _ _ H5). eauto.
Qed.


(** The rule engine returns when its rules are well formed. *)
Lemma rule_triggers_ok r a t ctx :
  well_formed r -> exists b, RuleEngine.rule_triggers r a t ctx = Ok b.
Proof.
  intros H. unfold RuleEngine.rule_triggers.
  match goal with
  | |- exists b, (if ?c then _ else _) = _ => destruct c; [eauto|]
  end.
  match goal with
  | |- exists b, (if ?c then _ else _) = _ => destruct c; [eauto|]
  end.
  match goal with
  | |- exists b, (if ?c then _ else _) = _ => destruct c; [eauto|]
  end.
  match goal with
  | |- exists b, (if ?c then _ else _) = _ => destruct c
  end.
  - destruct (SecurityRule.regex r) eqn:Er; [|eauto].
    destruct (H Er) as [p Hp]. unfold PyRe.search. rewrite Hp. cbn. eauto.
  - destruct (SecurityRule.condition r); eauto.
Qed.

Lemma triggered_ok rules a t ctx :
  Forall well_formed rules -> exists tr, RuleEngine.triggered rules a t ctx = Ok tr.
Proof.
  induction rules as [|r rules IH]; intros H; cbn [RuleEngine.triggered]; [eauto|].
  apply Forall_cons in H as [Hr Hrules].
  destruct (rule_triggers_ok r a t ctx Hr) as [b ->].
  destruct (IH Hrules) as [tl ->]. cbn. eauto.
Qed.

Lemma default_rules_well_formed : Forall well_formed RuleEngine._load_default_rules.
Proof.
  unfold RuleEngine._load_default_rules, RuleEngine.rule, well_formed.
  repeat (constructor;
          [cbn [SecurityRule.regex SecurityRule.pattern];
           first [intros H; discriminate H
                 | intros _; vm_compute; eexists; reflexivity]|]).
  constructor.
Qed.

Lemma decide_action_ok s w now a t risk ctx tr h :
  exists s' w' al, decide_action s w now a t risk ctx tr h = Ok (s', w', (al, risk)).
Proof.
  unfold decide_action.
  destruct (confirm_and_notify_spec s w now a t risk ctx tr h)
    as (w1 & al & reason & n & Hreq & _ & s' & w' & Hc & _).
  destruct (20 <? RiskAssessment.score risk)%float; [rewrite Hc; eauto|].
  destruct (security_level s).
  - cbn [log]. eauto.
  - destruct (_ && _); [rewrite Hc; eauto | cbn [log]; eauto].
  - destruct (is_high_or_critical _); [cbn [log]; eauto|].
    destruct (String.eqb _ _); [|cbn [log]; eauto].
    unfold confirm_only. rewrite Hreq. unfold mbind, res_bind. cbn [log]. eauto.
Qed.

(** An entry of the input at which the gate stops asking: one of the four
    answers, an interrupt, or a failure of the input. *)
Definition decisive (i : inp) : Prop :=
  match i with
  | Line response_raw => ~ asks_again response_raw
  | Interrupt | InputFailure => True
  end.

(** What a call may read of the input: nothing; or lines that make the gate
    ask again, up to the first decisive entry or to the end of the input. *)
Definition reads (before after : list inp) : Prop :=
  after = before
  \/ exists skipped,
       Forall asks_again skipped
       /\ ((before = map Line skipped /\ after = [])
           \/ exists x, decisive x /\ before = map Line skipped ++ x :: after).

Lemma _get_user_decision_reads : forall inputs d n rest,
  ConfirmationRequester._get_user_decision inputs = (d, n, rest) ->
  exists skipped,
    Forall asks_again skipped
    /\ ((inputs = map Line skipped /\ rest = [])
        \/ exists x, decisive x /\ inputs = map Line skipped ++ x :: rest).
Proof.
  induction inputs as [|i inputs IH]; intros d n rest H;
    cbn [ConfirmationRequester._get_user_decision] in H.
  { injection H as _ _ <-. exists []. split; [constructor|]. left. auto. }
  assert (Hstop : rest = inputs -> decisive i ->
    exists skipped,
      Forall asks_again skipped
      /\ ((i :: inputs = map Line skipped /\ rest = [])
          \/ exists x, decisive x /\ i :: inputs = map Line skipped ++ x :: rest)).
  { intros -> Hi. exists []. split; [constructor|]. right. exists i. auto. }
  destruct i as [s| |];
    [|injection H as _ _ <-; apply Hstop; [reflexivity | exact I]
     |injection H as _ _ <-; apply Hstop; [reflexivity | exact I]].
  destruct (String.eqb (strip (lower s)) "y") eqn:Ey.
  { injection H as _ _ <-. apply Hstop; [reflexivity|].
    apply String.eqb_eq in Ey. intros (Hy & _). exact (Hy Ey). }
  destruct (String.eqb (strip (lower s)) "a") eqn:Ea.
  { injection H as _ _ <-. apply Hstop; [reflexivity|].
    apply String.eqb_eq in Ea. intros (_ & Ha & _). exact (Ha Ea). }
  destruct (String.eqb (strip (lower s)) "n") eqn:En.
  { injection H as _ _ <-. apply Hstop; [reflexivity|].
    apply String.eqb_eq in En. intros (_ & _ & Hn & _). exact (Hn En). }
  destruct (String.eqb (strip (lower s)) "q") eqn:Eq.
  { injection H as _ _ <-. apply Hstop; [reflexivity|].
    apply String.eqb_eq in Eq. intros (_ & _ & _ & Hq). exact (Hq Eq). }
  clear Hstop.
  destruct (ConfirmationRequester._get_user_decision inputs) as [[d' n'] rest'] eqn:E.
  injection H as _ _ <-.
  assert (Hs : asks_again s).
  { apply String.eqb_neq in Ey, Ea, En, Eq. repeat split; assumption. }
  destruct (IH _ _ _ eq_refl) as (sk & Hsk & [[-> ->] | (x & Hx & ->)]);
    exists (s :: sk); (split; [constructor; assumption|]).
  - left. auto.
  - right. exists x. auto.
Qed.

Lemma request_confirmation_reads self now w a target risk ctx tr w1 d :
  ConfirmationRequester.request_confirmation self now w a target risk ctx tr
  = Ok (w1, d) ->
  reads (stdin w) (stdin w1).
Proof.
  unfold ConfirmationRequester.request_confirmation.
  cbn [record_call hash_cache stdin calls].
  destruct (Utils.generate_action_hash now (hash_cache w) a target ctx)
    as [h cache].
  destruct (bool_decide (h ∈ self)).
  { intros [= <- _]. left. reflexivity. }
  destruct (ScorerProps.mask_sensitive_data_ok target) as [m ->].
  unfold mbind, res_bind.
  destruct (ConfirmationRequester._get_user_decision (stdin w))
    as [[d' n] rest] eqn:E.
  intros [= <- _]. cbn [stdin]. right.
  exact (_get_user_decision_reads _ _ _ _ E).
Qed.

Lemma decide_action_reads s w now a t risk ctx tr h s' w' al r :
  decide_action s w now a t risk ctx tr h = Ok (s', w', (al, r)) ->
  reads (stdin w) (stdin w').
Proof.
  unfold decide_action.
  assert (Hconfirm :
    confirm_and_notify s w now a t risk ctx tr h = Ok (s', w', (al, r)) ->
    reads (stdin w) (stdin w')).
  { intros H.
    destruct (confirm_and_notify_inv _ _ _ _ _ _ _ _ _ _ _ _ _ H)
      as (w1 & reason & Hreq & _ & _ & _ & _ & ->).
    exact (request_confirmation_reads _ _ _ _ _ _ _ _ _ _ Hreq). }
  assert (Honly :
    confirm_only s w now a t risk ctx tr = Ok (s', w', (al, r)) ->
    reads (stdin w) (stdin w')).
  { unfold confirm_only.
    destruct (ConfirmationRequester.request_confirmation _ _ _ _ _ _ _ _)
      as [[w1 [al' reason]]|e] eqn:Hreq; [|discriminate].
    unfold mbind, res_bind. cbn [log].
    intros H. injection H as _ <- _ _. cbn [record_call stdin].
    exact (request_confirmation_reads _ _ _ _ _ _ _ _ _ _ Hreq). }
  assert (Hlog : forall b,
    (let '(s0, w0) := log s w now a t risk b ctx in Ok (s0, w0, (b, risk)))
    = Ok (s', w', (al, r)) -> reads (stdin w) (stdin w')).
  { intros b. cbn [log]. intros H. injection H as _ <- _ _. left. reflexivity. }
  destruct (20 <? RiskAssessment.score risk)%float; [exact Hconfirm|].
  destruct (security_level s).
  - apply Hlog.
  - destruct (_ && _); [exact Hconfirm | apply Hlog].
  - destruct (is_high_or_critical _); [apply Hlog|].
    destruct (String.eqb _ _); [exact Honly | apply Hlog].
Qed.


(** The context as the agent builds it at its third step, and an input with
    a line that is no answer before the answer. *)
Definition agent_context : pydict :=
  [ ("tool_name", VStr "click_element");
    ("tool_args", VDict [("description", VStr "buy now")]);
    ("current_url", VStr "https://shop.example/checkout");
    ("target_url", VStr "");
    ("step_number", VInt 3);
    ("task", VStr "order the book");
    ("page_content", VStr "Your cart");
    ("current_action", VStr "buy now");
    ("recent_history",
     VList [ VDict [ ("step", VInt 1); ("tool", VStr "navigate");
                     ("args", VDict [("url", VStr "https://shop.example")]);
                     ("result", VStr "ok");
                     ("timestamp", VStr "2024-01-01T10:00:00") ];
             VDict [ ("step", VInt 2); ("tool", VStr "click_element");
                     ("args", VDict [("description", VStr "cart")]);
                     ("result", VStr "ok");
                     ("timestamp", VStr "2024-01-01T10:00:05") ] ]);
    ("timestamp", VStr "2024-01-01T10:00:09") ].


End Returns.

(* ===================================================================== *)
(** ** Patterns added to the pattern matcher *)
(* ===================================================================== *)

Section CustomPatterns.
Import PatternMatcher.
#[local] Open Scope list_scope.

Lemma add_custom_pattern_set_item patterns category name pattern :
  add_custom_pattern patterns category name pattern
  = set_item category
      (set_item name pattern (default [] (assoc category patterns))) patterns.
Proof. reflexivity. Qed.

Lemma set_item_fresh {A} k (v : A) l :
  assoc k l = None -> set_item k v l = l ++ [(k, v)].
Proof.
  induction l as [|[k' v'] l IH]; cbn [assoc set_item app]; [reflexivity|].
  destruct (String.eqb k k'); [discriminate|]. intros H. rewrite (IH H). reflexivity.
Qed.

Lemma category_results_malformed_last text cs name pattern :
  PyRe.compile pattern = PyRe.PErr PyRe.Malformed ->
  category_results text (cs ++ [(name, pattern)]) = category_results text cs.
Proof.
  intros Hp.
  assert (Hf : PyRe.findall pattern text true = PyRe.PErr PyRe.Malformed).
  { unfold PyRe.findall. rewrite Hp. reflexivity. }
  induction cs as [|[n p] cs IH]; cbn [app category_results].
  - rewrite Hf. reflexivity.
  - rewrite IH. reflexivity.
Qed.

Lemma all_results_set_item text category cs cs' : forall patterns,
  assoc category patterns = Some cs ->
  category_results text cs' = category_results text cs ->
  all_results text (set_item category cs' patterns) = all_results text patterns.
Proof.
  induction patterns as [|[c ps] patterns IH]; cbn [assoc set_item]; [discriminate|].
  destruct (String.eqb category c) eqn:E.
  - intros [= ->] Hcs. apply String.eqb_eq in E. subst c.
    cbn [all_results]. rewrite Hcs. reflexivity.
  - intros H Hcs. cbn [all_results]. rewrite (IH H Hcs). reflexivity.
Qed.

Lemma all_results_empty_last text category cs : forall patterns,
  category_results text cs = Ok [] ->
  all_results text (patterns ++ [(category, cs)]) = all_results text patterns.
Proof.
  intros patterns Hcs.
  induction patterns as [|[c ps] patterns IH]; cbn [app all_results].
  - rewrite Hcs. reflexivity.
  - rewrite IH. reflexivity.
Qed.



End CustomPatterns.

(* ===================================================================== *)
(** ** The report of the audit logger *)
(* ===================================================================== *)

Section Reports.
Import AuditLogger AuditLoggerProps.
#[local] Open Scope Z_scope.
#[local] Open Scope list_scope.

(** The sum of the counts of a table. *)
Definition counted (l : list (string * Z)) : Z := fold_right Z.add 0 (map snd l).

Lemma bump_counted k l : counted (bump k l) = counted l + 1.
Proof.
  unfold counted. induction l as [|[k' n] l IH]; cbn [bump map fold_right snd].
  - lia.
  - destruct (String.eqb k k'); cbn [map fold_right snd]; lia.
Qed.

Lemma in_bump_keys x k l :
  In x (map fst (bump k l)) -> x = k \/ In x (map fst l).
Proof.
  induction l as [|[k' n] l IH]; cbn [bump map fst In].
  - intros [<- | []]. left. reflexivity.
  - destruct (String.eqb k k'); cbn [map fst In].
    + intros [<- | H]; auto.
    + intros [<- | H]; [auto|]. destruct (IH H); auto.
Qed.

Lemma bump_NoDup k l : NoDup (map fst l) -> NoDup (map fst (bump k l)).
Proof.
  induction l as [|[k' n] l IH]; cbn [bump map fst]; intros H.
  - constructor; [apply not_elem_of_nil | constructor].
  - apply NoDup_cons in H as [Hk' Hl].
    destruct (String.eqb_spec k k') as [->|Hne]; cbn [map fst].
    + apply NoDup_cons. split; assumption.
    + apply NoDup_cons. split; [|apply IH, Hl].
      intros Hin. apply list_elem_of_In, in_bump_keys in Hin as [-> | Hin].
      * apply Hne. reflexivity.
      * apply Hk', list_elem_of_In, Hin.
Qed.

Lemma tally_spec (f : SecurityEvent.t -> string) evs : forall acc,
  NoDup (map fst acc) ->
  counted (fold_left (fun acc e => bump (f e) acc) evs acc)
  = counted acc + Z.of_nat (List.length evs)
  /\ NoDup (map fst (fold_left (fun acc e => bump (f e) acc) evs acc)).
Proof.
  induction evs as [|e evs IH]; intros acc Hacc; cbn [fold_left List.length].
  - split; [lia | exact Hacc].
  - destruct (IH (bump (f e) acc) (bump_NoDup _ _ Hacc)) as [H1 H2].
    split; [|exact H2]. rewrite H1, bump_counted. lia.
Qed.

(** X19.  What a report counts.  In the report of any logger: the total of
    the summary is the number of events held in the store; the recent events
    are the last [limit] of them for a positive [limit], and all of them for
    [limit = 0]; the table of action statistics has one row for each kind of
    action, and its counts add up to the number of recent events. *)
Theorem get_report_counts (self : t) (limit : Z) :
  let r := get_report self limit in
  Report.total_events (Report.summary r) = Z.of_nat (List.length (events self))
  /\ Z.of_nat (List.length (Report.recent_events_list r))
     = Report.recent_events (Report.summary r)
  /\ (0 < limit ->
      Report.recent_events (Report.summary r)
      = Z.min limit (Z.of_nat (List.length (events self)))
      /\ Report.recent_events_list r
         = map event_entry
             (skipn (List.length (events self) - Z.to_nat limit) (events self)))
  /\ (limit = 0 -> Report.recent_events_list r = map event_entry (events self))
  /\ counted (Report.action_statistics r) = Report.recent_events (Report.summary r)
  /\ NoDup (map fst (Report.action_statistics r)).
Proof.
  intros r. subst r. unfold get_report.
  cbn [Report.summary Report.total_events Report.recent_events
       Report.recent_events_list Report.action_statistics].
  split; [reflexivity|]. split; [rewrite List.length_map; reflexivity|].
  split; [|split].
  - intros Hl. unfold last_n.
    replace (0 <? limit) with true by (symmetry; apply Z.ltb_lt; exact Hl).
    destruct (events self) as [|e es] eqn:E.
    + split; [cbn [List.length]; lia | rewrite List.skipn_nil; reflexivity].
    + split; [|reflexivity]. rewrite List.length_skipn. lia.
  - intros ->. destruct (events self); reflexivity.
  - match goal with
    | |- counted (fold_left ?g ?evs []) = _ /\ _ =>
        destruct (tally_spec
                    (fun e => ActionType_.value (SecurityEvent.action e)) evs [])
          as [H1 H2]; [constructor|]
    end.
    split; [rewrite H1; cbn; lia | exact H2].
Qed.

(** X20.  The report mixes two totals.  For a logger of capacity at least
    one that has logged the events [evs], the total of the report is the
    number of events still in the store, at most the capacity, while its
    blocked and confirmed counts cover every event logged; once events were
    evicted the two no longer add up to the total. *)
Theorem report_total_is_store_size (cap limit : Z) (evs : list SecurityEvent.t) :
  1 <= cap ->
  let r := get_report (log_all (init cap) evs) limit in
  Report.total_events (Report.summary r) = Z.min (Z.of_nat (List.length evs)) cap
  /\ Report.blocked_actions (Report.summary r)
     + Report.confirmed_actions (Report.summary r)
     = Z.of_nat (List.length evs).
Proof.
  intros Hcap r. subst r.
  destruct (events_log_all cap evs Hcap) as [Hev _].
  pose proof (count_split SecurityEvent.confirmed evs) as Hsum.
  unfold get_report.
  cbn [Report.summary Report.total_events Report.blocked_actions
       Report.confirmed_actions].
  split.
  - rewrite Hev, List.length_skipn. lia.
  - unfold get_stats. rewrite stats_of_log_all. unfold stats_of.
    cbn [blocked_actions confirmed_actions]. lia.
Qed.

Lemma report_total_is_store_size_witness :
  let evs := [sample_event "low" true; sample_event "high" false;
              sample_event "critical" true] in
  1 <= 2
  /\ Report.total_events (Report.summary (get_report (log_all (init 2) evs) 100))
     = Z.min (Z.of_nat (List.length evs)) 2
  /\ Report.blocked_actions (Report.summary (get_report (log_all (init 2) evs) 100))
     + Report.confirmed_actions
         (Report.summary (get_report (log_all (init 2) evs) 100))
     = Z.of_nat (List.length evs).
Proof.
  intros evs. split; [lia|].
  apply (report_total_is_store_size 2 100 evs). lia.
Defined.

End Reports.

(* ===================================================================== *)
(** ** Removing a pattern from the pattern matcher *)
(* ===================================================================== *)

Section RemovePattern.
Import PatternMatcher.
#[local] Open Scope list_scope.

Lemma assoc_set_item {A} k (v : A) l : assoc k (set_item k v l) = Some v.
Proof.
  induction l as [|[k' v'] l IH]; cbn [set_item assoc].
  - rewrite String.eqb_refl. reflexivity.
  - destruct (String.eqb k k') eqn:E; cbn [assoc].
    + rewrite String.eqb_refl. reflexivity.
    + rewrite E. exact IH.
Qed.

Lemma set_item_set_item {A} k (v v' : A) l :
  set_item k v (set_item k v' l) = set_item k v l.
Proof.
  induction l as [|[k0 v0] l IH]; cbn [set_item].
  - rewrite String.eqb_refl. reflexivity.
  - destruct (String.eqb k k0) eqn:E; cbn [set_item].
    + rewrite String.eqb_refl. reflexivity.
    + rewrite E, IH. reflexivity.
Qed.

Lemma set_item_same {A} k (v : A) l : assoc k l = Some v -> set_item k v l = l.
Proof.
  induction l as [|[k0 v0] l IH]; cbn [set_item assoc]; [discriminate|].
  destruct (String.eqb_spec k k0) as [->|Hne].
  - intros [= ->]. reflexivity.
  - intros H. rewrite (IH H). reflexivity.
Qed.

Lemma del_item_last {A} k (v : A) l :
  assoc k l = None -> del_item k (l ++ [(k, v)]) = l.
Proof.
  induction l as [|[k0 v0] l IH]; cbn [app del_item assoc].
  - rewrite String.eqb_refl. reflexivity.
  - destruct (String.eqb k k0); [discriminate|]. intros H. rewrite (IH H). reflexivity.
Qed.

Lemma has_key_last {A} k (v : A) l : has_key k (l ++ [(k, v)]) = true.
Proof.
  unfold has_key. induction l as [|[k0 v0] l IH]; cbn [app assoc].
  - rewrite String.eqb_refl. reflexivity.
  - destruct (String.eqb k k0); [reflexivity | exact IH].
Qed.

(** X21.  Adding a pattern and removing it again, in a category that is
    absent or holds a pattern already.  A name that the category does not
    hold cannot be removed: [remove_pattern] answers [False] and leaves the
    patterns as they are.  After [add_custom_pattern] has added it,
    [remove_pattern] answers [True] and gives back the patterns as they were
    before, the category itself being dropped again when the pattern added
    was its only one. *)
Theorem remove_pattern_undoes_add patterns category name pattern :
  assoc name (default [] (assoc category patterns)) = None ->
  assoc category patterns <> Some [] ->
  remove_pattern patterns category name = (patterns, false)
  /\ remove_pattern (add_custom_pattern patterns category name pattern)
       category name
     = (patterns, true).
Proof.
  intros Hfresh Hne. split.
  - unfold remove_pattern, has_key.
    destruct (assoc category patterns) as [cs|]; [|reflexivity].
    change (default [] (Some cs)) with cs in Hfresh. rewrite Hfresh. reflexivity.
  - rewrite add_custom_pattern_set_item, (set_item_fresh name pattern _ Hfresh).
    unfold remove_pattern. rewrite assoc_set_item, has_key_last.
    destruct (assoc category patterns) as [cs|] eqn:E.
    + change (default [] (Some cs)) with cs in *.
      rewrite (del_item_last name pattern cs Hfresh).
      rewrite set_item_set_item, (set_item_same category cs patterns E).
      destruct cs; [contradiction Hne; reflexivity | reflexivity].
    + change (default [] None) with (@nil (string * string)) in *.
      rewrite (del_item_last name pattern [] eq_refl).
      rewrite set_item_set_item, (set_item_fresh category [] patterns E).
      rewrite (del_item_last category [] patterns E). reflexivity.
Qed.

Lemma remove_pattern_undoes_add_witness :
  assoc "ticket" (default [] (assoc "url_patterns" _load_patterns)) = None
  /\ assoc "url_patterns" _load_patterns <> Some []
  /\ remove_pattern _load_patterns "url_patterns" "ticket" = (_load_patterns, false)
  /\ remove_pattern (add_custom_pattern _load_patterns "url_patterns" "ticket" "T-\d+")
       "url_patterns" "ticket"
     = (_load_patterns, true).
Proof.
  assert (H1 : assoc "ticket" (default [] (assoc "url_patterns" _load_patterns)) = None)
    by reflexivity.
  assert (H2 : assoc "url_patterns" _load_patterns <> Some []) by discriminate.
  split; [exact H1|]. split; [exact H2|].
  exact (remove_pattern_undoes_add _load_patterns "url_patterns" "ticket" "T-\d+" H1 H2).
Defined.

End RemovePattern.

(* ===================================================================== *)
(** ** The kind of action behind a call of a tool *)
(* ===================================================================== *)

Section Detection.
Import Utils.
#[local] Open Scope list_scope.

Lemma search_ok pat text icase :
  compiles pat -> exists b, of_pres (PyRe.search pat text icase) = Ok b.
Proof. intros [p Hp]. unfold PyRe.search. rewrite Hp. cbn. eauto. Qed.

(** The tools that [detect_action_type] knows. *)
Definition known_tools : list string :=
  ["click_element"; "type_text"; "navigate"; "scroll_down"; "analyze_page"].

(** What is to be shown of the kind [a0] found for the tool [tool]. *)
Definition kind_of_tool (tool : string) (a0 : ActionType) : Prop :=
  a0 <> NAVIGATE_EXTERNAL
  /\ (a0 = NAVIGATE \/ a0 = NAVIGATE_SUSPICIOUS <-> tool = "navigate")
  /\ (a0 = CLICK <-> ~ In tool known_tools)
  /\ (a0 = SCROLL <-> tool = "scroll_down")
  /\ (a0 = ANALYZE <-> tool = "analyze_page").

Ltac decide_side H :=
  first [ reflexivity | left; reflexivity | right; reflexivity | discriminate H
        | destruct H as [H|H]; discriminate H
        | exfalso; apply H; cbn [In]; auto 8 ].

Ltac known_kind :=
  unfold kind_of_tool, known_tools;
  split; [discriminate|];
  split; [split; intros H; decide_side H|];
  split; [split; intros H; decide_side H|];
  split; [split; intros H; decide_side H|];
  split; intros H; decide_side H.

(** X22.  [detect_action_type] always answers, and the kind it gives follows
    the tool: a navigation kind for the tool [navigate] and for no other,
    never [NAVIGATE_EXTERNAL]; [SCROLL] and [ANALYZE] for their two tools
    only; and the plain [CLICK] exactly for the tools it does not know. *)
Theorem detect_action_type_follows_tool tool_name args context :
  exists a,
    detect_action_type tool_name args context = Ok a /\ kind_of_tool tool_name a.
Proof.
  unfold detect_action_type. cbv zeta.
  destruct (String.eqb_spec tool_name "click_element") as [->|H1].
  { eexists. split; [reflexivity|].
    repeat match goal with
           | |- kind_of_tool _ (if ?b then _ else _) => destruct b
           end; known_kind. }
  destruct (String.eqb_spec tool_name "type_text") as [->|H2].
  { match goal with |- exists a, (if ?b then _ else _) = _ /\ _ => destruct b end;
      [eexists; split; [reflexivity | known_kind]|].
    match goal with |- exists a, (if ?b then _ else _) = _ /\ _ => destruct b end;
      [eexists; split; [reflexivity | known_kind]|].
    match goal with
    | |- exists a, mbind _ (of_pres (PyRe.search ?pat ?text ?i)) = _ /\ _ =>
        destruct (search_ok pat text i) as [phone Hphone];
          [vm_compute; eexists; reflexivity | rewrite (bind_ok _ _ _ Hphone)]
    end.
    destruct phone; [eexists; split; [reflexivity | known_kind]|].
    match goal with
    | |- exists a, mbind _ (of_pres (PyRe.search ?pat ?text ?i)) = _ /\ _ =>
        destruct (search_ok pat text i) as [card Hcard];
          [vm_compute; eexists; reflexivity | rewrite (bind_ok _ _ _ Hcard)]
    end.
    destruct card; [eexists; split; [reflexivity | known_kind]|].
    match goal with |- exists a, (if ?b then _ else _) = _ /\ _ => destruct b end;
      [eexists; split; [reflexivity | known_kind]|].
    match goal with |- exists a, (if ?b then _ else _) = _ /\ _ => destruct b end;
      eexists; (split; [reflexivity | known_kind]). }
  destruct (String.eqb_spec tool_name "navigate") as [->|H3].
  { eexists. split; [reflexivity|].
    repeat match goal with
           | |- kind_of_tool _ (if ?b then _ else _) => destruct b
           end; known_kind. }
  destruct (String.eqb_spec tool_name "scroll_down") as [->|H4].
  { eexists. split; [reflexivity | known_kind]. }
  destruct (String.eqb_spec tool_name "analyze_page") as [->|H5].
  { eexists. split; [reflexivity | known_kind]. }
  eexists. split; [reflexivity|].
  unfold kind_of_tool, known_tools. split; [discriminate|].
  split; [split; [intros [H|H]; discriminate H | intros ->; contradiction]|].
  split.
  { split; [|reflexivity]. intros _ Hin. cbn [In] in Hin.
    destruct Hin as [<-|[<-|[<-|[<-|[<-|[]]]]]]; contradiction. }
  split; (split; [discriminate | intros ->; contradiction]).
Qed.

End Detection.

(* ===================================================================== *)
(** ** Searching one category of patterns *)
(* ===================================================================== *)

Section OneCategory.
Import PatternMatcher.
#[local] Open Scope list_scope.

Lemma all_results_keys text : forall ps all,
  all_results text ps = Ok all ->
  forall k, In k (map fst all) -> In k (map fst ps).
Proof.
  induction ps as [|[c cs] ps IH]; cbn [all_results]; intros all H k Hk.
  - injection H as <-. destruct Hk.
  - apply bind_inv in H as (cr & _ & H). apply bind_inv in H as (tl & Htl & H).
    injection H as <-. cbn [map fst In].
    destruct cr as [|x cr].
    + right. exact (IH _ Htl k Hk).
    + cbn [map fst In] in Hk. destruct Hk as [<-|Hk]; [left; reflexivity|].
      right. exact (IH _ Htl k Hk).
Qed.

Lemma filter_other_keys {A} category (l : list (string * A)) :
  ~ In category (map fst l) ->
  List.filter (fun c => String.eqb category (fst c)) l = [].
Proof.
  induction l as [|[k v] l IH]; cbn [List.filter map fst In]; [reflexivity|].
  intros H. destruct (String.eqb_spec category k) as [->|Hne].
  - exfalso. apply H. left. reflexivity.
  - apply IH. intros Hin. apply H. right. exact Hin.
Qed.

Lemma assoc_absent {A} k (l : list (string * A)) :
  ~ In k (map fst l) -> assoc k l = None.
Proof.
  induction l as [|[k' v] l IH]; cbn [assoc map fst In]; [reflexivity|].
  intros H. destruct (String.eqb_spec k k') as [->|Hne].
  - exfalso. apply H. left. reflexivity.
  - apply IH. intros Hin. apply H. right. exact Hin.
Qed.

Lemma one_category text category : forall ps all,
  List.NoDup (map fst ps) ->
  all_results text ps = Ok all ->
  match assoc category ps with
  | Some cs => all_results text [(category, cs)]
  | None => Ok []
  end = Ok (List.filter (fun c => String.eqb category (fst c)) all).
Proof.
  induction ps as [|[c cs] ps IH]; cbn [all_results assoc map fst]; intros all Hnd H.
  - injection H as <-. reflexivity.
  - apply List.NoDup_cons_iff in Hnd as [Hc Hnd].
    apply bind_inv in H as (cr & Hcr & H). apply bind_inv in H as (tl & Htl & H).
    injection H as <-.
    destruct (String.eqb_spec category c) as [->|Hne].
    + cbn [all_results]. rewrite (bind_ok _ _ _ Hcr). cbn [mbind res_bind].
      assert (Hno : List.filter (fun c0 => String.eqb c (fst c0)) tl = []).
      { apply filter_other_keys. intros Hin. apply Hc.
        exact (all_results_keys _ _ _ Htl c Hin). }
      destruct cr as [|x cr]; cbn [List.filter fst].
      * rewrite Hno. reflexivity.
      * rewrite String.eqb_refl, Hno. reflexivity.
    + assert (Hdrop :
        List.filter (fun c0 => String.eqb category (fst c0))
          (match cr with [] => tl | _ :: _ => (c, cr) :: tl end)
        = List.filter (fun c0 => String.eqb category (fst c0)) tl).
      { destruct cr as [|x cr]; cbn [List.filter fst]; [reflexivity|].
        destruct (String.eqb_spec category c); [contradiction | reflexivity]. }
      rewrite Hdrop, <- (IH tl Hnd Htl). reflexivity.
Qed.

(** X23.  A search in one category is the part of the full search that
    belongs to it.  With category names that are distinct, as the keys of a
    dictionary are, [find_patterns] for a category other than [all] returns
    the entries of that category in what the search for [all] returns, and
    nothing when it does not know the category. *)
Theorem find_patterns_of_one_category patterns text category all :
  List.NoDup (map fst patterns) ->
  category <> "all" ->
  find_patterns patterns text "all" = Ok all ->
  find_patterns patterns text category
  = Ok (List.filter (fun c => String.eqb category (fst c)) all)
  /\ (~ In category (get_available_patterns patterns) ->
      find_patterns patterns text category = Ok []).
Proof.
  intros Hnd Hne Hall. unfold find_patterns in *.
  change (String.eqb "all" "all") with true in Hall. cbv iota in Hall.
  apply String.eqb_neq in Hne. rewrite Hne. split.
  - exact (one_category text category patterns all Hnd Hall).
  - intros Hin. unfold get_available_patterns in Hin.
    rewrite (assoc_absent _ _ Hin). reflexivity.
Qed.

Lemma find_patterns_of_one_category_witness :
  exists all,
    List.NoDup (map fst _load_patterns)
    /\ "url_patterns" <> "all"
    /\ find_patterns _load_patterns "see https://example.com" "all" = Ok all
    /\ find_patterns _load_patterns "see https://example.com" "url_patterns"
       = Ok (List.filter (fun c => String.eqb "url_patterns" (fst c)) all)
    /\ (~ In "url_patterns" (get_available_patterns _load_patterns) ->
        find_patterns _load_patterns "see https://example.com"
          "url_patterns" = Ok []).
Proof.
  assert (H1 : List.NoDup (map fst _load_patterns)).
  { apply NoDup_ListNoDup. apply (bool_decide_unpack _). vm_compute. exact I. }
  assert (H2 : "url_patterns" <> "all") by discriminate.
  eexists. split; [exact H1|]. split; [exact H2|]. split; [computed|].
  eapply (find_patterns_of_one_category _load_patterns
            "see https://example.com" "url_patterns" _ H1 H2).
  computed.
Defined.

End OneCategory.
